(** * Personal finance tracker: the accounting engine of [main.py]

    A shallow embedding of the ledger store ([DB]), the currency service
    ([CurrencyService]) and the accounting engine ([FinanceService]) of
    [src/main.py], with the divergent engine of [src/main_v1.py] in module
    [V1].

    - Python [float] and SQLite [REAL] are IEEE-754 binary64: primitive
      floats, with the arithmetic of the source written out.  A REAL
      column gives back the float it was given, except that a NaN is
      stored as NULL and a negative zero comes back as zero.
    - A Python [int] is an integer; SQLite holds 64-bit integers, and
      [sqlite3] raises [OverflowError] when it is asked to bind another.
    - The store is a record of tables; a table is the list of its rows in
      rowid order.
    - An engine operation is a function from the world (store, rate cache,
      number of HTTP requests made so far) to an outcome and the world it
      leaves behind.  [DB.execute] commits after every statement, hence a
      raised exception keeps the writes made before it.
    - What the program reads from its environment is an argument of the
      operation that reads it: [now] for [datetime.utcnow().isoformat()],
      [today] for [date.today()], [net] for the answers of the remote
      rate lookup, [py] for the interpreter, whose builtin [sum] adds
      floats one way up to CPython 3.11 and another way from 3.12 on.
    - The table [categories] has a store of its own ([Store]): the ledger
      operations do not read it, and the reference of an expense to it is
      not enforced. *)

From Stdlib Require Import ZArith Floats SpecFloat String Ascii List Bool Lia.
From Stdlib Require Import Sorted Permutation.
From stdpp Require Import base option list gmap strings.

Local Open Scope string_scope.
Local Open Scope Z_scope.
Local Open Scope list_scope.

(** ** Floats *)

Module Fl.

(** Python's [==] on floats. *)
Definition py_eq (x y : float) : bool := PrimFloat.eqb x y.

Definition is_nan (x : float) : bool := PrimFloat.is_nan x.

(** Round half to even of the non-negative fraction [num / den]. *)
Definition round_half_even (num den : Z) : Z :=
  let q := num / den in
  let r := num mod den in
  match 2 * r ?= den with
  | Lt => q
  | Gt => q + 1
  | Eq => if Z.even q then q else q + 1
  end.

(** Python's [round(x, 2)] on a float: the exact value of [x] is rounded,
    half to even, to a multiple of 1/100 and that decimal is read back as
    the nearest float; infinities, NaN and the sign of a zero are kept.
    A float with a non-negative exponent is an integer and already has
    two decimals. *)
Definition round2 (x : float) : float :=
  match Prim2SF x with
  | S754_finite s m e =>
      if 0 <=? e then x
      else
        match round_half_even (Zpos m * 100) (2 ^ (- e)) with
        | Zpos n =>
            SF2Prim (SFdiv prec emax (S754_finite s n 0)
                                     (S754_finite false 100 0))
        | _ => if s then (-0)%float else 0%float
        end
  | _ => x
  end.

(** What a REAL column gives back for a float it was given (a NaN
    apart, which is stored as NULL): SQLite keeps a float with an integer
    value as that integer, so a negative zero comes back as zero; every
    other float comes back as it was. *)
Definition stored (x : float) : float :=
  if PrimFloat.is_zero x then 0%float else x.

(** The accumulation [total += x] over a list, from [0.0]. *)
Definition sum_left (l : list float) : float :=
  fold_left (fun acc x => acc + x)%float l 0%float.

(** The interpreter, as far as the engine can tell the difference: the
    builtin [sum] of CPython up to 3.11, and that of 3.12 and later. *)
Inductive cpython : Type :=
  | Py311
  | Py312.

(** The float loop of [sum] from CPython 3.12 on (Neumaier's compensated
    summation): [f_result] is the running sum and [c] the compensation,
    added at the end when it is finite and not zero. *)
Fixpoint sum_neumaier (l : list float) (f_result c : float) : float :=
  match l with
  | [] =>
      if negb (PrimFloat.is_zero c) && PrimFloat.is_finite c
      then (f_result + c)%float
      else f_result
  | x :: l' =>
      let t := (f_result + x)%float in
      let c' :=
        if PrimFloat.leb (PrimFloat.abs x) (PrimFloat.abs f_result)
        then (c + ((f_result - t) + x))%float
        else (c + ((x - t) + f_result))%float in
      sum_neumaier l' t c'
  end.

(** Python's [sum] over floats.  It starts from the integer 0: the first
    float [x] makes the result [0 + x], a float, and the float loop takes
    over.  Up to 3.11 the loop is [f_result += x]; from 3.12 on it is
    the compensated one.  The sum of no float is the integer 0, here the
    float of the same value. *)
Definition py_sum (py : cpython) (l : list float) : float :=
  match py with
  | Py311 => sum_left l
  | Py312 =>
      match l with
      | [] => 0%float
      | x :: l' => sum_neumaier l' (0 + x)%float 0%float
      end
  end.

(** The literal [1.0] of the source. *)
Definition one : float := 1%float.

End Fl.

(** ** Exceptions *)

(** The constraint a statement violated. *)
Inductive sql_constraint : Type :=
  | NotNull (table column : string)
  | Check (table column : string)
  | Unique (table column : string).

(** The exceptions the engine can raise: [ValueError] from its own guards
    and from [datetime], [sqlite3.IntegrityError] from a constraint of the
    schema, [OverflowError] from [sqlite3] when a Python int does not fit
    a 64-bit integer; in [main_v1.py] also [IndexError] from the unguarded
    [[0]], [TypeError] from arithmetic on a NULL balance or on a rate
    that is no number, and [OverflowError] from a rate that is an int too
    large for a float. *)
Inductive exn : Type :=
  | ValueError (msg : string)
  | IntegrityError (c : sql_constraint)
  | IndexError (msg : string)
  | TypeError (msg : string)
  | OverflowError (msg : string).

Inductive outcome (A : Type) : Type :=
  | Ok (a : A)
  | Raise (e : exn).
Arguments Ok {A} a.
Arguments Raise {A} e.

(** ** Calendar dates (datetime.date) *)

(** The part of [datetime.date] the engine calls, computed the way
    CPython's [datetime] computes it (proleptic Gregorian ordinals, ISO
    weeks). *)

Module Cal.

(** A [datetime.date]: the fields the class stores.  Its constructor only
    builds dates that satisfy [valid]. *)
Record date : Type := mkDate { year : Z; month : Z; day : Z }.

Definition MINYEAR : Z := 1.
Definition MAXYEAR : Z := 9999.

Definition is_leap (y : Z) : bool :=
  (y mod 4 =? 0) && (negb (y mod 100 =? 0) || (y mod 400 =? 0)).

Definition DAYS_IN_MONTH : list Z :=
  [-1; 31; 28; 31; 30; 31; 30; 31; 31; 30; 31; 30; 31].
Definition DAYS_BEFORE_MONTH : list Z :=
  [-1; 0; 31; 59; 90; 120; 151; 181; 212; 243; 273; 304; 334].

Definition days_in_month (y m : Z) : Z :=
  if (m =? 2) && is_leap y then 29 else nth (Z.to_nat m) DAYS_IN_MONTH 0.

Definition days_before_year (y : Z) : Z :=
  let y' := y - 1 in y' * 365 + y' / 4 - y' / 100 + y' / 400.

Definition days_before_month (y m : Z) : Z :=
  nth (Z.to_nat m) DAYS_BEFORE_MONTH 0
  + (if (2 <? m) && is_leap y then 1 else 0).

Definition validb (d : date) : bool :=
  (MINYEAR <=? year d) && (year d <=? MAXYEAR)
  && (1 <=? month d) && (month d <=? 12)
  && (1 <=? day d) && (day d <=? days_in_month (year d) (month d)).

Definition valid (d : date) : Prop := validb d = true.

(** [date(year, month, day)]: the constructor checks its fields. *)
Definition new_date (y m d : Z) : outcome date :=
  if validb (mkDate y m d) then Ok (mkDate y m d)
  else Raise (ValueError "date field out of range").

Definition ymd2ord (y m d : Z) : Z :=
  days_before_year y + days_before_month y m + d.

Definition toordinal (d : date) : Z := ymd2ord (year d) (month d) (day d).

Definition DI400Y : Z := 146097.
Definition DI100Y : Z := 36524.
Definition DI4Y : Z := 1461.

(** The month and the day of the [n]-th day (from 0) of a year: an
    estimate of the month, corrected when it is one too large. *)
Definition month_and_day (leapyear : bool) (n : Z) : Z * Z :=
  let m := Z.shiftr (n + 50) 5 in
  let preceding := nth (Z.to_nat m) DAYS_BEFORE_MONTH 0
                   + (if (2 <? m) && leapyear then 1 else 0) in
  if n <? preceding then
    let m := m - 1 in
    let preceding := preceding
                     - (nth (Z.to_nat m) DAYS_IN_MONTH 0
                        + (if (m =? 2) && leapyear then 1 else 0)) in
    (m, n - preceding + 1)
  else (m, n - preceding + 1).

(** The (year, month, day) of a proleptic Gregorian ordinal. *)
Definition ord2ymd (n : Z) : Z * Z * Z :=
  let n := n - 1 in
  let n400 := n / DI400Y in
  let n := n mod DI400Y in
  let y := n400 * 400 + 1 in
  let n100 := n / DI100Y in
  let n := n mod DI100Y in
  let n4 := n / DI4Y in
  let n := n mod DI4Y in
  let n1 := n / 365 in
  let n := n mod 365 in
  let y := y + n100 * 100 + n4 * 4 + n1 in
  if (n1 =? 4) || (n100 =? 4) then (y - 1, 12, 31)
  else
    let leapyear := (n1 =? 3) && (negb (n4 =? 24) || (n100 =? 3)) in
    let '(m, d) := month_and_day leapyear n in
    (y, m, d).

(** The ordinal of the Monday that starts ISO week 1 of a year. *)
Definition isoweek1monday (y : Z) : Z :=
  let firstday := ymd2ord y 1 1 in
  let firstweekday := (firstday + 6) mod 7 in
  let week1monday := firstday - firstweekday in
  if 3 <? firstweekday then week1monday + 7 else week1monday.

(** [date.isocalendar()]: ISO year, week (1-53) and weekday (1-7). *)
Definition isocalendar (d : date) : Z * Z * Z :=
  let y := year d in
  let week1monday := isoweek1monday y in
  let today := toordinal d in
  let week := (today - week1monday) / 7 in
  let wday := (today - week1monday) mod 7 in
  if week <? 0 then
    let y := y - 1 in
    let week1monday := isoweek1monday y in
    ((y, (today - week1monday) / 7 + 1), (today - week1monday) mod 7 + 1)
  else if (52 <=? week) && (isoweek1monday (y + 1) <=? today) then
    ((y + 1, 1), wday + 1)
  else ((y, week + 1), wday + 1).

(** [date.fromisocalendar(year, week, day)]. *)
Definition fromisocalendar (y w d : Z) : outcome date :=
  if negb ((MINYEAR <=? y) && (y <=? MAXYEAR))
  then Raise (ValueError "Year is out of range")
  else
    let first_weekday := ymd2ord y 1 1 mod 7 in
    let week_ok :=
      ((0 <? w) && (w <? 53))
      || ((w =? 53)
          && ((first_weekday =? 4) || ((first_weekday =? 3) && is_leap y))) in
    if negb week_ok then Raise (ValueError "Invalid week")
    else if negb ((0 <? d) && (d <? 8)) then Raise (ValueError "Invalid weekday")
    else
      let ord_day := isoweek1monday y + ((w - 1) * 7 + (d - 1)) in
      let '(y', m', d') := ord2ymd ord_day in
      new_date y' m' d'.

(** One decimal digit as a character. *)
Definition digit (n : Z) : ascii := ascii_of_N (Z.to_N (48 + n mod 10)).

(** ["%02d"] and ["%04d"] on the ranges a date has. *)
Definition pad2 (n : Z) (k : string) : string :=
  String (digit (n / 10)) (String (digit n) k).
Definition pad4 (n : Z) (k : string) : string :=
  String (digit (n / 1000)) (String (digit (n / 100)) (pad2 n k)).

(** [date.isoformat()]: YYYY-MM-DD. *)
Definition isoformat (d : date) : string :=
  pad4 (year d) (String "-" (pad2 (month d) (String "-" (pad2 (day d) "")))).

(** The order of [date] objects: the tuples (year, month, day) compared. *)
Definition date_compare (a b : date) : comparison :=
  match year a ?= year b with
  | Eq => match month a ?= month b with
          | Eq => day a ?= day b
          | c => c
          end
  | c => c
  end.

Definition date_lt (a b : date) : Prop := date_compare a b = Lt.

(** The leap day of a year. *)
Definition leap_days (y : Z) : Z := if is_leap y then 1 else 0.

(** [month_and_day] lands on a day of the month it names. *)
Definition month_and_day_ok (leap : bool) (n : Z) : bool :=
  let '(m, d) := month_and_day leap n in
  (1 <=? m) && (m <=? 12) && (1 <=? d)
  && (d <=? (if (m =? 2) && leap then 29
             else nth (Z.to_nat m) DAYS_IN_MONTH 0)).

(** [date.max.toordinal()]. *)
Definition MAXORDINAL : Z := 3652059.

(** The Monday of ISO week 1 as a function of the ordinal of 1 January. *)
Definition week1 (jan1 : Z) : Z :=
  let f := (jan1 + 6) mod 7 in
  if 3 <? f then jan1 - f + 7 else jan1 - f.

(** The week condition of [fromisocalendar]. *)
Definition week_in_year (y w : Z) : Prop :=
  0 < w < 53
  \/ (w = 53
      /\ ((days_before_year y + 1) mod 7 = 4
          \/ ((days_before_year y + 1) mod 7 = 3 /\ is_leap y = true))).

End Cal.

(** ** Ledger store: rows and tables (DB.init_schema) *)

Definition SUPPORTED_CURRENCIES : list string := ["BDT"; "USD"].
Definition ACCOUNT_TYPES : list string := ["fixed"; "liquid"].

Record account : Type := mkAccount {
  acc_id : Z;
  acc_name : string;
  acc_currency : string;
  acc_balance : float;
  acc_type : string;
  acc_created_at : string
}.

Record expense : Type := mkExpense {
  exp_id : Z;
  exp_name : string;
  exp_amount : float;
  exp_currency : string;
  exp_account_id : Z;
  exp_category_id : option Z;
  exp_is_upcoming : Z;
  exp_date : string;
  exp_created_at : string
}.

Record income : Type := mkIncome {
  inc_id : Z;
  inc_source : string;
  inc_description : string;
  inc_amount : float;
  inc_currency : string;
  inc_is_upcoming : Z;
  inc_expected_date : string;
  inc_created_at : string
}.

(** The store.  [seq_*] is the AUTOINCREMENT counter of a table (the row
    of [sqlite_sequence]); [settings] is the key-value table, whose key is
    its primary key. *)
Record DB : Type := mkDB {
  accounts : list account;
  seq_accounts : Z;
  expenses : list expense;
  seq_expenses : Z;
  incomes : list income;
  seq_incomes : Z;
  settings : gmap string string
}.

(** The world an operation runs in: the store, the rate cache of the
    currency service ([self.cache]) and the number of HTTP requests issued
    so far. *)
Record World : Type := mkWorld {
  db : DB;
  cache : gmap (string * string) float;
  requests : nat
}.

(** An operation: outcome and world left behind. *)
Definition M (A : Type) : Type := World -> outcome A * World.

(** Return, raise and sequencing, for any type of worlds. *)
Definition ret {S A} (a : A) : S -> outcome A * S := fun w => (Ok a, w).
Definition raise {S A} (e : exn) : S -> outcome A * S :=
  fun w => (Raise e, w).
Definition bind {S A B} (m : S -> outcome A * S)
    (k : A -> S -> outcome B * S) : S -> outcome B * S :=
  fun w => match m w with
           | (Ok a, w') => k a w'
           | (Raise e, w') => (Raise e, w')
           end.

Declare Scope engine_scope.
Delimit Scope engine_scope with engine.
Notation "'let*' x ':=' m 'in' k" := (bind m (fun x => k))
  (at level 10, x name, m at level 100, k at level 200) : engine_scope.
Notation "'let*' ' p ':=' m 'in' k" :=
  (bind m (fun x => match x with p => k end))
  (at level 10, p pattern, m at level 100, k at level 200) : engine_scope.
Notation "'run' m 'in' k" := (bind m (fun _ => k))
  (at level 10, m at level 100, k at level 200) : engine_scope.
Local Open Scope engine_scope.

Definition get_db : M DB := fun w => (Ok (db w), w).
Definition set_db (d : DB) : M unit :=
  fun w => (Ok tt, mkWorld d (cache w) (requests w)).

(** Membership the way Python's [in] on a list of strings computes it. *)
Definition str_in (s : string) (l : list string) : bool :=
  existsb (String.eqb s) l.

(** ** Statements of the ledger store *)

(** SQLite binds a Python float with [sqlite3_bind_double], which stores a
    NaN as NULL: on a [REAL NOT NULL] column a NaN violates the NOT NULL
    constraint. *)
Definition real_is_null (x : float) : bool := Fl.is_nan x.

(** The integers SQLite holds. *)
Definition INT64_MIN : Z := - 2 ^ 63.
Definition INT64_MAX : Z := 2 ^ 63 - 1.
Definition int64 (n : Z) : bool := (INT64_MIN <=? n) && (n <=? INT64_MAX).
Definition opt_int64 (n : option Z) : bool :=
  match n with
  | None => true
  | Some n => int64 n
  end.

(** [sqlite3] binds the parameters before the statement runs: a Python
    int outside the 64-bit range raises [OverflowError] there, and the
    statement is not run; [None] is bound as NULL. *)
Definition bind_int {S} (n : Z) : S -> outcome unit * S :=
  if int64 n then ret tt
  else raise (OverflowError "Python int too large to convert to SQLite INTEGER").
Definition bind_opt_int {S} (n : option Z) : S -> outcome unit * S :=
  match n with
  | None => ret tt
  | Some n => bind_int n
  end.

Definition with_accounts (d : DB) (l : list account) (n : Z) : DB :=
  mkDB l n (expenses d) (seq_expenses d) (incomes d) (seq_incomes d) (settings d).
Definition with_expenses (d : DB) (l : list expense) (n : Z) : DB :=
  mkDB (accounts d) (seq_accounts d) l n (incomes d) (seq_incomes d) (settings d).
Definition with_incomes (d : DB) (l : list income) (n : Z) : DB :=
  mkDB (accounts d) (seq_accounts d) (expenses d) (seq_expenses d) l n (settings d).

(** [INSERT INTO accounts(name,currency,balance,type,created_at)]: the NOT
    NULL, CHECK and UNIQUE constraints of the table, then the new row with
    the next AUTOINCREMENT id; the result is [lastrowid]. *)
Definition insert_account (name currency : string) (balance : float)
    (acc_type created_at : string) : M Z :=
  let* d := get_db in
  if real_is_null balance
  then raise (IntegrityError (NotNull "accounts" "balance"))
  else if negb (str_in currency ["BDT"; "USD"])
  then raise (IntegrityError (Check "accounts" "currency"))
  else if negb (str_in acc_type ["fixed"; "liquid"])
  then raise (IntegrityError (Check "accounts" "type"))
  else if existsb (fun a => String.eqb (acc_name a) name) (accounts d)
  then raise (IntegrityError (Unique "accounts" "name"))
  else
    let id := seq_accounts d + 1 in
    run set_db (with_accounts d
           (accounts d ++ [mkAccount id name currency (Fl.stored balance)
                             acc_type created_at])
           id) in
    ret id.

(** [INSERT INTO expenses(...)].  The two ids are bound as integers.
    Foreign keys are declared but SQLite enforces them only under
    [PRAGMA foreign_keys=ON], which the program never issues: [account_id]
    and [category_id] are not looked up. *)
Definition insert_expense (name : string) (amount : float) (currency : string)
    (account_id : Z) (category_id : option Z) (is_upcoming : Z)
    (date created_at : string) : M Z :=
  run bind_int account_id in
  run bind_opt_int category_id in
  let* d := get_db in
  if real_is_null amount
  then raise (IntegrityError (NotNull "expenses" "amount"))
  else if negb (str_in currency ["BDT"; "USD"])
  then raise (IntegrityError (Check "expenses" "currency"))
  else
    let id := seq_expenses d + 1 in
    run set_db (with_expenses d
           (expenses d ++ [mkExpense id name (Fl.stored amount) currency
                             account_id category_id is_upcoming date
                             created_at])
           id) in
    ret id.

(** [INSERT INTO incomes(...)]. *)
Definition insert_income (source description : string) (amount : float)
    (currency : string) (is_upcoming : Z) (expected_date created_at : string)
    : M Z :=
  let* d := get_db in
  if real_is_null amount
  then raise (IntegrityError (NotNull "incomes" "amount"))
  else if negb (str_in currency ["BDT"; "USD"])
  then raise (IntegrityError (Check "incomes" "currency"))
  else
    let id := seq_incomes d + 1 in
    run set_db (with_incomes d
           (incomes d ++ [mkIncome id source description (Fl.stored amount)
                            currency is_upcoming expected_date created_at])
           id) in
    ret id.

(** [SELECT ... FROM accounts WHERE id=?]. *)
Definition select_account_by_id (account_id : Z) : M (list account) :=
  run bind_int account_id in
  let* d := get_db in
  ret (filter (fun a => acc_id a = account_id) (accounts d)).

(** The row after [SET balance=?], when its id is the one asked for. *)
Definition set_balance (account_id : Z) (new_balance : float) (a : account)
    : account :=
  if Z.eqb (acc_id a) account_id
  then mkAccount (acc_id a) (acc_name a) (acc_currency a)
                 (Fl.stored new_balance) (acc_type a) (acc_created_at a)
  else a.

(** [UPDATE accounts SET balance=? WHERE id=?]: a NaN is NULL and is
    refused by the first row the statement would change. *)
Definition update_accounts_balance (account_id : Z) (new_balance : float)
    : M unit :=
  run bind_int account_id in
  let* d := get_db in
  if real_is_null new_balance
     && existsb (fun a => Z.eqb (acc_id a) account_id) (accounts d)
  then raise (IntegrityError (NotNull "accounts" "balance"))
  else set_db (with_accounts d (map (set_balance account_id new_balance)
                                    (accounts d))
                             (seq_accounts d)).

(** [ORDER BY created_at DESC]: TEXT under the BINARY collation compares
    byte by byte.  SQLite leaves the order of rows with equal keys open;
    here they stay in scan (rowid) order. *)
Fixpoint insert_desc (a : account) (l : list account) : list account :=
  match l with
  | [] => [a]
  | b :: l' =>
      if String.ltb (acc_created_at b) (acc_created_at a)
      then a :: l
      else b :: insert_desc a l'
  end.

Definition order_by_created_at_desc (l : list account) : list account :=
  fold_left (fun acc a => insert_desc a acc) l [].

(** ** Currency service *)

Section Currency.

(** The remote rate lookup: [net n base target] is what the [n]-th HTTP
    request of the process yields when it asks for [base] to [target]:
    [Some r] when the request succeeds with status 200 and a payload
    whose rate parses to the float [r], [None] on a timeout, a bad
    status or a malformed payload. *)
Variable net : nat -> string -> string -> option float.

(** [self.fallback_rate] of [CurrencyService.__init__]. *)
Definition fallback_rate : gmap (string * string) float :=
  <[("BDT", "USD") := (1 / 120.0)%float]>
    (<[("USD", "BDT") := 120.0%float]> ∅).

(** [CurrencyService.get_display_currency]. *)
Definition get_display_currency : M string :=
  fun w => (Ok (default "BDT" (settings (db w) !! "display_currency")), w).

(** [CurrencyService.set_display_currency]. *)
Definition set_display_currency (cur : string) : M unit :=
  if negb (str_in cur SUPPORTED_CURRENCIES)
  then raise (ValueError "Unsupported display currency")
  else
    let* d := get_db in
    set_db (mkDB (accounts d) (seq_accounts d) (expenses d) (seq_expenses d)
                 (incomes d) (seq_incomes d)
                 (<["display_currency" := cur]> (settings d))).

(** [CurrencyService.fetch_rate]. *)
Definition fetch_rate (base target : string) : M float :=
  fun w =>
    if String.eqb base target then (Ok Fl.one, w)
    else
      let key := (base, target) in
      match cache w !! key with
      | Some r => (Ok r, w)
      | None =>
          match net (requests w) base target with
          | Some rate =>
              (Ok rate, mkWorld (db w) (<[key := rate]> (cache w))
                                (S (requests w)))
          | None =>
              (Ok (default Fl.one (fallback_rate !! key)),
               mkWorld (db w) (cache w) (S (requests w)))
          end
      end.

(** [CurrencyService.convert]. *)
Definition convert (amount : float) (base target : string) : M float :=
  let* r := fetch_rate base target in
  ret (amount * r)%float.

End Currency.

(** ** Accounting engine (FinanceService) *)

Section Finance.

Variable net : nat -> string -> string -> option float.

(** The interpreter that runs the engine. *)
Variable py : Fl.cpython.

(** [FinanceService.add_account]; [now] is [datetime.utcnow().isoformat()]. *)
Definition add_account (now : string) (name currency : string)
    (balance : float) (acc_type : string) : M Z :=
  if negb (str_in currency SUPPORTED_CURRENCIES)
  then raise (ValueError "Unsupported currency")
  else if negb (str_in acc_type ACCOUNT_TYPES)
  then raise (ValueError "Unsupported account type")
  else insert_account name currency balance acc_type now.

(** [FinanceService.list_accounts]. *)
Definition list_accounts : M (list account) :=
  let* d := get_db in
  ret (order_by_created_at_desc (accounts d)).

(** [FinanceService.update_balance]. *)
Definition update_balance (account_id : Z) (new_balance : float) : M unit :=
  update_accounts_balance account_id new_balance.

(** The amount in the currency of the account: [fx.convert] only when the
    currencies differ. *)
Definition to_account_currency (amount : float) (currency acc_cur : string)
    : M float :=
  if negb (String.eqb currency acc_cur)
  then convert net amount currency acc_cur
  else ret amount.

(** [FinanceService.add_expense]. *)
Definition add_expense (now : string) (name : string) (amount : float)
    (currency : string) (account_id : Z) (category_id : option Z)
    (is_upcoming : bool) (when : Cal.date) : M unit :=
  run insert_expense name amount currency account_id category_id
        (if is_upcoming then 1 else 0) (Cal.isoformat when) now in
  if negb is_upcoming then
    let* acc := select_account_by_id account_id in
    match acc with
    | a :: _ =>
        let acc_cur := acc_currency a in
        let* debit := to_account_currency amount currency acc_cur in
        update_balance account_id (acc_balance a - debit)%float
    | [] => ret tt
    end
  else ret tt.

(** The target account of an income: the loop with [break], then the
    fallback to [accounts[0]]. *)
Definition income_target (currency : string) (accs : list account)
    : option account :=
  match List.find (fun a => String.eqb (acc_type a) "liquid"
                            && String.eqb (acc_currency a) currency) accs with
  | Some a => Some a
  | None => head accs
  end.

(** [FinanceService.add_income]. *)
Definition add_income (now : string) (source description : string)
    (amount : float) (currency : string) (is_upcoming : bool)
    (expected_date : Cal.date) : M unit :=
  run insert_income source description amount currency
        (if is_upcoming then 1 else 0) (Cal.isoformat expected_date) now in
  if negb is_upcoming then
    let* accs := list_accounts in
    match income_target currency accs with
    | Some target_acc =>
        let acc_cur := acc_currency target_acc in
        let* credit := to_account_currency amount currency acc_cur in
        update_balance (acc_id target_acc) (acc_balance target_acc + credit)%float
    | None => ret tt
    end
  else ret tt.

(** The results of the aggregates: Python dicts with fixed keys. *)
Record totals_result : Type := mkTotals {
  t_display_currency : string;
  total_fixed : float;
  total_liquid : float;
  total_all : float
}.

Record upcoming_result : Type := mkUpcoming {
  u_display_currency : string;
  upcoming_expenses : float;
  upcoming_incomes : float;
  projected_total : float
}.

Record summary_result : Type := mkSummary {
  s_display_currency : string;
  s_period : string;
  s_expenses : float;
  s_income : float;
  s_net : float
}.

(** The loop of [totals]: the pair (total_fixed, total_liquid). *)
Fixpoint totals_loop (display_cur : string) (accs : list account)
    (tf tl : float) : M (float * float) :=
  match accs with
  | [] => ret (tf, tl)
  | a :: rest =>
      let* amt :=
        (if String.eqb (acc_currency a) display_cur
         then ret (acc_balance a)
         else convert net (acc_balance a) (acc_currency a) display_cur) in
      if String.eqb (acc_type a) "fixed"
      then totals_loop display_cur rest (tf + amt)%float tl
      else totals_loop display_cur rest tf (tl + amt)%float
  end.

(** [FinanceService.totals]. *)
Definition totals : M totals_result :=
  let* display_cur := get_display_currency in
  let* accs := list_accounts in
  let* '(tf, tl) := totals_loop display_cur accs 0%float 0%float in
  ret (mkTotals display_cur (Fl.round2 tf) (Fl.round2 tl)
                (Fl.round2 (tf + tl)%float)).

(** The generator [fx.convert(r["amount"], r["currency"], display_cur) for
    r in rows], run to the list of its values; a row is the pair (amount,
    currency) the query selects. *)
Fixpoint convert_all (rows : list (float * string)) (display_cur : string)
    : M (list float) :=
  match rows with
  | [] => ret []
  | (amount, currency) :: rest =>
      let* x := convert net amount currency display_cur in
      let* xs := convert_all rest display_cur in
      ret (x :: xs)
  end.

(** [sum(fx.convert(...) for r in rows)]. *)
Definition sum_converted (rows : list (float * string)) (display_cur : string)
    : M float :=
  let* xs := convert_all rows display_cur in
  ret (Fl.py_sum py xs).

(** [SELECT amount, currency FROM expenses WHERE is_upcoming=1] and its
    twin on incomes. *)
Definition upcoming_expense_rows (d : DB) : list (float * string) :=
  map (fun e => (exp_amount e, exp_currency e))
      (List.filter (fun e => exp_is_upcoming e =? 1) (expenses d)).
Definition upcoming_income_rows (d : DB) : list (float * string) :=
  map (fun i => (inc_amount i, inc_currency i))
      (List.filter (fun i => inc_is_upcoming i =? 1) (incomes d)).

(** [FinanceService.upcoming_totals]. *)
Definition upcoming_totals : M upcoming_result :=
  let* display_cur := get_display_currency in
  let* d := get_db in
  let exp := upcoming_expense_rows d in
  let inc := upcoming_income_rows d in
  let* up_exp := sum_converted exp display_cur in
  let* up_inc := sum_converted inc display_cur in
  let* t := totals in
  ret (mkUpcoming display_cur (Fl.round2 up_exp) (Fl.round2 up_inc)
                  (Fl.round2 (total_all t - up_exp + up_inc)%float)).

(** The start of a period; [today] is [date.today()]. *)
Definition period_start (today : Cal.date) (period : string)
    : outcome Cal.date :=
  if String.eqb period "daily" then Ok today
  else if String.eqb period "weekly" then
    let '(iso_year, iso_week, _) := Cal.isocalendar today in
    Cal.fromisocalendar iso_year iso_week 1
  else if String.eqb period "monthly" then
    Cal.new_date (Cal.year today) (Cal.month today) 1
  else Raise (ValueError "period must be daily/weekly/monthly").

(** [SELECT amount, currency FROM expenses WHERE date>=?] and its twin on
    incomes: TEXT compared byte by byte. *)
Definition expenses_since (start : string) (d : DB) : list expense :=
  List.filter (fun e => String.leb start (exp_date e)) (expenses d).
Definition incomes_since (start : string) (d : DB) : list income :=
  List.filter (fun i => String.leb start (inc_expected_date i)) (incomes d).

(** [FinanceService.period_summary]. *)
Definition period_summary (today : Cal.date) (period : string)
    : M summary_result :=
  let* display_cur := get_display_currency in
  match period_start today period with
  | Raise e => raise e
  | Ok start =>
      let* d := get_db in
      let exp := map (fun e => (exp_amount e, exp_currency e))
                     (expenses_since (Cal.isoformat start) d) in
      let inc := map (fun i => (inc_amount i, inc_currency i))
                     (incomes_since (Cal.isoformat start) d) in
      let* total_exp := sum_converted exp display_cur in
      let* total_inc := sum_converted inc display_cur in
      ret (mkSummary display_cur period (Fl.round2 total_exp)
                     (Fl.round2 total_inc)
                     (Fl.round2 (total_inc - total_exp)%float))
  end.

End Finance.

(** ** Further operations of the engine *)

(** [ORDER BY] with a stable sorter: [before x y] says that [x] may come
    before [y]; a row is placed after the rows that may come before it,
    so rows with equal keys stay in scan order. *)
Fixpoint insert_by {A : Type} (before : A -> A -> bool) (a : A) (l : list A)
    : list A :=
  match l with
  | [] => [a]
  | b :: l' => if before b a then b :: insert_by before a l' else a :: l
  end.

Definition sort_by {A : Type} (before : A -> A -> bool) (l : list A)
    : list A :=
  fold_left (fun acc a => insert_by before a acc) l [].

(** Two keys, both descending, as [ORDER BY k1 DESC, k2 DESC] on TEXT. *)
Definition desc_desc (k1x k2x k1y k2y : string) : bool :=
  match String.compare k1x k1y with
  | Gt => true
  | Lt => false
  | Eq => String.leb k2y k2x
  end.

(** What [desc_desc] decides, in words: the first key is later, or the
    first keys are equal and the second key is not earlier. *)
Definition later_first (k1x k2x k1y k2y : string) : Prop :=
  String.ltb k1y k1x = true
  \/ (k1x = k1y /\ String.leb k2y k2x = true).

Definition expense_before (x y : expense) : bool :=
  desc_desc (exp_date x) (exp_created_at x) (exp_date y) (exp_created_at y).

Definition income_before (x y : income) : bool :=
  desc_desc (inc_expected_date x) (inc_created_at x)
            (inc_expected_date y) (inc_created_at y).

(** [FinanceService.list_expenses]: [ORDER BY date DESC, created_at DESC]. *)
Definition list_expenses : M (list expense) :=
  let* d := get_db in
  ret (sort_by expense_before (expenses d)).

(** [FinanceService.list_incomes]: [ORDER BY expected_date DESC,
    created_at DESC]. *)
Definition list_incomes : M (list income) :=
  let* d := get_db in
  ret (sort_by income_before (incomes d)).

(** ** Categories and the opening of the store *)

Record category : Type := mkCategory {
  cat_id : Z;
  cat_name : string;
  cat_kind : string;
  cat_is_default : Z
}.

(** The whole store: the tables of [DB] and the table [categories] with
    its AUTOINCREMENT counter. *)
Record Store : Type := mkStore {
  ledger : DB;
  categories : list category;
  seq_categories : Z
}.

(** The tables [CREATE TABLE IF NOT EXISTS] makes on a new file. *)
Definition empty_store : Store :=
  mkStore (mkDB [] 0 [] 0 [] 0 ∅) [] 0.

(** [INSERT INTO categories(name, kind, is_default)]: the CHECK on [kind],
    then the new row. *)
Definition insert_category (name kind : string) (is_default : Z) (s : Store)
    : outcome Z * Store :=
  if negb (str_in kind ["expense"; "income"])
  then (Raise (IntegrityError (Check "categories" "kind")), s)
  else
    let id := seq_categories s + 1 in
    (Ok id,
     mkStore (ledger s)
             (categories s ++ [mkCategory id name kind is_default]) id).

(** The list [defaults] of [DB.seed_defaults]. *)
Definition default_categories : list (string * string * Z) :=
  [("Groceries", "expense", 1); ("Rent", "expense", 1);
   ("Utilities", "expense", 1); ("Transport", "expense", 1);
   ("Dining", "expense", 1); ("Healthcare", "expense", 1);
   ("Entertainment", "expense", 1); ("Salary", "income", 1);
   ("Freelance", "income", 1); ("Investment", "income", 1)].

(** [SELECT 1 FROM categories WHERE name=? AND kind=?] finds a row. *)
Definition has_category (name kind : string) (s : Store) : bool :=
  existsb (fun c => String.eqb (cat_name c) name
                    && String.eqb (cat_kind c) kind) (categories s).

(** The loop of [seed_defaults] over the list. *)
Fixpoint seed_categories (defaults : list (string * string * Z)) (s : Store)
    : outcome unit * Store :=
  match defaults with
  | [] => (Ok tt, s)
  | (name, kind, is_default) :: rest =>
      if has_category name kind s then seed_categories rest s
      else
        match insert_category name kind is_default s with
        | (Ok _, s') => seed_categories rest s'
        | (Raise e, s') => (Raise e, s')
        end
  end.

(** [DB.seed_defaults]: the categories, then the display currency when no
    row of [settings] has that key. *)
Definition seed_defaults (s : Store) : outcome unit * Store :=
  match seed_categories default_categories s with
  | (Raise e, s') => (Raise e, s')
  | (Ok _, s') =>
      match settings (ledger s') !! "display_currency" with
      | Some _ => (Ok tt, s')
      | None =>
          let d := ledger s' in
          (Ok tt,
           mkStore (mkDB (accounts d) (seq_accounts d) (expenses d)
                         (seq_expenses d) (incomes d) (seq_incomes d)
                         (<["display_currency" := "BDT"]> (settings d)))
                   (categories s') (seq_categories s'))
      end
  end.

(** [DB.__init__]: [file] is the store found at the path, if any; the
    tables are created when absent and the defaults are seeded. *)
Definition init_schema (file : option Store) : outcome unit * Store :=
  seed_defaults (default empty_store file).

(** [FinanceService.add_category]. *)
Definition add_category (name kind : string) (s : Store)
    : outcome unit * Store :=
  if negb (str_in kind ["expense"; "income"])
  then (Raise (ValueError "kind must be 'expense' or 'income'"), s)
  else
    match insert_category name kind 0 s with
    | (Ok _, s') => (Ok tt, s')
    | (Raise e, s') => (Raise e, s')
    end.

(** [ORDER BY is_default DESC, name ASC]. *)
Definition category_before (x y : category) : bool :=
  match cat_is_default x ?= cat_is_default y with
  | Gt => true
  | Lt => false
  | Eq => String.leb (cat_name x) (cat_name y)
  end.

(** [FinanceService.list_categories]. *)
Definition list_categories (kind : string) (s : Store) : list category :=
  sort_by category_before
    (List.filter (fun c => String.eqb (cat_kind c) kind) (categories s)).

(** ** The cards of the home page *)

(** [HomePage.refresh]: the number of cards in a row, by window width. *)
Definition per_row (width : Z) : Z :=
  if 1000 <? width then 4 else if 700 <? width then 2 else 1.

(** The loop that adds the cards to the grid; [(row, col)] is the cell of
    the next card. *)
Fixpoint place_cards {A : Type} (per_row : Z) (cards : list A) (row col : Z)
    : list (A * (Z * Z)) :=
  match cards with
  | [] => []
  | c :: rest =>
      (c, (row, col))
      :: (if per_row <=? col + 1
          then place_cards per_row rest (row + 1) 0
          else place_cards per_row rest row (col + 1))
  end.

Definition card_cells {A : Type} (width : Z) (cards : list A)
    : list (A * (Z * Z)) :=
  place_cards (per_row width) cards 0 0.

(** ** The engine of [main_v1.py] *)

Module V1.

(** A value of Python the way [r.json()] builds one: [fetch_rate] of
    [main_v1.py] returns and caches [r.json()["rates"][target]] as it is,
    a number or not.  What a list or a dict holds plays no part. *)
Inductive pyval : Type :=
  | PyNone
  | PyBool (b : bool)
  | PyInt (n : Z)
  | PyFloat (x : float)
  | PyStr (s : string)
  | PyList
  | PyDict.

(** The float of a Python int, rounded half to even; none when the int
    is too large. *)
Definition float_of_int (n : Z) : option float :=
  match binary_normalize prec emax n 0 false with
  | S754_infinity _ => None
  | x => Some (SF2Prim x)
  end.

(** [amt * v] for a float [amt]. *)
Definition times (amt : float) (v : pyval) : outcome float :=
  match v with
  | PyFloat x => Ok (amt * x)%float
  | PyInt n =>
      match float_of_int n with
      | Some x => Ok (amt * x)%float
      | None => Raise (OverflowError "int too large to convert to float")
      end
  | PyBool b => Ok (amt * (if b then 1 else 0))%float
  | PyNone =>
      Raise (TypeError
               "unsupported operand type(s) for *: 'float' and 'NoneType'")
  | PyStr _ | PyList =>
      Raise (TypeError "can't multiply sequence by non-int of type 'float'")
  | PyDict =>
      Raise (TypeError
               "unsupported operand type(s) for *: 'float' and 'dict'")
  end.

(** The schema of [main_v1.py] declares no constraint: every column may
    hold NULL, and a float bound as NaN is stored as NULL. *)
Definition bind_real (x : float) : option float :=
  if Fl.is_nan x then None else Some (Fl.stored x).

Record account : Type := mkAccount {
  acc_id : Z;
  acc_name : string;
  acc_currency : string;
  acc_balance : option float;
  acc_type : string;
  acc_created_at : string
}.

Record expense : Type := mkExpense {
  exp_id : Z;
  exp_name : string;
  exp_amount : option float;
  exp_currency : string;
  exp_account_id : Z;
  exp_category_id : option Z;
  exp_is_upcoming : Z;
  exp_date : string;
  exp_created_at : string
}.

Record income : Type := mkIncome {
  inc_id : Z;
  inc_source : string;
  inc_description : string;
  inc_amount : option float;
  inc_currency : string;
  inc_account_id : Z;
  inc_is_upcoming : Z;
  inc_expected_date : string;
  inc_created_at : string
}.

Record transfer_row : Type := mkTransfer {
  tr_id : Z;
  tr_from_account : Z;
  tr_to_account : Z;
  tr_amount : option float;
  tr_currency : string;
  tr_date : string
}.

(** The tables the operations below touch. *)
Record DB : Type := mkDB {
  accounts : list account;
  seq_accounts : Z;
  expenses : list expense;
  seq_expenses : Z;
  incomes : list income;
  seq_incomes : Z;
  transfers : list transfer_row;
  seq_transfers : Z
}.

Record World : Type := mkWorld {
  db : DB;
  cache : gmap (string * string) pyval;
  requests : nat
}.

Definition M (A : Type) : Type := World -> outcome A * World.

Definition get_db : M DB := fun w => (Ok (db w), w).
Definition set_db (d : DB) : M unit :=
  fun w => (Ok tt, mkWorld d (cache w) (requests w)).

(** The outcome of an expression that touches no state. *)
Definition lift {A} (o : outcome A) : M A := fun w => (o, w).

Definition with_accounts (d : DB) (l : list account) (n : Z) : DB :=
  mkDB l n (expenses d) (seq_expenses d) (incomes d) (seq_incomes d)
       (transfers d) (seq_transfers d).
Definition with_expenses (d : DB) (l : list expense) (n : Z) : DB :=
  mkDB (accounts d) (seq_accounts d) l n (incomes d) (seq_incomes d)
       (transfers d) (seq_transfers d).
Definition with_incomes (d : DB) (l : list income) (n : Z) : DB :=
  mkDB (accounts d) (seq_accounts d) (expenses d) (seq_expenses d) l n
       (transfers d) (seq_transfers d).
Definition with_transfers (d : DB) (l : list transfer_row) (n : Z) : DB :=
  mkDB (accounts d) (seq_accounts d) (expenses d) (seq_expenses d)
       (incomes d) (seq_incomes d) l n.

Section Engine.

(** The remote lookup of [main_v1.py]: [net n base target] is
    [Some v] when the [n]-th request and the two subscripts of its JSON
    payload go through, [v] being the value found; [None] when anything
    in the [try] block raises. *)
Variable net : nat -> string -> string -> option pyval.

(** [CurrencyService.fetch_rate]: the value found is cached and returned
    unconverted; the bare [except] answers 120.0 for USD to BDT and
    1/120.0 for every other pair. *)
Definition fetch_rate (base target : string) : M pyval :=
  fun w =>
    if String.eqb base target then (Ok (PyFloat 1), w)
    else
      let key := (base, target) in
      match cache w !! key with
      | Some r => (Ok r, w)
      | None =>
          match net (requests w) base target with
          | Some rate =>
              (Ok rate, mkWorld (db w) (<[key := rate]> (cache w))
                                (S (requests w)))
          | None =>
              (Ok (PyFloat
                     (if String.eqb base "USD" && String.eqb target "BDT"
                      then 120 else 1 / 120)),
               mkWorld (db w) (cache w) (S (requests w)))
          end
      end.

(** [CurrencyService.convert]: [amt*self.fetch_rate(base,target)]. *)
Definition convert (amt : float) (base target : string) : M float :=
  let* r := fetch_rate base target in
  lift (times amt r).

(** [FinanceService.add_account]: no guard, no constraint. *)
Definition add_account (now name currency : string) (balance : float)
    (atype : string) : M Z :=
  let* d := get_db in
  let id := seq_accounts d + 1 in
  run set_db (with_accounts d
         (accounts d
          ++ [mkAccount id name currency (bind_real balance) atype now])
         id) in
  ret id.

(** [SELECT * FROM accounts WHERE id=?]. *)
Definition accounts_by_id (id : Z) : M (list account) :=
  run bind_int id in
  let* d := get_db in
  ret (List.filter (fun a => Z.eqb (acc_id a) id) (accounts d)).

(** The row after [SET balance=?], when its id is the one asked for. *)
Definition set_balance (acc_id' : Z) (new_bal : float) (a : account)
    : account :=
  if Z.eqb (acc_id a) acc_id'
  then mkAccount (acc_id a) (acc_name a) (acc_currency a) (bind_real new_bal)
                 (acc_type a) (acc_created_at a)
  else a.

(** [FinanceService.update_balance]. *)
Definition update_balance (acc_id' : Z) (new_bal : float) : M unit :=
  run bind_int acc_id' in
  let* d := get_db in
  set_db (with_accounts d (map (set_balance acc_id' new_bal) (accounts d))
                        (seq_accounts d)).

(** [self.fx.convert(amt,currency,acc["currency"]) if
    currency!=acc["currency"] else amt]. *)
Definition in_currency_of (acc : account) (amt : float) (currency : string)
    : M float :=
  if negb (String.eqb currency (acc_currency acc))
  then convert amt currency (acc_currency acc)
  else ret amt.

(** [acc["balance"] - debit] and [acc["balance"] + credit]: the balance
    read may be NULL. *)
Definition minus (balance : option float) (debit : float) : outcome float :=
  match balance with
  | Some b => Ok (b - debit)%float
  | None =>
      Raise (TypeError
               "unsupported operand type(s) for -: 'NoneType' and 'float'")
  end.
Definition plus (balance : option float) (credit : float) : outcome float :=
  match balance with
  | Some b => Ok (b + credit)%float
  | None =>
      Raise (TypeError
               "unsupported operand type(s) for +: 'NoneType' and 'float'")
  end.

(** [...)[0]] on the rows of a query. *)
Definition first_row {A} (rows : list A) : M A :=
  match rows with
  | r :: _ => ret r
  | [] => raise (IndexError "list index out of range")
  end.

(** [FinanceService.add_expense]: the row is inserted; then, unless
    upcoming, the first row of the account query is taken with [[0]]. *)
Definition add_expense (now name : string) (amt : float) (currency : string)
    (acc_id' : Z) (cat_id : option Z) (is_upcoming : bool) (when : Cal.date)
    : M unit :=
  run bind_int acc_id' in
  run bind_opt_int cat_id in
  let* d := get_db in
  let id := seq_expenses d + 1 in
  run set_db (with_expenses d
         (expenses d
          ++ [mkExpense id name (bind_real amt) currency acc_id' cat_id
                (if is_upcoming then 1 else 0) (Cal.isoformat when) now])
         id) in
  if negb is_upcoming then
    let* rows := accounts_by_id acc_id' in
    let* acc := first_row rows in
    let* debit := in_currency_of acc amt currency in
    let* new_bal := lift (minus (acc_balance acc) debit) in
    update_balance acc_id' new_bal
  else ret tt.

(** [FinanceService.add_income] of [main_v1.py]: the row names its
    account; unless upcoming, that account is credited. *)
Definition add_income (now src desc : string) (amt : float)
    (currency : string) (acc_id' : Z) (is_upcoming : bool) (when : Cal.date)
    : M unit :=
  run bind_int acc_id' in
  let* d := get_db in
  let id := seq_incomes d + 1 in
  run set_db (with_incomes d
         (incomes d
          ++ [mkIncome id src desc (bind_real amt) currency acc_id'
                (if is_upcoming then 1 else 0) (Cal.isoformat when) now])
         id) in
  if negb is_upcoming then
    let* rows := accounts_by_id acc_id' in
    let* acc := first_row rows in
    let* credit := in_currency_of acc amt currency in
    let* new_bal := lift (plus (acc_balance acc) credit) in
    update_balance acc_id' new_bal
  else ret tt.

(** [FinanceService.transfer]: both rows are read first; the balance of
    the source is written, then that of the target, each from the row
    read at the start; the transfer is recorded last.  [now] is
    [datetime.utcnow().isoformat()]. *)
Definition transfer (now : string) (from_id to_id : Z) (amt : float)
    (currency : string) : M unit :=
  let* frows := accounts_by_id from_id in
  let* f := first_row frows in
  let* trows := accounts_by_id to_id in
  let* t := first_row trows in
  let* debit := in_currency_of f amt currency in
  let* credit := in_currency_of t amt currency in
  let* fbal := lift (minus (acc_balance f) debit) in
  run update_balance from_id fbal in
  let* tbal := lift (plus (acc_balance t) credit) in
  run update_balance to_id tbal in
  let* d := get_db in
  let id := seq_transfers d + 1 in
  set_db (with_transfers d
            (transfers d
             ++ [mkTransfer id from_id to_id (bind_real amt) currency now])
            id).

End Engine.

End V1.

(** ** The vocabulary of the statements *)

(** What a submitted row needs to pass the constraints of [expenses] and
    of [incomes]: a supported currency and an amount that is a number. *)
Definition row_ok (amount : float) (currency : string) : Prop :=
  Fl.is_nan amount = false /\ str_in currency SUPPORTED_CURRENCIES = true.

(** The rate [fetch_rate] answers with in a world, and the amount
    [to_account_currency] yields there. *)
Definition rate_of (net : nat -> string -> string -> option float)
    (w : World) (base target : string) : float :=
  match fetch_rate net base target w with
  | (Ok r, _) => r
  | (Raise _, _) => 1%float
  end.

Definition converted (net : nat -> string -> string -> option float)
    (w : World) (amount : float) (currency acc_cur : string) : float :=
  if String.eqb currency acc_cur then amount
  else (amount * rate_of net w currency acc_cur)%float.

(** [x] was created no earlier than [y]: the order of the result rows. *)
Definition not_older (x y : account) : Prop :=
  String.leb (acc_created_at y) (acc_created_at x) = true.

Definition liquid_in (currency : string) (a : account) : Prop :=
  acc_type a = "liquid" /\ acc_currency a = currency.

(** The policy in words: the first liquid account in the currency of the
    income when there is one, else the first account of the list, else
    none. *)
Inductive credited (currency : string) (accs : list account)
    : option account -> Prop :=
  | credited_liquid (before : list account) (t : account)
      (after : list account) :
      accs = before ++ t :: after ->
      Forall (fun a => ~ liquid_in currency a) before ->
      liquid_in currency t ->
      credited currency accs (Some t)
  | credited_first (t : account) (rest : list account) :
      accs = t :: rest ->
      Forall (fun a => ~ liquid_in currency a) accs ->
      credited currency accs (Some t)
  | credited_none :
      accs = [] ->
      credited currency accs None.

Definition name_taken (name : string) (d : DB) : Prop :=
  exists a, In a (accounts d) /\ acc_name a = name.

(** The claim of the specification, as a proposition: every rejection of
    [add_account], the name collision included, is a [ValueError]. *)
Definition add_account_rejects_with_ValueError : Prop :=
  forall (now name currency : string) (balance : float) (acc_type : string)
         (w : World),
    ~ In currency SUPPORTED_CURRENCIES \/ ~ In acc_type ACCOUNT_TYPES
    \/ name_taken name (db w) ->
    exists msg w', add_account now name currency balance acc_type w
                   = (Raise (ValueError msg), w').

(** The ids of the accounts are pairwise distinct and none exceeds the
    AUTOINCREMENT counter. *)
Definition accounts_keyed (d : DB) : Prop :=
  NoDup (map acc_id (accounts d))
  /\ Forall (fun a => acc_id a <= seq_accounts d) (accounts d).

(** The constraints of the schema, as a property of the store. *)

Definition account_ok (a : account) : Prop :=
  In (acc_currency a) SUPPORTED_CURRENCIES
  /\ In (acc_type a) ACCOUNT_TYPES
  /\ Fl.is_nan (acc_balance a) = false.

Definition expense_ok (e : expense) : Prop :=
  In (exp_currency e) SUPPORTED_CURRENCIES
  /\ Fl.is_nan (exp_amount e) = false
  /\ (exp_is_upcoming e = 0 \/ exp_is_upcoming e = 1).

Definition income_ok (i : income) : Prop :=
  In (inc_currency i) SUPPORTED_CURRENCIES
  /\ Fl.is_nan (inc_amount i) = false
  /\ (inc_is_upcoming i = 0 \/ inc_is_upcoming i = 1).

(** What [init_schema] declares and the engine relies on: account ids and
    names pairwise distinct, ids of expenses and incomes pairwise
    distinct, no id above the counter of its table, currencies and types
    in their enumerations, amounts and balances that are numbers, the
    upcoming flags 0 or 1, and a display currency, when set, that is
    supported. *)
Definition schema_ok (d : DB) : Prop :=
  accounts_keyed d
  /\ NoDup (map acc_name (accounts d))
  /\ Forall account_ok (accounts d)
  /\ NoDup (map exp_id (expenses d))
  /\ Forall (fun e => exp_id e <= seq_expenses d) (expenses d)
  /\ Forall expense_ok (expenses d)
  /\ NoDup (map inc_id (incomes d))
  /\ Forall (fun i => inc_id i <= seq_incomes d) (incomes d)
  /\ Forall income_ok (incomes d)
  /\ (forall c, settings d !! "display_currency" = Some c ->
                In c SUPPORTED_CURRENCIES).

(** An operation keeps a property of the store, whatever it returns. *)
Definition keeps {A : Type} (P : DB -> Prop) (m : M A) : Prop :=
  forall w, P (db w) -> P (db (snd (m w))).


(** [month_and_day] names the day that is [n] days after 1 January. *)
Definition month_and_day_inverts (leap : bool) (n : Z) : bool :=
  let '(m, d) := Cal.month_and_day leap n in
  nth (Z.to_nat m) Cal.DAYS_BEFORE_MONTH 0
  + (if (2 <? m) && leap then 1 else 0) + d =? n + 1.

(** [date.weekday()]: Monday is 0. *)
Definition weekday (d : Cal.date) : Z := (Cal.toordinal d + 6) mod 7.

(** The ids of a submitted expense fit the INTEGER columns they go to. *)
Definition ids_ok (account_id : Z) (category_id : option Z) : Prop :=
  int64 account_id = true /\ opt_int64 category_id = true.

(** The aggregates as the specification words them, to be compared with
    what the code computes. *)
Module Spec.

(** The amounts of [rows], each in the currency [target], when they are
    converted one after the other from the world [w]: every amount times
    the rate the currency service answers at its turn (1.0 for [target]
    itself); and the world after the last answer. *)
Fixpoint amounts_in (net : nat -> string -> string -> option float)
    (target : string) (rows : list (float * string)) (w : World)
    : list float * World :=
  match rows with
  | [] => ([], w)
  | (amount, currency) :: rest =>
      let r := rate_of net w currency target in
      let '(xs, w') :=
        amounts_in net target rest (snd (fetch_rate net currency target w)) in
      ((amount * r)%float :: xs, w')
  end.

Definition expense_amounts (l : list expense) : list (float * string) :=
  map (fun e => (exp_amount e, exp_currency e)) l.
Definition income_amounts (l : list income) : list (float * string) :=
  map (fun i => (inc_amount i, inc_currency i)) l.


(** The expenses and the incomes that are flagged upcoming. *)
Definition upcoming_expenses (d : DB) : list expense :=
  List.filter (fun e => exp_is_upcoming e =? 1) (expenses d).
Definition upcoming_incomes (d : DB) : list income :=
  List.filter (fun i => inc_is_upcoming i =? 1) (incomes d).

(** The expenses and the incomes whose date, as text, is not before the
    text [start]. *)
Definition expenses_from (start : string) (d : DB) : list expense :=
  List.filter (fun e => negb (String.ltb (exp_date e) start)) (expenses d).
Definition incomes_from (start : string) (d : DB) : list income :=
  List.filter (fun i => negb (String.ltb (inc_expected_date i) start))
              (incomes d).

(** The date [d] is before the date [start]; and, of rows given with
    their dates, those dated on [start] or after it, in order. *)
Definition before (d start : Cal.date) : bool :=
  match Cal.date_compare d start with
  | Lt => true
  | _ => false
  end.
Definition dated_from {A : Type} (start : Cal.date) (rows : list A)
    (dates : list Cal.date) : list A :=
  map fst
      (List.filter (fun p => negb (before (snd p) start))
                   (combine rows dates)).

End Spec.


(** The claim of the specification about a recorded income, as a
    proposition: whenever a row the table accepts is submitted, not
    upcoming, and the policy designates an account, the call returns and
    that account holds its balance plus the converted amount. *)
Definition income_always_credits : Prop :=
  forall (net : nat -> string -> string -> option float)
         (now source description : string) (amount : float)
         (currency : string) (expected_date : Cal.date) (w : World)
         (t : account),
    row_ok amount currency ->
    Forall (fun a => int64 (acc_id a) = true) (accounts (db w)) ->
    credited currency (order_by_created_at_desc (accounts (db w))) (Some t) ->
    exists w',
      add_income net now source description amount currency false
        expected_date w = (Ok tt, w')
      /\ In (mkAccount (acc_id t) (acc_name t) (acc_currency t)
               (Fl.stored
                  (acc_balance t
                   + converted net w amount currency (acc_currency t)))
               (acc_type t) (acc_created_at t))
            (accounts (db w')).

(** The engine of [main_v1.py]: the amount in the currency of an account,
    as [fetch_rate] and the product decide it in the world [w], and the
    world after the question. *)
Definition v1_priced (net : nat -> string -> string -> option V1.pyval)
    (w : V1.World) (amt : float) (currency cur : string) : outcome float :=
  if String.eqb currency cur then Ok amt
  else
    match V1.fetch_rate net currency cur w with
    | (Ok v, _) => V1.times amt v
    | (Raise e, _) => Raise e
    end.
Definition v1_asked (net : nat -> string -> string -> option V1.pyval)
    (w : V1.World) (currency cur : string) : V1.World :=
  if String.eqb currency cur then w
  else snd (V1.fetch_rate net currency cur w).

(** The rows of an account id in a world of [main_v1.py], and the balance
    the id has there: that of the first row. *)
Definition v1_rows (id : Z) (w : V1.World) : list V1.account :=
  List.filter (fun a => Z.eqb (V1.acc_id a) id) (V1.accounts (V1.db w)).
Definition v1_balance_of (id : Z) (w : V1.World) : option (option float) :=
  match v1_rows id w with
  | [] => None
  | a :: _ => Some (V1.acc_balance a)
  end.

(** ** Sample stores *)

(** The store after [DB.init_schema] on a new file: empty tables and the
    seeded display currency. *)
Definition initial_db : DB :=
  mkDB [] 0 [] 0 [] 0 (<["display_currency" := "BDT"]> ∅).
Definition initial_world : World := mkWorld initial_db ∅ 0%nat.

(** Sample data for the closed instances below. *)
Definition cash : account :=
  mkAccount 1 "Cash" "BDT" 1000%float "liquid" "2024-01-05T09:30:00".
Definition savings : account :=
  mkAccount 2 "Savings" "USD" 50%float "fixed" "2024-02-01T18:00:00.250000".
Definition sample_db : DB :=
  mkDB [cash; savings] 2 [] 0 [] 0 (<["display_currency" := "BDT"]> ∅).
Definition sample_world : World := mkWorld sample_db ∅ 0%nat.
Definition offline : nat -> string -> string -> option float :=
  fun _ _ _ => None.

Definition rent_feb : expense :=
  mkExpense 1 "Rent" 900%float "BDT" 1 None 0 "2024-02-29"
            "2024-02-29T10:00:00".
Definition rent_mar : expense :=
  mkExpense 2 "Rent" 900%float "BDT" 1 None 0 "2024-03-01"
            "2024-03-01T10:00:00".
Definition ledger_world : World :=
  mkWorld (mkDB [cash; savings] 2 [rent_feb; rent_mar] 2 [] 0
                (<["display_currency" := "BDT"]> ∅))
          ∅ 0%nat.

(** An account whose balance has overflowed. *)
Definition vault : account :=
  mkAccount 1 "Vault" "BDT" infinity "fixed" "2024-01-05T09:30:00".
Definition vault_world : World :=
  mkWorld (mkDB [vault] 1 [] 0 [] 0 (<["display_currency" := "BDT"]> ∅))
          ∅ 0%nat.

(** A ledger with expenses and incomes in both currencies, upcoming and
    not. *)
Definition course_apr : expense :=
  mkExpense 3 "Course" 10%float "USD" 2 None 1 "2024-04-01"
            "2024-03-02T09:00:00".
Definition books_mar : expense :=
  mkExpense 4 "Books" 5%float "USD" 2 (Some 1) 0 "2024-03-10"
            "2024-03-10T12:00:00".
Definition salary_mar : income :=
  mkIncome 1 "Acme" "salary" 2000%float "BDT" 0 "2024-03-05"
           "2024-03-05T09:00:00".
Definition bonus_apr : income :=
  mkIncome 2 "Acme" "bonus" 3%float "USD" 1 "2024-04-10"
           "2024-03-06T09:00:00".
Definition gift_feb : income :=
  mkIncome 3 "Aunt" "gift" 70%float "BDT" 0 "2024-02-11"
           "2024-02-11T09:00:00".
Definition books_world : World :=
  mkWorld (mkDB [cash; savings] 2
                [rent_feb; rent_mar; course_apr; books_mar] 4
                [salary_mar; bonus_apr; gift_feb] 3
                (<["display_currency" := "BDT"]> ∅))
          ∅ 0%nat.


(** A store of [main_v1.py]: two accounts in BDT, one in USD and one
    whose balance is NULL; the remote lookup down, or answering with a
    float. *)
Definition v1_wallet : V1.account :=
  V1.mkAccount 1 "Wallet" "BDT" (Some 500%float) "liquid"
               "2024-01-01T08:00:00".
Definition v1_bank : V1.account :=
  V1.mkAccount 2 "Bank" "BDT" (Some 1000%float) "liquid"
               "2024-01-02T08:00:00".
Definition v1_void : V1.account :=
  V1.mkAccount 3 "Void" "BDT" None "liquid" "2024-01-03T08:00:00".
Definition v1_dollars : V1.account :=
  V1.mkAccount 4 "Dollars" "USD" (Some 20%float) "liquid"
               "2024-01-04T08:00:00".
Definition v1_world : V1.World :=
  V1.mkWorld
    (V1.mkDB [v1_wallet; v1_bank; v1_void; v1_dollars] 4 [] 0 [] 0 [] 0)
    ∅ 0%nat.
Definition v1_offline : nat -> string -> string -> option V1.pyval :=
  fun _ _ _ => None.
Definition v1_quotes : nat -> string -> string -> option V1.pyval :=
  fun _ _ _ => Some (V1.PyFloat 0.5%float).

(** * Theorems *)

(** ** The currency service: rates *)

(** C8: for every currency code, every cache and every network state,
    [fetch_rate c c] returns exactly 1.0 and leaves the world as it was
    (no request is made, the cache is not touched). *)
Theorem fetch_rate_same_currency :
  forall (net : nat -> string -> string -> option float) (c : string) (w : World),
    fetch_rate net c c w = (Ok 1%float, w).
Proof.
  intros net c w. unfold fetch_rate.
  rewrite String.eqb_refl. reflexivity.
Qed.

Lemma fallback_rate_pairs (a b : string) (x : float) :
  fallback_rate !! (a, b) = Some x ->
  (a = "USD" /\ b = "BDT" /\ x = 120%float)
  \/ (a = "BDT" /\ b = "USD" /\ x = (1 / 120)%float).
Proof.
  unfold fallback_rate. intros H.
  apply lookup_insert_Some in H as [[E <-]|[_ H]].
  { inversion E. right. auto. }
  apply lookup_insert_Some in H as [[E <-]|[_ H]].
  { inversion E. left. auto. }
  rewrite lookup_empty in H. discriminate.
Qed.

(** A lookup that misses the cache while the remote lookup fails answers
    from the fallback table, and only counts the request. *)
Lemma fetch_rate_fallback net (a b : string) (w : World) :
  a <> b ->
  cache w !! (a, b) = None ->
  net (requests w) a b = None ->
  fetch_rate net a b w
  = (Ok (default 1%float (fallback_rate !! (a, b))),
     mkWorld (db w) (cache w) (S (requests w))).
Proof.
  intros Hab Hc Hn. unfold fetch_rate.
  apply String.eqb_neq in Hab. rewrite Hab, Hc, Hn. reflexivity.
Qed.

(** C7: for every pair (a, b) of the static fallback table, when neither
    direction is cached and the remote lookup fails for both requests,
    [fetch_rate a b] and then [fetch_rate b a] return the two fallback
    entries, and their float product compares equal to 1.0. *)
Theorem fallback_rates_are_inverse :
  forall (net : nat -> string -> string -> option float) (a b : string)
         (w : World),
    is_Some (fallback_rate !! (a, b)) ->
    cache w !! (a, b) = None ->
    cache w !! (b, a) = None ->
    (forall n, net n a b = None) ->
    (forall n, net n b a = None) ->
    exists (x y : float) (w1 w2 : World),
      fetch_rate net a b w = (Ok x, w1)
      /\ fetch_rate net b a w1 = (Ok y, w2)
      /\ fallback_rate !! (a, b) = Some x
      /\ fallback_rate !! (b, a) = Some y
      /\ Fl.py_eq (x * y)%float 1%float = true.
Proof.
  intros net a b w [x Hx] Hab Hba Nab Nba.
  destruct (fallback_rate_pairs a b x Hx) as [(-> & -> & ->)|(-> & -> & ->)].
  - exists 120%float, (1 / 120)%float.
    eexists. eexists.
    rewrite fetch_rate_fallback by (auto; discriminate).
    split; [reflexivity|].
    rewrite fetch_rate_fallback by (simpl; auto; discriminate).
    repeat split; vm_compute; reflexivity.
  - exists (1 / 120)%float, 120%float.
    eexists. eexists.
    rewrite fetch_rate_fallback by (auto; discriminate).
    split; [reflexivity|].
    rewrite fetch_rate_fallback by (simpl; auto; discriminate).
    repeat split; vm_compute; reflexivity.
Qed.

Lemma fallback_rates_are_inverse_witness :
  exists (x y : float) (w1 w2 : World),
    fetch_rate (fun _ _ _ => None) "USD" "BDT"
      (mkWorld (mkDB [] 0 [] 0 [] 0 ∅) ∅ 0%nat) = (Ok x, w1)
    /\ fetch_rate (fun _ _ _ => None) "BDT" "USD" w1 = (Ok y, w2)
    /\ fallback_rate !! ("USD", "BDT") = Some x
    /\ fallback_rate !! ("BDT", "USD") = Some y
    /\ Fl.py_eq (x * y)%float 1%float = true.
Proof.
  apply (fallback_rates_are_inverse (fun _ _ _ => None) "USD" "BDT"
           (mkWorld (mkDB [] 0 [] 0 [] 0 ∅) ∅ 0%nat)).
  - exists 120%float. vm_compute. reflexivity.
  - reflexivity.
  - reflexivity.
  - intros n. reflexivity.
  - intros n. reflexivity.
Defined.

(** ** The engine: recording expenses *)

Ltac munfold :=
  unfold bind, ret, raise, get_db, set_db in *; cbn [fst snd db cache requests] in *.

Lemma bind_int_ok {S : Type} (n : Z) (w : S) :
  int64 n = true -> bind_int n w = (Ok tt, w).
Proof. intros H. unfold bind_int. rewrite H. reflexivity. Qed.

Lemma bind_int_overflow {S : Type} (n : Z) (w : S) :
  int64 n = false ->
  bind_int n w
  = (Raise (OverflowError "Python int too large to convert to SQLite INTEGER"),
     w).
Proof. intros H. unfold bind_int. rewrite H. reflexivity. Qed.

Lemma bind_opt_int_ok {S : Type} (n : option Z) (w : S) :
  opt_int64 n = true -> bind_opt_int n w = (Ok tt, w).
Proof. destruct n as [n|]; [apply bind_int_ok|reflexivity]. Qed.

Lemma bind_opt_int_overflow {S : Type} (n : option Z) (w : S) :
  opt_int64 n = false ->
  bind_opt_int n w
  = (Raise (OverflowError "Python int too large to convert to SQLite INTEGER"),
     w).
Proof. destruct n as [n|]; [apply bind_int_overflow|discriminate]. Qed.

(** What a REAL column gives back is a NaN exactly when what it was given
    is one, and compares equal to it otherwise. *)
Lemma stored_nan (x : float) : Fl.is_nan (Fl.stored x) = Fl.is_nan x.
Proof.
  unfold Fl.stored.
  destruct (PrimFloat.is_zero x) eqn:E; [|reflexivity].
  unfold PrimFloat.is_zero in E.
  unfold Fl.is_nan, PrimFloat.is_nan.
  rewrite FloatAxioms.eqb_spec in E. rewrite !FloatAxioms.eqb_spec.
  change (Prim2SF PrimFloat.zero) with (S754_zero false) in E.
  change (Prim2SF 0) with (S754_zero false).
  destruct (Prim2SF x) as [s|s| |s m e]; cbn in *; try discriminate;
    try reflexivity; destruct s; discriminate.
Qed.

Lemma fetch_rate_db net base target w :
  db (snd (fetch_rate net base target w)) = db w.
Proof.
  unfold fetch_rate.
  destruct (String.eqb base target); [reflexivity|].
  destruct (cache w !! (base, target)); [reflexivity|].
  destruct (net (requests w) base target); reflexivity.
Qed.

Lemma fetch_rate_ok net base target w :
  fst (fetch_rate net base target w) = Ok (rate_of net w base target).
Proof.
  unfold rate_of, fetch_rate.
  destruct (String.eqb base target); [reflexivity|].
  destruct (cache w !! (base, target)); [reflexivity|].
  destruct (net (requests w) base target); reflexivity.
Qed.

(** The lookup reads the cache and the request counter, not the store. *)
Lemma rate_of_db net d w base target :
  rate_of net (mkWorld d (cache w) (requests w)) base target
  = rate_of net w base target.
Proof.
  unfold rate_of, fetch_rate. cbn [cache requests db].
  destruct (String.eqb base target); [reflexivity|].
  destruct (cache w !! (base, target)); [reflexivity|].
  destruct (net (requests w) base target); reflexivity.
Qed.

Lemma to_account_currency_spec net amount currency acc_cur w :
  fst (to_account_currency net amount currency acc_cur w)
  = Ok (converted net w amount currency acc_cur)
  /\ db (snd (to_account_currency net amount currency acc_cur w)) = db w.
Proof.
  unfold to_account_currency, converted, convert.
  destruct (String.eqb currency acc_cur); cbn [negb].
  - split; reflexivity.
  - munfold.
    pose proof (fetch_rate_ok net currency acc_cur w) as Hr.
    pose proof (fetch_rate_db net currency acc_cur w) as Hd.
    destruct (fetch_rate net currency acc_cur w) as [[r|e] w1];
      cbn [fst snd] in *; [|discriminate].
    inversion Hr; subst. split; [reflexivity|exact Hd].
Qed.

Lemma insert_expense_ok name amount currency account_id category_id up date
    created_at w :
  row_ok amount currency ->
  ids_ok account_id category_id ->
  insert_expense name amount currency account_id category_id up date
    created_at w
  = (Ok (seq_expenses (db w) + 1),
     mkWorld (with_expenses (db w)
                (expenses (db w)
                 ++ [mkExpense (seq_expenses (db w) + 1) name
                       (Fl.stored amount) currency account_id category_id up
                       date created_at])
                (seq_expenses (db w) + 1))
             (cache w) (requests w)).
Proof.
  intros [Hn Hc] [Ha Hk]. unfold insert_expense, bind at 1.
  rewrite bind_int_ok by exact Ha. unfold bind at 1.
  rewrite bind_opt_int_ok by exact Hk. munfold.
  unfold real_is_null. rewrite Hn. unfold SUPPORTED_CURRENCIES in Hc.
  rewrite Hc. reflexivity.
Qed.

(** An id that does not fit 64 bits stops the insertion before the
    statement runs: nothing is checked and nothing is written. *)
Lemma insert_expense_overflow name amount currency account_id category_id up
    date created_at w :
  ~ ids_ok account_id category_id ->
  insert_expense name amount currency account_id category_id up date
    created_at w
  = (Raise (OverflowError "Python int too large to convert to SQLite INTEGER"),
     w).
Proof.
  intros H. unfold insert_expense, bind at 1.
  destruct (int64 account_id) eqn:Ha.
  - rewrite bind_int_ok by exact Ha. unfold bind at 1.
    destruct (opt_int64 category_id) eqn:Hk.
    + exfalso. apply H. split; assumption.
    + rewrite bind_opt_int_overflow by exact Hk. reflexivity.
  - rewrite bind_int_overflow by exact Ha. reflexivity.
Qed.

(** An insertion into [expenses], accepted or refused, leaves the table of
    accounts, the cache and the request counter alone. *)
Lemma insert_expense_frame name amount currency account_id category_id up
    date created_at w :
  let w' := snd (insert_expense name amount currency account_id category_id
                   up date created_at w) in
  accounts (db w') = accounts (db w) /\ incomes (db w') = incomes (db w)
  /\ cache w' = cache w /\ requests w' = requests w.
Proof.
  unfold insert_expense, bind_opt_int.
  destruct category_id as [k|]; unfold bind_int; munfold;
    repeat (match goal with
            | |- context [if ?c then _ else _] => destruct c
            end; cbn [fst snd db cache requests accounts incomes
                      with_expenses]);
    auto.
Qed.

Lemma select_account_by_id_none (account_id : Z) (l : list account) :
  (forall a, In a l -> acc_id a <> account_id) ->
  filter (fun a => acc_id a = account_id) l = [].
Proof.
  induction l as [|b l IH]; intros H; [reflexivity|].
  rewrite filter_cons. destruct (decide (acc_id b = account_id)) as [E|E].
  - exfalso. apply (H b); [left; reflexivity|exact E].
  - apply IH. intros a Ha. apply H. right. exact Ha.
Qed.

Lemma select_account_by_id_ok (account_id : Z) (w : World) :
  int64 account_id = true ->
  select_account_by_id account_id w
  = (Ok (filter (fun a => acc_id a = account_id) (accounts (db w))), w).
Proof.
  intros H. unfold select_account_by_id, bind at 1.
  rewrite bind_int_ok by exact H. reflexivity.
Qed.

(** An expense whose ids do not fit 64 bits is refused before anything is
    written, upcoming or not. *)
Lemma add_expense_overflow net now name amount currency account_id
    category_id is_upcoming when w :
  ~ ids_ok account_id category_id ->
  add_expense net now name amount currency account_id category_id is_upcoming
    when w
  = (Raise (OverflowError "Python int too large to convert to SQLite INTEGER"),
     w).
Proof.
  intros H. unfold add_expense, bind at 1.
  rewrite insert_expense_overflow by exact H. reflexivity.
Qed.



(** [WHERE id=?] on a table whose ids are pairwise distinct finds the row
    with that id and no other. *)
Lemma select_account_by_id_unique (a : account) (l : list account) :
  NoDup (map acc_id l) -> In a l ->
  filter (fun b => acc_id b = acc_id a) l = [a].
Proof.
  induction l as [|b l IH]; intros Hnd Hin; [destruct Hin|].
  cbn [map] in Hnd. apply NoDup_cons in Hnd as [Hb Hnd].
  rewrite filter_cons. destruct Hin as [->|Hin].
  - rewrite decide_True by reflexivity. f_equal.
    apply select_account_by_id_none. intros c Hc E.
    apply Hb. rewrite <- E. apply list_elem_of_In. apply in_map. exact Hc.
  - rewrite decide_False; [apply IH; assumption|].
    intros E. apply Hb. rewrite E. apply list_elem_of_In. apply in_map.
    exact Hin.
Qed.

Lemma update_balance_ok (account_id : Z) (new_balance : float) (w : World) :
  int64 account_id = true ->
  Fl.is_nan new_balance = false ->
  update_balance account_id new_balance w
  = (Ok tt,
     mkWorld (with_accounts (db w)
                (map (set_balance account_id new_balance) (accounts (db w)))
                (seq_accounts (db w)))
             (cache w) (requests w)).
Proof.
  intros Hi Hn. unfold update_balance, update_accounts_balance, bind at 1.
  rewrite bind_int_ok by exact Hi. munfold.
  unfold real_is_null. rewrite Hn. reflexivity.
Qed.

(** A balance that is NaN is refused by the store when a row would take
    it: the write of [add_expense] and [add_income] then raises. *)
Lemma update_balance_nan (a : account) (new_balance : float) (w : World) :
  int64 (acc_id a) = true ->
  In a (accounts (db w)) ->
  Fl.is_nan new_balance = true ->
  update_balance (acc_id a) new_balance w
  = (Raise (IntegrityError (NotNull "accounts" "balance")), w).
Proof.
  intros Hi Hin Hn.
  unfold update_balance, update_accounts_balance, bind at 1.
  rewrite bind_int_ok by exact Hi. munfold.
  unfold real_is_null. rewrite Hn.
  replace (existsb (fun b => acc_id b =? acc_id a) (accounts (db w)))
    with true; [reflexivity|].
  symmetry. apply existsb_exists. exists a. split; [exact Hin|].
  apply Z.eqb_refl.
Qed.

Lemma set_balance_other (account_id : Z) (x : float) (l : list account)
    (b : account) :
  acc_id b <> account_id ->
  In b (map (set_balance account_id x) l) <-> In b l.
Proof.
  intros Hb. rewrite in_map_iff. split.
  - intros (c & Hc & Hin). unfold set_balance in Hc.
    destruct (Z.eqb_spec (acc_id c) account_id) as [E|E].
    + subst b. cbn in Hb. contradiction.
    + subst c. exact Hin.
  - intros Hin. exists b. split; [|exact Hin].
    unfold set_balance. apply Z.eqb_neq in Hb. rewrite Hb. reflexivity.
Qed.

Lemma set_balance_owner (x : float) (l : list account) (a : account) :
  In a l ->
  In (mkAccount (acc_id a) (acc_name a) (acc_currency a) (Fl.stored x)
                (acc_type a) (acc_created_at a))
     (map (set_balance (acc_id a) x) l).
Proof.
  intros Hin. apply in_map_iff. exists a. split; [|exact Hin].
  unfold set_balance. rewrite Z.eqb_refl. reflexivity.
Qed.

(** The amount in the currency of the account: the amount itself in that
    currency, and the amount times the rate of the service otherwise. *)
Lemma converted_cases net (w : World) (amount : float)
    (currency acc_cur : string) :
  (currency = acc_cur -> converted net w amount currency acc_cur = amount)
  /\ (currency <> acc_cur ->
      exists r w1,
        fetch_rate net currency acc_cur w = (Ok r, w1)
        /\ converted net w amount currency acc_cur = (amount * r)%float).
Proof.
  split.
  - intros E. unfold converted. apply String.eqb_eq in E.
    rewrite E. reflexivity.
  - intros E. unfold converted. apply String.eqb_neq in E.
    rewrite E.
    pose proof (fetch_rate_ok net currency acc_cur w) as Hr.
    destruct (fetch_rate net currency acc_cur w) as [o w2].
    cbn [fst] in Hr. subst o. exists (rate_of net w currency acc_cur), w2.
    split; reflexivity.
Qed.





(** ** The engine: recording incomes *)

Lemma insert_income_ok source description amount currency up expected_date
    created_at w :
  row_ok amount currency ->
  insert_income source description amount currency up expected_date
    created_at w
  = (Ok (seq_incomes (db w) + 1),
     mkWorld (with_incomes (db w)
                (incomes (db w)
                 ++ [mkIncome (seq_incomes (db w) + 1) source description
                       (Fl.stored amount) currency up expected_date
                       created_at])
                (seq_incomes (db w) + 1))
             (cache w) (requests w)).
Proof.
  intros [Hn Hc]. unfold insert_income. munfold.
  unfold real_is_null. rewrite Hn. unfold SUPPORTED_CURRENCIES in Hc.
  rewrite Hc. reflexivity.
Qed.

Lemma insert_income_frame source description amount currency up
    expected_date created_at w :
  let w' := snd (insert_income source description amount currency up
                   expected_date created_at w) in
  accounts (db w') = accounts (db w) /\ expenses (db w') = expenses (db w)
  /\ cache w' = cache w /\ requests w' = requests w.
Proof.
  unfold insert_income. munfold.
  destruct (real_is_null amount); [auto|].
  destruct (negb (str_in currency ["BDT"; "USD"])); auto.
Qed.

(** C3: adding an upcoming expense or an upcoming income writes no account:
    the table of accounts is identical before and after, whatever the
    arguments and whether or not the row is accepted; and a row that its
    table accepts (supported currency, amount not NaN and, for an
    expense, ids that fit the INTEGER columns) is created, flagged
    upcoming, holding the submitted values (the amount as the REAL column
    gives it back). *)
Theorem upcoming_leaves_balances :
  forall (net : nat -> string -> string -> option float)
         (now name source description : string) (amount : float)
         (currency : string) (account_id : Z) (category_id : option Z)
         (when : Cal.date) (w : World),
    accounts (db (snd (add_expense net now name amount currency account_id
                         category_id true when w)))
    = accounts (db w)
    /\ accounts (db (snd (add_income net now source description amount
                            currency true when w)))
       = accounts (db w)
    /\ (row_ok amount currency ->
        (ids_ok account_id category_id ->
         exists w1,
           add_expense net now name amount currency account_id category_id
             true when w = (Ok tt, w1)
           /\ expenses (db w1)
              = expenses (db w)
                ++ [mkExpense (seq_expenses (db w) + 1) name
                      (Fl.stored amount) currency account_id category_id 1
                      (Cal.isoformat when) now])
        /\ (exists w2,
              add_income net now source description amount currency true
                when w = (Ok tt, w2)
              /\ incomes (db w2)
                 = incomes (db w)
                   ++ [mkIncome (seq_incomes (db w) + 1) source description
                         (Fl.stored amount) currency 1 (Cal.isoformat when)
                         now])).
Proof.
  intros net now name source description amount currency account_id
         category_id when w.
  split; [|split].
  - unfold add_expense, bind.
    pose proof (insert_expense_frame name amount currency account_id
                  category_id 1 (Cal.isoformat when) now w) as (Ha & _).
    destruct (insert_expense _ _ _ _ _ _ _ _ w) as [[i|e] w1];
      cbn [fst snd negb ret] in *; exact Ha.
  - unfold add_income, bind.
    pose proof (insert_income_frame source description amount currency 1
                  (Cal.isoformat when) now w) as (Ha & _).
    destruct (insert_income _ _ _ _ _ _ _ w) as [[i|e] w1];
      cbn [fst snd negb ret] in *; exact Ha.
  - intros Hrow. split.
    + intros Hids. unfold add_expense, bind.
      rewrite insert_expense_ok by assumption.
      cbn [negb ret]. eexists. split; reflexivity.
    + unfold add_income, bind. rewrite insert_income_ok by exact Hrow.
      cbn [negb ret]. eexists. split; reflexivity.
Qed.

Lemma upcoming_leaves_balances_witness :
  row_ok 300%float "USD"
  /\ ids_ok 1 None
  /\ (exists w1,
         add_expense offline "2024-03-01T08:00:00" "Laptop" 300%float "USD" 1
           None true (Cal.mkDate 2024 4 15) sample_world = (Ok tt, w1)
         /\ expenses (db w1)
            = [mkExpense 1 "Laptop" 300%float "USD" 1 None 1 "2024-04-15"
                 "2024-03-01T08:00:00"])
  /\ (exists w2,
         add_income offline "2024-03-01T08:00:00" "Acme" "bonus" 300%float
           "USD" true (Cal.mkDate 2024 4 15) sample_world = (Ok tt, w2)
         /\ incomes (db w2)
            = [mkIncome 1 "Acme" "bonus" 300%float "USD" 1 "2024-04-15"
                 "2024-03-01T08:00:00"]).
Proof.
  assert (row_ok 300%float "USD") as Hrow by (split; reflexivity).
  assert (ids_ok 1 None) as Hids by (split; reflexivity).
  split; [exact Hrow|]. split; [exact Hids|].
  destruct (upcoming_leaves_balances offline "2024-03-01T08:00:00" "Laptop"
              "Acme" "bonus" 300%float "USD" 1 None (Cal.mkDate 2024 4 15)
              sample_world) as (_ & _ & H).
  destruct (H Hrow) as [He Hi]. split; [exact (He Hids)|exact Hi].
Defined.

(** ** The order of [list_accounts] *)

Module StrOrd.

Lemma compare_refl (s : string) : String.compare s s = Eq.
Proof.
  induction s as [|c s IH]; [reflexivity|].
  cbn. unfold Ascii.compare. rewrite N.compare_refl. exact IH.
Qed.

Lemma ascii_compare_eq (a b : ascii) : Ascii.compare a b = Eq -> a = b.
Proof. apply Ascii.compare_eq_iff. Qed.

(** The byte-wise order of strings is transitive. *)
Lemma le_trans (a b c : string) :
  String.compare a b <> Gt -> String.compare b c <> Gt ->
  String.compare a c <> Gt.
Proof.
  revert b c. induction a as [|x a IH]; intros [|y b] [|z c]; cbn;
    try congruence.
  unfold Ascii.compare.
  destruct (N.compare_spec (N_of_ascii x) (N_of_ascii y)) as [E1|L1|G1];
    destruct (N.compare_spec (N_of_ascii y) (N_of_ascii z)) as [E2|L2|G2];
    try congruence; intros H1 H2.
  - replace (N_of_ascii x ?= N_of_ascii z)%N with Eq
      by (symmetry; apply N.compare_eq_iff; congruence).
    eapply IH; eassumption.
  - replace (N_of_ascii x ?= N_of_ascii z)%N with Lt
      by (symmetry; apply N.compare_lt_iff; lia).
    discriminate.
  - replace (N_of_ascii x ?= N_of_ascii z)%N with Lt
      by (symmetry; apply N.compare_lt_iff; lia).
    discriminate.
  - replace (N_of_ascii x ?= N_of_ascii z)%N with Lt
      by (symmetry; apply N.compare_lt_iff; lia).
    discriminate.
Qed.

Lemma leb_trans (a b c : string) :
  String.leb a b = true -> String.leb b c = true -> String.leb a c = true.
Proof.
  unfold String.leb. intros H1 H2.
  assert (String.compare a c <> Gt) as H.
  { apply (le_trans a b c).
    - destruct (String.compare a b); congruence.
    - destruct (String.compare b c); congruence. }
  destruct (String.compare a c); congruence.
Qed.

Lemma ltb_false_leb (a b : string) :
  String.ltb a b = false -> String.leb b a = true.
Proof.
  unfold String.ltb, String.leb. rewrite (String.compare_antisym a b).
  destruct (String.compare b a); cbn; congruence.
Qed.

Lemma ltb_true_leb (a b : string) :
  String.ltb a b = true -> String.leb a b = true.
Proof.
  unfold String.ltb, String.leb. destruct (String.compare a b); congruence.
Qed.

End StrOrd.

Lemma insert_desc_perm (a : account) (l : list account) :
  Permutation (insert_desc a l) (a :: l).
Proof.
  induction l as [|b l IH]; cbn; [reflexivity|].
  destruct (String.ltb (acc_created_at b) (acc_created_at a)); [reflexivity|].
  rewrite IH. apply perm_swap.
Qed.

Lemma insert_desc_sorted (a : account) (l : list account) :
  StronglySorted not_older l -> StronglySorted not_older (insert_desc a l).
Proof.
  induction l as [|b l IH]; intros Hs; cbn.
  - constructor; constructor.
  - apply StronglySorted_inv in Hs as [Hl Hb].
    destruct (String.ltb (acc_created_at b) (acc_created_at a)) eqn:E.
    + constructor; [constructor; assumption|].
      assert (not_older a b) as Hab by (apply StrOrd.ltb_true_leb; exact E).
      constructor; [exact Hab|].
      eapply Forall_impl; [exact Hb|]. intros c Hc. unfold not_older in *.
      eapply StrOrd.leb_trans; eassumption.
    + constructor; [apply IH; exact Hl|].
      rewrite (insert_desc_perm a l).
      constructor; [apply StrOrd.ltb_false_leb; exact E|exact Hb].
Qed.

Lemma order_by_created_at_desc_spec (l : list account) :
  Permutation (order_by_created_at_desc l) l
  /\ StronglySorted not_older (order_by_created_at_desc l).
Proof.
  unfold order_by_created_at_desc.
  assert (forall acc, StronglySorted not_older acc ->
            Permutation (fold_left (fun acc a => insert_desc a acc) l acc)
                        (acc ++ l)
            /\ StronglySorted not_older
                 (fold_left (fun acc a => insert_desc a acc) l acc)) as H.
  { induction l as [|a l IH]; intros acc Hs; cbn.
    - rewrite app_nil_r. split; [reflexivity|exact Hs].
    - destruct (IH (insert_desc a acc) (insert_desc_sorted a acc Hs))
        as [Hp Hs'].
      split; [|exact Hs']. rewrite Hp, insert_desc_perm.
      cbn. apply Permutation_middle. }
  destruct (H [] (SSorted_nil _)) as [Hp Hs]. split; assumption.
Qed.

(** The first row of [list_accounts] is an account created last. *)
Lemma list_accounts_head_latest (l : list account) (t : account)
    (rest : list account) :
  order_by_created_at_desc l = t :: rest ->
  forall a, In a l -> not_older t a.
Proof.
  intros E a Ha.
  destruct (order_by_created_at_desc_spec l) as [Hp Hs].
  rewrite E in Hp, Hs.
  apply StronglySorted_inv in Hs as [_ Hall].
  assert (In a (t :: rest)) as [<-|Hin].
  { apply list_elem_of_In. rewrite Hp. apply list_elem_of_In. exact Ha. }
  - unfold not_older, String.leb. rewrite StrOrd.compare_refl. reflexivity.
  - rewrite Forall_forall in Hall. apply Hall. apply list_elem_of_In. exact Hin.
Qed.

(** ** The engine: the account an income is credited to *)

Lemma liquid_in_test (currency : string) (a : account) :
  String.eqb (acc_type a) "liquid" && String.eqb (acc_currency a) currency
  = true <-> liquid_in currency a.
Proof.
  unfold liquid_in. rewrite andb_true_iff, !String.eqb_eq. reflexivity.
Qed.

Lemma find_liquid_some (currency : string) (accs : list account)
    (t : account) :
  List.find (fun a => String.eqb (acc_type a) "liquid"
                      && String.eqb (acc_currency a) currency) accs = Some t ->
  exists before after,
    accs = before ++ t :: after
    /\ Forall (fun a => ~ liquid_in currency a) before
    /\ liquid_in currency t.
Proof.
  induction accs as [|b accs IH]; cbn; [discriminate|].
  destruct (String.eqb (acc_type b) "liquid"
            && String.eqb (acc_currency b) currency) eqn:E.
  - intros [= <-]. exists [], accs. split; [reflexivity|].
    split; [constructor|]. apply liquid_in_test. exact E.
  - intros H. destruct (IH H) as (before & after & -> & Hb & Ht).
    exists (b :: before), after. split; [reflexivity|].
    split; [|exact Ht]. constructor; [|exact Hb].
    intros Hl. apply liquid_in_test in Hl. congruence.
Qed.

Lemma find_liquid_none (currency : string) (accs : list account) :
  List.find (fun a => String.eqb (acc_type a) "liquid"
                      && String.eqb (acc_currency a) currency) accs = None ->
  Forall (fun a => ~ liquid_in currency a) accs.
Proof.
  induction accs as [|b accs IH]; cbn; [constructor|].
  destruct (String.eqb (acc_type b) "liquid"
            && String.eqb (acc_currency b) currency) eqn:E; [discriminate|].
  intros H. constructor; [|apply IH; exact H].
  intros Hl. apply liquid_in_test in Hl. congruence.
Qed.

Lemma income_target_credited (currency : string) (accs : list account) :
  credited currency accs (income_target currency accs).
Proof.
  unfold income_target.
  destruct (List.find _ accs) as [t|] eqn:E.
  - destruct (find_liquid_some currency accs t E)
      as (before & after & Ha & Hb & Ht).
    eapply credited_liquid; eassumption.
  - apply find_liquid_none in E. destruct accs as [|t rest]; cbn.
    + apply credited_none. reflexivity.
    + eapply credited_first; [reflexivity|exact E].
Qed.

Lemma credited_in (currency : string) (accs : list account) (t : account) :
  credited currency accs (Some t) -> In t accs.
Proof.
  inversion 1 as [before t' after E _ _|t' rest E _|]; subst.
  - apply in_or_app. right. left. reflexivity.
  - left. reflexivity.
Qed.

Lemma find_liquid_skip (currency : string) (before rest : list account) :
  Forall (fun a => ~ liquid_in currency a) before ->
  List.find (fun a => String.eqb (acc_type a) "liquid"
                      && String.eqb (acc_currency a) currency)
            (before ++ rest)
  = List.find (fun a => String.eqb (acc_type a) "liquid"
                        && String.eqb (acc_currency a) currency) rest.
Proof.
  induction 1 as [|b before Hb _ IH]; cbn; [reflexivity|].
  destruct (String.eqb (acc_type b) "liquid"
            && String.eqb (acc_currency b) currency) eqn:E; [|exact IH].
  exfalso. apply Hb. apply liquid_in_test. exact E.
Qed.

(** The policy designates one account: the one the loop picks. *)
Lemma credited_unique (currency : string) (accs : list account)
    (target : option account) :
  credited currency accs target -> target = income_target currency accs.
Proof.
  unfold income_target.
  inversion 1 as [before t after E Hb Ht|t rest E Hall|E]; subst.
  - rewrite find_liquid_skip by exact Hb. cbn.
    apply liquid_in_test in Ht. rewrite Ht. reflexivity.
  - rewrite <- (app_nil_r (t :: rest)), find_liquid_skip by exact Hall.
    reflexivity.
  - reflexivity.
Qed.

(** What [add_income] does up to the write of the balance: the row is
    inserted, the accounts are listed and the account the loop picks is
    credited. *)
Lemma add_income_to_update net now source description amount currency
    expected_date w :
  row_ok amount currency ->
  let accs := order_by_created_at_desc (accounts (db w)) in
  let w0 :=
    mkWorld (with_incomes (db w)
               (incomes (db w)
                ++ [mkIncome (seq_incomes (db w) + 1) source description
                      (Fl.stored amount) currency 0
                      (Cal.isoformat expected_date) now])
               (seq_incomes (db w) + 1))
            (cache w) (requests w) in
  match income_target currency accs with
  | Some t =>
      exists w1,
        add_income net now source description amount currency false
          expected_date w
        = update_balance (acc_id t)
            (acc_balance t
             + converted net w amount currency (acc_currency t)) w1
        /\ db w1 = db w0
  | None =>
      add_income net now source description amount currency false
        expected_date w = (Ok tt, w0)
  end.
Proof.
  intros Hrow accs w0.
  assert (forall k : list account -> M unit,
            bind (insert_income source description amount currency 0
                    (Cal.isoformat expected_date) now)
                 (fun _ => bind (list_accounts) k) w
            = k accs w0) as Hrun.
  { intros k. unfold bind at 1. rewrite insert_income_ok by exact Hrow.
    unfold list_accounts. munfold. reflexivity. }
  unfold add_income. cbn [negb]. rewrite Hrun.
  destruct (income_target currency accs) as [t|] eqn:Et; [|reflexivity].
  unfold bind.
  destruct (to_account_currency_spec net amount currency (acc_currency t) w0)
    as [Hv Hd].
  destruct (to_account_currency net amount currency (acc_currency t) w0)
    as [[v|e] w1] eqn:Hto; cbn [fst snd] in Hv, Hd; [|discriminate].
  assert (v = converted net w amount currency (acc_currency t)) as ->.
  { inversion Hv. unfold converted, w0. rewrite rate_of_db. reflexivity. }
  exists w1. split; [reflexivity|exact Hd].
Qed.

(** C2 (amended): an income that is not upcoming, its row being one the
    table accepts (the ids of the accounts in the store being 64-bit
    integers, as SQLite keeps them).  The income row is created in every
    case.  With [accs] the accounts in the order of [list_accounts] (a
    permutation of the table, most recently created first), the account
    designated is the first liquid account of [accs] in the currency of
    the income if there is one, else the first account of [accs].
    [credit] is the amount itself in the currency of that account and
    [amount * rate] otherwise.  When [B + credit] is a number, the call
    returns and every row with the id of that account holds it, the other
    accounts being left alone; when it is NaN the store refuses it: the
    call raises [IntegrityError] and the accounts are as before.  With no
    account at all the call returns normally and the table of accounts
    stays empty. *)
Theorem add_income_credits_account :
  forall (net : nat -> string -> string -> option float)
         (now source description : string) (amount : float)
         (currency : string) (expected_date : Cal.date) (w : World),
    row_ok amount currency ->
    Forall (fun a => int64 (acc_id a) = true) (accounts (db w)) ->
    let accs := order_by_created_at_desc (accounts (db w)) in
    let row :=
      mkIncome (seq_incomes (db w) + 1) source description
               (Fl.stored amount) currency 0 (Cal.isoformat expected_date)
               now in
    Permutation accs (accounts (db w))
    /\ StronglySorted not_older accs
    /\ (exists target, credited currency accs target)
    /\ forall target,
         credited currency accs target ->
            match target with
            | Some t =>
                let credit :=
                  converted net w amount currency (acc_currency t) in
                let new_balance := (acc_balance t + credit)%float in
                (currency = acc_currency t -> credit = amount)
                /\ (currency <> acc_currency t ->
                    exists r w1,
                      fetch_rate net currency (acc_currency t) w = (Ok r, w1)
                      /\ credit = (amount * r)%float)
                /\ (Fl.is_nan new_balance = false ->
                    exists w',
                      add_income net now source description amount currency
                        false expected_date w = (Ok tt, w')
                      /\ incomes (db w') = incomes (db w) ++ [row]
                      /\ accounts (db w')
                         = map (set_balance (acc_id t) new_balance)
                               (accounts (db w))
                      /\ In (mkAccount (acc_id t) (acc_name t)
                                       (acc_currency t)
                                       (Fl.stored new_balance) (acc_type t)
                                       (acc_created_at t))
                            (accounts (db w'))
                      /\ (forall b, acc_id b <> acc_id t ->
                            (In b (accounts (db w'))
                             <-> In b (accounts (db w)))))
                /\ (Fl.is_nan new_balance = true ->
                    exists w',
                      add_income net now source description amount currency
                        false expected_date w
                      = (Raise (IntegrityError (NotNull "accounts" "balance")),
                         w')
                      /\ incomes (db w') = incomes (db w) ++ [row]
                      /\ accounts (db w') = accounts (db w))
            | None =>
                accounts (db w) = []
                /\ exists w',
                     add_income net now source description amount currency
                       false expected_date w = (Ok tt, w')
                     /\ incomes (db w') = incomes (db w) ++ [row]
                     /\ accounts (db w') = []
            end.
Proof.
  intros net now source description amount currency expected_date w Hrow
         Hids accs row.
  destruct (order_by_created_at_desc_spec (accounts (db w))) as [Hp Hs].
  split; [exact Hp|]. split; [exact Hs|].
  split; [exists (income_target currency accs);
          apply income_target_credited|].
  intros target Hcred. apply credited_unique in Hcred. subst target.
  pose proof (add_income_to_update net now source description amount
                currency expected_date w Hrow) as Hrun.
  cbv zeta in Hrun. fold accs in Hrun. fold row in Hrun.
  destruct (income_target currency accs) as [t|] eqn:Et.
  - cbv beta iota zeta.
    set (credit := converted net w amount currency (acc_currency t)).
    set (new_balance := (acc_balance t + credit)%float).
    destruct (converted_cases net w amount currency (acc_currency t))
      as [Hsame Hother].
    split; [exact Hsame|]. split; [exact Hother|].
    destruct Hrun as (w1 & Hrun & Hd).
    fold credit in Hrun. fold new_balance in Hrun.
    assert (In t (accounts (db w))) as Hin.
    { apply list_elem_of_In. rewrite <- Hp. apply list_elem_of_In.
      apply (credited_in currency). fold accs. rewrite <- Et.
      apply income_target_credited. }
    assert (int64 (acc_id t) = true) as Hi.
    { rewrite Forall_forall in Hids. apply Hids. apply list_elem_of_In.
      exact Hin. }
    split.
    + intros Hnan. rewrite Hrun.
      rewrite update_balance_ok by assumption.
      eexists. split; [reflexivity|]. cbn [db accounts incomes with_accounts].
      rewrite Hd. cbn [db accounts incomes with_incomes].
      split; [reflexivity|]. split; [reflexivity|].
      split; [apply set_balance_owner; exact Hin|].
      intros b Hb. apply set_balance_other. exact Hb.
    + intros Hnan. rewrite Hrun.
      rewrite (update_balance_nan t new_balance w1);
        [|exact Hi|rewrite Hd; exact Hin|exact Hnan].
      exists w1. split; [reflexivity|]. rewrite Hd. split; reflexivity.
  - assert (accs = []) as Hnil.
    { pose proof (income_target_credited currency accs) as Hc.
      rewrite Et in Hc. inversion Hc. assumption. }
    assert (accounts (db w) = []) as Hacc.
    { apply Permutation_nil. rewrite <- Hnil. exact Hp. }
    split; [exact Hacc|].
    eexists. split; [exact Hrun|]. cbn. split; [reflexivity|exact Hacc].
Qed.

Lemma add_income_credits_account_witness :
  (exists w',
      add_income offline "2024-03-02T07:45:10" "Acme" "bonus" 10%float "USD"
        false (Cal.mkDate 2024 3 2) sample_world = (Ok tt, w')
      /\ accounts (db w')
         = [cash;
            mkAccount 2 "Savings" "USD" 60%float "fixed"
                      "2024-02-01T18:00:00.250000"])
  /\ (exists w',
         add_income offline "2024-03-02T07:45:10" "Acme" "loss"
           neg_infinity "BDT" false (Cal.mkDate 2024 3 2) vault_world
         = (Raise (IntegrityError (NotNull "accounts" "balance")), w')
         /\ accounts (db w') = [vault]
         /\ length (incomes (db w')) = 1%nat).
Proof.
  split.
  - destruct (add_income_credits_account offline "2024-03-02T07:45:10"
                "Acme" "bonus" 10%float "USD" (Cal.mkDate 2024 3 2)
                sample_world) as (_ & _ & _ & H).
    + split; reflexivity.
    + repeat constructor.
    + specialize (H (Some savings)). cbv beta iota zeta in H.
      destruct H as (_ & _ & H & _).
      * apply (credited_first "USD" _ savings [cash]).
        -- vm_compute. reflexivity.
        -- repeat constructor; intros [Ht Hc]; vm_compute in Ht, Hc;
             discriminate.
      * destruct H as (w' & H1 & _ & H2 & _); [vm_compute; reflexivity|].
        exists w'. split; [exact H1|]. rewrite H2. vm_compute. reflexivity.
  - destruct (add_income_credits_account offline "2024-03-02T07:45:10"
                "Acme" "loss" neg_infinity "BDT" (Cal.mkDate 2024 3 2)
                vault_world) as (_ & _ & _ & H).
    + split; reflexivity.
    + repeat constructor.
    + specialize (H (Some vault)). cbv beta iota zeta in H.
      destruct H as (_ & _ & _ & H).
      * apply (credited_first "BDT" _ vault []).
        -- vm_compute. reflexivity.
        -- repeat constructor; intros [Ht Hc]; vm_compute in Ht; discriminate.
      * destruct H as (w' & H1 & H2 & H3); [vm_compute; reflexivity|].
        exists w'. split; [exact H1|]. split; [exact H3|].
        rewrite H2. reflexivity.
Defined.

(** The claim as the specification words it does not hold: with one
    account whose balance is infinite and an income of minus infinity,
    the new balance is NaN; the income is recorded, the call raises and
    the balance is not the sum. *)
Lemma add_income_nan_balance_not_credited :
  row_ok neg_infinity "BDT"
  /\ credited "BDT" (order_by_created_at_desc (accounts (db vault_world)))
       (Some vault)
  /\ (exists w',
         add_income offline "2024-03-02T07:45:10" "Acme" "loss"
           neg_infinity "BDT" false (Cal.mkDate 2024 3 2) vault_world
         = (Raise (IntegrityError (NotNull "accounts" "balance")), w')
         /\ accounts (db w') = accounts (db vault_world)
         /\ incomes (db w')
            = [mkIncome 1 "Acme" "loss" neg_infinity "BDT" 0 "2024-03-02"
                 "2024-03-02T07:45:10"])
  /\ ~ income_always_credits.
Proof.
  assert (credited "BDT"
            (order_by_created_at_desc (accounts (db vault_world)))
            (Some vault)) as Hcred.
  { apply (credited_first "BDT" _ vault []).
    - vm_compute. reflexivity.
    - repeat constructor; intros [Ht Hc]; vm_compute in Ht; discriminate. }
  split; [split; reflexivity|]. split; [exact Hcred|].
  split.
  - eexists. split; [vm_compute; reflexivity|]. split; reflexivity.
  - intros H.
    destruct (H offline "2024-03-02T07:45:10" "Acme" "loss" neg_infinity
                "BDT" (Cal.mkDate 2024 3 2) vault_world vault)
      as (w' & Hrun & _).
    + split; reflexivity.
    + repeat constructor.
    + exact Hcred.
    + vm_compute in Hrun. discriminate.
Qed.

(** ** The engine: opening an account *)

Lemma name_taken_test (name : string) (d : DB) :
  existsb (fun a => String.eqb (acc_name a) name) (accounts d) = true
  <-> name_taken name d.
Proof.
  unfold name_taken. rewrite existsb_exists. split.
  - intros (a & Hin & E). apply String.eqb_eq in E. eauto.
  - intros (a & Hin & E). exists a. split; [exact Hin|].
    apply String.eqb_eq. exact E.
Qed.

Lemma str_in_In (s : string) (l : list string) :
  str_in s l = true <-> In s l.
Proof.
  unfold str_in. rewrite existsb_exists. split.
  - intros (x & Hin & E). apply String.eqb_eq in E. subst. exact Hin.
  - intros Hin. exists s. split; [exact Hin|apply String.eqb_refl].
Qed.

(** On a name that is taken, with a supported currency and type, the call
    is refused by the UNIQUE constraint of the store: the exception is
    [sqlite3.IntegrityError], not [ValueError]. *)
Lemma add_account_duplicate_name_not_ValueError :
  name_taken "Cash" (db sample_world)
  /\ add_account "2024-03-01T08:00:00" "Cash" "USD" 5%float "liquid"
       sample_world
     = (Raise (IntegrityError (Unique "accounts" "name")), sample_world)
  /\ ~ add_account_rejects_with_ValueError.
Proof.
  assert (name_taken "Cash" (db sample_world)) as Ht.
  { exists cash. split; [left; reflexivity|reflexivity]. }
  split; [exact Ht|]. split; [vm_compute; reflexivity|].
  intros H.
  destruct (H "2024-03-01T08:00:00" "Cash" "USD" 5%float "liquid" sample_world)
    as (msg & w' & E).
  { right. right. exact Ht. }
  vm_compute in E. discriminate.
Qed.

(** C4 (amended): [add_account] raises [ValueError] and writes nothing when
    the currency is not BDT or USD, or else when the type is not fixed or
    liquid; with both supported and an opening balance that is a number, a
    name equal to that of an existing account is refused by the store with
    [IntegrityError] (UNIQUE on accounts.name) and nothing is written;
    otherwise exactly one row is appended to the table: the next id, the
    submitted name, currency, type and timestamp, and the opening balance
    as the REAL column gives it back (the float submitted, a negative
    zero being held as zero).  (An opening balance that is NaN is refused
    by the store as well: NOT NULL on accounts.balance.) *)
Theorem add_account_outcomes :
  forall (now name currency : string) (balance : float) (acc_type : string)
         (w : World),
    (~ In currency SUPPORTED_CURRENCIES ->
     add_account now name currency balance acc_type w
     = (Raise (ValueError "Unsupported currency"), w))
    /\ (In currency SUPPORTED_CURRENCIES -> ~ In acc_type ACCOUNT_TYPES ->
        add_account now name currency balance acc_type w
        = (Raise (ValueError "Unsupported account type"), w))
    /\ (In currency SUPPORTED_CURRENCIES -> In acc_type ACCOUNT_TYPES ->
        Fl.is_nan balance = false ->
        (name_taken name (db w) ->
         add_account now name currency balance acc_type w
         = (Raise (IntegrityError (Unique "accounts" "name")), w))
        /\ (~ name_taken name (db w) ->
            exists w',
              add_account now name currency balance acc_type w
              = (Ok (seq_accounts (db w) + 1), w')
              /\ accounts (db w')
                 = accounts (db w)
                   ++ [mkAccount (seq_accounts (db w) + 1) name currency
                         (Fl.stored balance) acc_type now]
              /\ expenses (db w') = expenses (db w)
              /\ incomes (db w') = incomes (db w)
              /\ settings (db w') = settings (db w)))
    /\ (In currency SUPPORTED_CURRENCIES -> In acc_type ACCOUNT_TYPES ->
        Fl.is_nan balance = true ->
        add_account now name currency balance acc_type w
        = (Raise (IntegrityError (NotNull "accounts" "balance")), w)).
Proof.
  intros now name currency balance acc_type w.
  unfold add_account. split; [|split; [|split]].
  - intros Hc. rewrite <- str_in_In in Hc.
    apply not_true_is_false in Hc. rewrite Hc. reflexivity.
  - intros Hc Ht. rewrite <- str_in_In in Hc, Ht.
    apply not_true_is_false in Ht. rewrite Hc, Ht. reflexivity.
  - intros Hc Ht Hn. rewrite <- str_in_In in Hc, Ht. rewrite Hc, Ht.
    cbn [negb]. unfold insert_account. munfold. unfold real_is_null.
    unfold SUPPORTED_CURRENCIES in Hc. unfold ACCOUNT_TYPES in Ht.
    rewrite Hn, Hc, Ht. cbn [negb]. split.
    + intros Hx. apply name_taken_test in Hx. rewrite Hx.
      destruct w; reflexivity.
    + intros Hx. rewrite <- name_taken_test in Hx.
      apply not_true_is_false in Hx. rewrite Hx.
      eexists. split; [reflexivity|]. cbn. auto.
  - intros Hc Ht Hn. rewrite <- str_in_In in Hc, Ht. rewrite Hc, Ht.
    cbn [negb]. unfold insert_account. munfold. unfold real_is_null.
    rewrite Hn. destruct w; reflexivity.
Qed.

Lemma add_account_outcomes_witness :
  add_account "2024-03-01T08:00:00" "Wallet" "EUR" 5%float "liquid"
    sample_world
  = (Raise (ValueError "Unsupported currency"), sample_world)
  /\ add_account "2024-03-01T08:00:00" "Wallet" "USD" 5%float "savings"
       sample_world
     = (Raise (ValueError "Unsupported account type"), sample_world)
  /\ add_account "2024-03-01T08:00:00" "Cash" "USD" 5%float "liquid"
       sample_world
     = (Raise (IntegrityError (Unique "accounts" "name")), sample_world)
  /\ (exists w',
         add_account "2024-03-01T08:00:00" "Wallet" "USD" (-0)%float "liquid"
           sample_world = (Ok 3, w')
         /\ accounts (db w')
            = [cash; savings;
               mkAccount 3 "Wallet" "USD" 0%float "liquid"
                         "2024-03-01T08:00:00"]).
Proof.
  assert (In "USD" SUPPORTED_CURRENCIES) as Husd by (right; left; reflexivity).
  assert (In "liquid" ACCOUNT_TYPES) as Hliq by (right; left; reflexivity).
  split; [|split; [|split]].
  - apply (add_account_outcomes "2024-03-01T08:00:00" "Wallet" "EUR" 5%float
             "liquid" sample_world).
    intros [H|[H|[]]]; discriminate.
  - apply (add_account_outcomes "2024-03-01T08:00:00" "Wallet" "USD" 5%float
             "savings" sample_world); [exact Husd|].
    intros [H|[H|[]]]; discriminate.
  - apply (add_account_outcomes "2024-03-01T08:00:00" "Cash" "USD" 5%float
             "liquid" sample_world); [exact Husd|exact Hliq|reflexivity|].
    exists cash. split; [left; reflexivity|reflexivity].
  - destruct (add_account_outcomes "2024-03-01T08:00:00" "Wallet" "USD"
                (-0)%float "liquid" sample_world) as (_ & _ & H & _).
    destruct (H Husd Hliq eq_refl) as [_ H'].
    destruct H' as (w' & H1 & H2 & _).
    + intros (a & [<-|[<-|[]]] & E); discriminate.
    + exists w'. split; [exact H1|]. rewrite H2. reflexivity.
Defined.

(** ** Multiplication by the rate 1.0 *)

Lemma digits2_shift (m : positive) :
  Zpos (digits2_pos (Pos.mul 4503599627370496 m)) = Zpos (digits2_pos m) + 52.
Proof.
  cbv [Pos.mul]. cbn [digits2_pos]. rewrite !Pos2Z.inj_succ. lia.
Qed.

Lemma shr_52 (m : positive) :
  SpecFloat.iter_pos shr_1 52
    {| shr_m := Zpos (Pos.mul 4503599627370496 m); shr_r := false;
       shr_s := false |}
  = {| shr_m := Zpos m; shr_r := false; shr_s := false |}.
Proof. cbv [Pos.mul]. reflexivity. Qed.

Lemma SFmul_one (x : spec_float) :
  valid_binary prec emax x = true ->
  SFmul prec emax x (S754_finite false 4503599627370496 (-52)) = x.
Proof.
  destruct x as [s|s| |s m e]; cbn [SFmul valid_binary];
    try (intros _; destruct s; reflexivity); [reflexivity|].
  unfold bounded, canonical_mantissa.
  rewrite andb_true_iff, Z.eqb_eq, Z.leb_le. intros [Hc He].
  rewrite Pos.mul_comm.
  unfold binary_round_aux, shr_fexp. cbn [Zdigits2 shr_record_of_loc].
  rewrite digits2_shift.
  replace (Zpos (digits2_pos m) + 52 + (e + -52))
    with (Zpos (digits2_pos m) + e) by lia.
  rewrite Hc. replace (e - (e + -52)) with 52 by lia.
  cbn [shr]. rewrite shr_52.
  cbn [shr_m loc_of_shr_record round_nearest_even Zdigits2 shr_record_of_loc].
  replace (e + -52 + 52) with e by lia.
  rewrite Hc. rewrite Z.sub_diag. cbn [shr shr_m].
  apply Z.leb_le in He. rewrite He.
  destruct s; reflexivity.
Qed.

Lemma float_mul_one (x : float) : (x * 1)%float = x.
Proof.
  apply Prim2SF_inj. rewrite mul_spec.
  change (Prim2SF 1) with (S754_finite false 4503599627370496 (-52)).
  apply SFmul_one. apply Prim2SF_valid.
Qed.

(** ** Aggregates *)

Section Aggregates.

Variable net : nat -> string -> string -> option float.
Variable py : Fl.cpython.

(** [convert] never raises and does not write the store. *)
Lemma convert_total (amount : float) (base target : string) (w : World) :
  exists w',
    convert net amount base target w
    = (Ok (amount * rate_of net w base target)%float, w')
    /\ db w' = db w.
Proof.
  unfold convert. munfold.
  pose proof (fetch_rate_ok net base target w) as Hr.
  pose proof (fetch_rate_db net base target w) as Hd.
  destruct (fetch_rate net base target w) as [[r|e] w1];
    cbn [fst snd] in *; [|discriminate].
  inversion Hr; subst. eauto.
Qed.

Lemma convert_all_total (rows : list (float * string)) (display_cur : string)
    (w : World) :
  exists xs w',
    convert_all net rows display_cur w = (Ok xs, w')
    /\ db w' = db w /\ length xs = length rows.
Proof.
  revert w. induction rows as [|[amount currency] rows IH]; intros w; cbn.
  - exists [], w. auto.
  - unfold bind at 1.
    destruct (convert_total amount currency display_cur w) as (w1 & -> & Hd1).
    unfold bind at 1.
    destruct (IH w1) as (xs & w2 & -> & Hd2 & Hl).
    eexists. eexists. split; [reflexivity|].
    split; [congruence|]. cbn. rewrite Hl. reflexivity.
Qed.

Lemma totals_loop_total (display_cur : string) (accs : list account)
    (tf tl : float) (w : World) :
  exists r w',
    totals_loop net display_cur accs tf tl w = (Ok r, w') /\ db w' = db w.
Proof.
  revert tf tl w. induction accs as [|a accs IH]; intros tf tl w; cbn.
  - exists (tf, tl), w. auto.
  - unfold bind.
    destruct (String.eqb (acc_currency a) display_cur).
    + cbn [ret]. destruct (String.eqb (acc_type a) "fixed"); apply IH.
    + destruct (convert_total (acc_balance a) (acc_currency a) display_cur w)
        as (w1 & -> & Hd1).
      destruct (String.eqb (acc_type a) "fixed").
      * destruct (IH (tf + acc_balance a
                           * rate_of net w (acc_currency a) display_cur)%float
                     tl w1) as (r & w2 & E & Hd2).
        exists r, w2. split; [exact E|congruence].
      * destruct (IH tf (tl + acc_balance a
                           * rate_of net w (acc_currency a) display_cur)%float
                     w1) as (r & w2 & E & Hd2).
        exists r, w2. split; [exact E|congruence].
Qed.

(** [totals] returns: the three totals are the rounded sums of the loop
    over the accounts of the store it is called on. *)
Lemma totals_total (w : World) :
  exists tf tl w',
    totals_loop net (default "BDT" (settings (db w) !! "display_currency"))
      (order_by_created_at_desc (accounts (db w))) 0%float 0%float w
    = (Ok (tf, tl), w')
    /\ totals net w
       = (Ok (mkTotals (default "BDT" (settings (db w) !! "display_currency"))
                (Fl.round2 tf) (Fl.round2 tl) (Fl.round2 (tf + tl)%float)),
          w')
    /\ db w' = db w.
Proof.
  unfold totals, get_display_currency, list_accounts. munfold.
  destruct (totals_loop_total
              (default "BDT" (settings (db w) !! "display_currency"))
              (order_by_created_at_desc (accounts (db w))) 0%float 0%float w)
    as ([tf tl] & w' & E & Hd).
  exists tf, tl, w'. rewrite E. auto.
Qed.

(** [convert] is the product with the rate the service answers; the world
    it leaves is the world after the answer. *)
Lemma convert_eq (amount : float) (base target : string) (w : World) :
  convert net amount base target w
  = (Ok (amount * rate_of net w base target)%float,
     snd (fetch_rate net base target w)).
Proof.
  unfold convert. munfold.
  pose proof (fetch_rate_ok net base target w) as Hr.
  destruct (fetch_rate net base target w) as [[r|e] w1];
    cbn [fst snd] in *; [|discriminate].
  inversion Hr; subst. reflexivity.
Qed.

Lemma amounts_in_db (target : string) (rows : list (float * string))
    (w : World) :
  db (snd (Spec.amounts_in net target rows w)) = db w.
Proof.
  revert w. induction rows as [|[amount currency] rows IH]; intros w;
    [reflexivity|].
  cbn [Spec.amounts_in].
  specialize (IH (snd (fetch_rate net currency target w))).
  destruct (Spec.amounts_in net target rows
              (snd (fetch_rate net currency target w))) as [xs w'].
  cbn [snd] in *. rewrite IH. apply fetch_rate_db.
Qed.

Lemma amounts_in_length (target : string) (rows : list (float * string))
    (w : World) :
  length (fst (Spec.amounts_in net target rows w)) = length rows.
Proof.
  revert w. induction rows as [|[amount currency] rows IH]; intros w;
    [reflexivity|].
  cbn [Spec.amounts_in].
  specialize (IH (snd (fetch_rate net currency target w))).
  destruct (Spec.amounts_in net target rows
              (snd (fetch_rate net currency target w))) as [xs w'].
  cbn [fst length] in *. rewrite IH. reflexivity.
Qed.

(** The generator of converted amounts yields the amounts of the rows in
    the target currency, in the order of the rows. *)
Lemma convert_all_amounts (rows : list (float * string)) (target : string)
    (w : World) :
  convert_all net rows target w
  = (Ok (fst (Spec.amounts_in net target rows w)),
     snd (Spec.amounts_in net target rows w)).
Proof.
  revert w. induction rows as [|[amount currency] rows IH]; intros w;
    [reflexivity|].
  cbn [convert_all Spec.amounts_in]. unfold bind at 1.
  rewrite convert_eq. unfold bind at 1. rewrite IH.
  destruct (Spec.amounts_in net target rows
              (snd (fetch_rate net currency target w))) as [xs w'].
  reflexivity.
Qed.

Lemma sum_converted_amounts (rows : list (float * string)) (target : string)
    (w : World) :
  sum_converted net py rows target w
  = (Ok (Fl.py_sum py (fst (Spec.amounts_in net target rows w))),
     snd (Spec.amounts_in net target rows w)).
Proof.
  unfold sum_converted, bind. rewrite convert_all_amounts. reflexivity.
Qed.





End Aggregates.



(** ** ISO dates as text *)

Module IsoText.

Import Cal.

Lemma digit_compare (p q : Z) :
  Ascii.compare (digit p) (digit q) = (p mod 10 ?= q mod 10).
Proof.
  unfold digit, Ascii.compare.
  assert (0 <= p mod 10 < 10) as Hp by (apply Z.mod_pos_bound; lia).
  assert (0 <= q mod 10 < 10) as Hq by (apply Z.mod_pos_bound; lia).
  rewrite !N_ascii_embedding by lia.
  rewrite Z2N.inj_compare by lia.
  apply Z.add_compare_mono_l.
Qed.

Lemma digit_cons_compare (p q : Z) (s1 s2 : string) :
  String.compare (String (digit p) s1) (String (digit q) s2)
  = match p mod 10 ?= q mod 10 with
    | Eq => String.compare s1 s2
    | c => c
    end.
Proof. cbn [String.compare]. rewrite digit_compare. reflexivity. Qed.

Lemma dash_cons_compare (s1 s2 : string) :
  String.compare (String "-" s1) (String "-" s2) = String.compare s1 s2.
Proof. reflexivity. Qed.

(** Two zero-padded digits compare as the numbers they print. *)
Lemma pad2_compare (x y : Z) (k1 k2 : string) :
  0 <= x < 100 -> 0 <= y < 100 ->
  String.compare (pad2 x k1) (pad2 y k2)
  = match x ?= y with
    | Eq => String.compare k1 k2
    | c => c
    end.
Proof.
  intros Hx Hy. unfold pad2. rewrite !digit_cons_compare.
  destruct (Z.compare_spec ((x / 10) mod 10) ((y / 10) mod 10)) as [E1|L1|G1];
    destruct (Z.compare_spec (x mod 10) (y mod 10)) as [E2|L2|G2];
    destruct (Z.compare_spec x y) as [E|L|G];
    try reflexivity; exfalso; Z.div_mod_to_equations; lia.
Qed.

(** Four zero-padded digits compare as the numbers they print. *)
Lemma pad4_compare (x y : Z) (k1 k2 : string) :
  0 <= x < 10000 -> 0 <= y < 10000 ->
  String.compare (pad4 x k1) (pad4 y k2)
  = match x ?= y with
    | Eq => String.compare k1 k2
    | c => c
    end.
Proof.
  intros Hx Hy. unfold pad4, pad2. rewrite !digit_cons_compare.
  destruct (Z.compare_spec ((x / 1000) mod 10) ((y / 1000) mod 10))
    as [E1|L1|G1];
    destruct (Z.compare_spec ((x / 100) mod 10) ((y / 100) mod 10))
      as [E2|L2|G2];
    destruct (Z.compare_spec ((x / 10) mod 10) ((y / 10) mod 10))
      as [E3|L3|G3];
    destruct (Z.compare_spec (x mod 10) (y mod 10)) as [E4|L4|G4];
    destruct (Z.compare_spec x y) as [E|L|G];
    try reflexivity; exfalso; Z.div_mod_to_equations; lia.
Qed.

Lemma days_in_month_bounds (y m : Z) :
  1 <= m <= 12 -> 28 <= days_in_month y m <= 31.
Proof.
  intros Hm.
  assert (m = 1 \/ m = 2 \/ m = 3 \/ m = 4 \/ m = 5 \/ m = 6 \/ m = 7
          \/ m = 8 \/ m = 9 \/ m = 10 \/ m = 11 \/ m = 12) as H by lia.
  unfold days_in_month.
  repeat (destruct H as [->|H]; [destruct (is_leap y); cbv; split; discriminate|]).
  subst m. destruct (is_leap y); cbv; split; discriminate.
Qed.

Lemma valid_bounds (d : date) :
  valid d ->
  1 <= year d <= 9999 /\ 1 <= month d <= 12 /\ 1 <= day d <= 31.
Proof.
  unfold valid, validb, MINYEAR, MAXYEAR.
  rewrite !andb_true_iff, !Z.leb_le. intros [[[[[H1 H2] H3] H4] H5] H6].
  pose proof (days_in_month_bounds (year d) (month d)). lia.
Qed.

(** The text order of ISO dates is the order of the dates. *)
Theorem isoformat_compare (a b : date) :
  valid a -> valid b ->
  String.compare (isoformat a) (isoformat b) = date_compare a b.
Proof.
  intros Ha Hb.
  destruct (valid_bounds a Ha) as (Hy1 & Hm1 & Hd1).
  destruct (valid_bounds b Hb) as (Hy2 & Hm2 & Hd2).
  unfold isoformat, date_compare.
  rewrite pad4_compare by lia. rewrite dash_cons_compare.
  rewrite pad2_compare by lia. rewrite dash_cons_compare.
  rewrite pad2_compare by lia.
  destruct (year a ?= year b); try reflexivity.
  destruct (month a ?= month b); try reflexivity.
  destruct (day a ?= day b); reflexivity.
Qed.

Lemma isoformat_leb (a b : date) :
  valid a -> valid b ->
  String.leb (isoformat a) (isoformat b) = true <-> ~ date_lt b a.
Proof.
  intros Ha Hb. unfold String.leb, date_lt.
  rewrite (isoformat_compare a b Ha Hb).
  assert (date_compare b a = CompOpp (date_compare a b)) as ->.
  { rewrite <- (isoformat_compare a b Ha Hb), <- (isoformat_compare b a Hb Ha).
    apply String.compare_antisym. }
  destruct (date_compare a b); cbn; split; congruence.
Qed.

End IsoText.

(** ** The calendar arithmetic behind the weekly start *)

Module CalFacts.

Import Cal.

Ltac table :=
  cbv [nth Z.to_nat Pos.to_nat Pos.iter_op Init.Nat.add DAYS_BEFORE_MONTH
       DAYS_IN_MONTH Z.ltb Z.eqb Z.leb Z.compare Pos.compare Pos.compare_cont
       Pos.eqb andb orb negb].

Lemma days_before_year_succ (y : Z) :
  days_before_year (y + 1) = days_before_year y + 365 + leap_days y.
Proof.
  unfold days_before_year, leap_days, is_leap.
  replace (y + 1 - 1) with y by lia.
  destruct (Z.eqb_spec (y mod 4) 0) as [E4|E4];
    destruct (Z.eqb_spec (y mod 100) 0) as [E100|E100];
    destruct (Z.eqb_spec (y mod 400) 0) as [E400|E400];
    cbn [andb orb negb]; Z.div_mod_to_equations; lia.
Qed.

Lemma ymd2ord_jan1 (y : Z) : ymd2ord y 1 1 = days_before_year y + 1.
Proof.
  unfold ymd2ord, days_before_month.
  change (nth (Z.to_nat 1) DAYS_BEFORE_MONTH 0) with 0.
  change (2 <? 1) with false. cbn [andb]. lia.
Qed.

Lemma toordinal_range (d : date) :
  valid d ->
  days_before_year (year d) + 1 <= toordinal d
  <= days_before_year (year d) + 365 + leap_days (year d).
Proof.
  unfold valid, validb, toordinal, ymd2ord, days_before_month, days_in_month,
    leap_days, MINYEAR, MAXYEAR.
  rewrite !andb_true_iff, !Z.leb_le. intros [[[[[H1 H2] H3] H4] H5] H6].
  assert (month d = 1 \/ month d = 2 \/ month d = 3 \/ month d = 4
          \/ month d = 5 \/ month d = 6 \/ month d = 7 \/ month d = 8
          \/ month d = 9 \/ month d = 10 \/ month d = 11 \/ month d = 12)
    as Hm by lia.
  revert H6.
  repeat (destruct Hm as [->|Hm];
          [destruct (is_leap (year d)); table; lia|]).
  rewrite Hm. destruct (is_leap (year d)); table; lia.
Qed.

Lemma days_in_month_dec (y : Z) : days_in_month y 12 = 31.
Proof. unfold days_in_month. table. reflexivity. Qed.

Lemma is_leap_decomposed (q400 q100 q4 q1 : Z) :
  0 <= q100 < 4 -> 0 <= q4 <= 24 -> 0 <= q1 < 4 ->
  is_leap (q400 * 400 + 1 + q100 * 100 + q4 * 4 + q1)
  = (q1 =? 3) && (negb (q4 =? 24) || (q100 =? 3)).
Proof.
  intros H100 H4 H1. unfold is_leap.
  set (y := q400 * 400 + 1 + q100 * 100 + q4 * 4 + q1).
  assert (y mod 4 = (1 + q1) mod 4) as E4.
  { unfold y. replace (q400 * 400 + 1 + q100 * 100 + q4 * 4 + q1)
      with (1 + q1 + (q400 * 100 + q100 * 25 + q4) * 4) by lia.
    apply Z.mod_add. lia. }
  assert (y mod 100 = (1 + q4 * 4 + q1) mod 100) as E100.
  { unfold y. replace (q400 * 400 + 1 + q100 * 100 + q4 * 4 + q1)
      with (1 + q4 * 4 + q1 + (q400 * 4 + q100) * 100) by lia.
    apply Z.mod_add. lia. }
  assert (y mod 400 = (1 + q100 * 100 + q4 * 4 + q1) mod 400) as E400.
  { unfold y. replace (q400 * 400 + 1 + q100 * 100 + q4 * 4 + q1)
      with (1 + q100 * 100 + q4 * 4 + q1 + q400 * 400) by lia.
    apply Z.mod_add. lia. }
  rewrite E4, E100, E400.
  destruct (Z.eqb_spec q1 3) as [->|N1]; cbn [andb].
  - replace ((1 + 3) mod 4) with 0 by reflexivity.
    change (0 =? 0) with true. cbn [andb].
    destruct (Z.eqb_spec q4 24) as [->|N4]; cbn [negb orb].
    + replace ((1 + 24 * 4 + 3) mod 100) with 0 by reflexivity.
      change (0 =? 0) with true. cbn [negb orb].
      destruct (Z.eqb_spec q100 3) as [->|N100].
      * reflexivity.
      * apply Z.eqb_neq. rewrite Z.mod_small by lia. lia.
    + replace ((1 + q4 * 4 + 3) mod 100 =? 0) with false; [reflexivity|].
      symmetry. apply Z.eqb_neq. rewrite Z.mod_small by lia. lia.
  - replace ((1 + q1) mod 4 =? 0) with false; [reflexivity|].
    symmetry. apply Z.eqb_neq. rewrite Z.mod_small by lia. lia.
Qed.

Lemma month_and_day_valid (leap : bool) (n : Z) :
  0 <= n < 365 ->
  let '(m, d) := month_and_day leap n in
  1 <= m <= 12
  /\ 1 <= d <= (if (m =? 2) && leap then 29
                else nth (Z.to_nat m) DAYS_IN_MONTH 0).
Proof.
  intros Hn.
  assert (forallb (fun k => month_and_day_ok leap (Z.of_nat k)) (seq 0 365)
          = true) as Hall by (destruct leap; vm_compute; reflexivity).
  rewrite forallb_forall in Hall.
  specialize (Hall (Z.to_nat n)). rewrite Z2Nat.id in Hall by lia.
  unfold month_and_day_ok in Hall.
  destruct (month_and_day leap n) as [m d].
  rewrite !andb_true_iff, !Z.leb_le in Hall.
  assert (In (Z.to_nat n) (seq 0 365)) as Hin by (apply in_seq; lia).
  specialize (Hall Hin). lia.
Qed.

Lemma ord2ymd_valid (n : Z) :
  1 <= n <= MAXORDINAL ->
  let '(y, m, d) := ord2ymd n in validb (mkDate y m d) = true.
Proof.
  unfold MAXORDINAL. intros Hn. unfold ord2ymd, DI400Y, DI100Y, DI4Y.
  set (n0 := n - 1).
  set (q400 := n0 / 146097). set (r400 := n0 mod 146097).
  set (q100 := r400 / 36524). set (r100 := r400 mod 36524).
  set (q4 := r100 / 1461). set (r4 := r100 mod 1461).
  set (q1 := r4 / 365). set (r := r4 mod 365).
  assert (n0 = 146097 * q400 + r400 /\ 0 <= r400 < 146097) as [E400 B400].
  { split; [apply Z.div_mod; lia|apply Z.mod_pos_bound; lia]. }
  assert (r400 = 36524 * q100 + r100 /\ 0 <= r100 < 36524) as [E100 B100].
  { split; [apply Z.div_mod; lia|apply Z.mod_pos_bound; lia]. }
  assert (r100 = 1461 * q4 + r4 /\ 0 <= r4 < 1461) as [E4 B4].
  { split; [apply Z.div_mod; lia|apply Z.mod_pos_bound; lia]. }
  assert (r4 = 365 * q1 + r /\ 0 <= r < 365) as [E1 B1].
  { split; [apply Z.div_mod; lia|apply Z.mod_pos_bound; lia]. }
  assert (n0 = n - 1) as En0 by reflexivity.
  clearbody n0 q400 r400 q100 r100 q4 r4 q1 r.
  assert (0 <= q400 <= 24 /\ 0 <= q100 <= 4 /\ 0 <= q4 <= 24 /\ 0 <= q1 <= 4)
    as (Q400 & Q100 & Q4 & Q1) by lia.
  destruct (Z.eqb_spec q1 4) as [A1|A1]; cbn [orb].
  { unfold validb, MINYEAR, MAXYEAR. cbn [year month day].
    rewrite days_in_month_dec.
    rewrite !andb_true_iff, !Z.leb_le. lia. }
  destruct (Z.eqb_spec q100 4) as [A100|A100].
  { unfold validb, MINYEAR, MAXYEAR. cbn [year month day].
    rewrite days_in_month_dec.
    rewrite !andb_true_iff, !Z.leb_le. lia. }
  set (y := q400 * 400 + 1 + q100 * 100 + q4 * 4 + q1).
  assert (1 <= y <= 9999) as Hy by (unfold y; lia).
  pose proof (is_leap_decomposed q400 q100 q4 q1) as Hleap.
  fold y in Hleap. rewrite <- Hleap by lia.
  clear Hleap. clearbody y.
  pose proof (month_and_day_valid (is_leap y) r B1) as Hmd.
  destruct (month_and_day (is_leap y) r) as [m d].
  unfold validb, days_in_month, MINYEAR, MAXYEAR. cbn [year month day].
  rewrite !andb_true_iff, !Z.leb_le. lia.
Qed.

Lemma isoweek1monday_week1 (y : Z) :
  isoweek1monday y = week1 (days_before_year y + 1).
Proof.
  unfold isoweek1monday, week1. rewrite ymd2ord_jan1.
  destruct (3 <? (days_before_year y + 1 + 6) mod 7); reflexivity.
Qed.

Lemma week1_spec (j : Z) :
  j - 3 <= week1 j <= j + 3 /\ (week1 j - 1) mod 7 = 0.
Proof.
  unfold week1.
  destruct (Z.ltb_spec 3 ((j + 6) mod 7)); Z.div_mod_to_equations; lia.
Qed.

Lemma days_before_year_bounds (y : Z) :
  1 <= y <= 10000 ->
  0 <= days_before_year y <= 3652059
  /\ (2 <= y -> 365 <= days_before_year y).
Proof.
  intros Hy. unfold days_before_year. Z.div_mod_to_equations. lia.
Qed.

Lemma fromisocalendar_monday_ok (y w : Z) :
  1 <= y <= 9999 ->
  week_in_year y w ->
  1 <= isoweek1monday y + (w - 1) * 7 <= MAXORDINAL ->
  exists start, fromisocalendar y w 1 = Ok start /\ valid start.
Proof.
  intros Hy Hw Hord. unfold fromisocalendar, MINYEAR, MAXYEAR.
  replace ((1 <=? y) && (y <=? 9999)) with true
    by (symmetry; rewrite andb_true_iff, !Z.leb_le; lia).
  cbn [negb]. rewrite ymd2ord_jan1.
  replace (((0 <? w) && (w <? 53))
           || ((w =? 53)
               && (((days_before_year y + 1) mod 7 =? 4)
                   || (((days_before_year y + 1) mod 7 =? 3) && is_leap y))))
    with true.
  2:{ symmetry. rewrite orb_true_iff, !andb_true_iff, orb_true_iff,
        andb_true_iff, !Z.ltb_lt, !Z.eqb_eq.
      destruct Hw as [Hw|Hw]; [left; lia|right; exact Hw]. }
  cbn [negb]. change ((0 <? 1) && (1 <? 8)) with true. cbn [negb].
  replace ((w - 1) * 7 + (1 - 1)) with ((w - 1) * 7) by lia.
  pose proof (ord2ymd_valid _ Hord) as Hv.
  destruct (ord2ymd (isoweek1monday y + (w - 1) * 7)) as [[y' m'] d'].
  unfold new_date. rewrite Hv. eexists. split; [reflexivity|exact Hv].
Qed.

(** A year has 52 ISO weeks, or 53 when it starts on a Thursday, or on a
    Wednesday and is a leap year. *)
Lemma week1_next (j l : Z) :
  0 <= l <= 1 ->
  week1 (j + 365 + l) - week1 j = 364
  \/ (week1 (j + 365 + l) - week1 j = 371
      /\ (j mod 7 = 4 \/ (j mod 7 = 3 /\ l = 1))).
Proof.
  intros Hl. unfold week1.
  destruct (Z.ltb_spec 3 ((j + 6) mod 7));
    destruct (Z.ltb_spec 3 ((j + 365 + l + 6) mod 7));
    Z.div_mod_to_equations; lia.
Qed.

Lemma leap_days_cases (y : Z) :
  (is_leap y = true /\ leap_days y = 1)
  \/ (is_leap y = false /\ leap_days y = 0).
Proof. unfold leap_days. destruct (is_leap y); auto. Qed.

Lemma fromisocalendar_monday_ok_at (y w D W : Z) :
  1 <= y <= 9999 ->
  D = days_before_year y ->
  W = week1 (D + 1) ->
  0 < w < 53
  \/ (w = 53 /\ ((D + 1) mod 7 = 4
                  \/ ((D + 1) mod 7 = 3 /\ is_leap y = true))) ->
  1 <= W + (w - 1) * 7 <= 3652059 ->
  exists start, fromisocalendar y w 1 = Ok start /\ valid start.
Proof.
  intros Hy -> -> Hw Hord. apply fromisocalendar_monday_ok.
  - exact Hy.
  - exact Hw.
  - rewrite isoweek1monday_week1. exact Hord.
Qed.

Theorem weekly_start_ok (today : date) :
  valid today ->
  exists start,
    (let '(iso_year, iso_week, _) := isocalendar today in
     fromisocalendar iso_year iso_week 1) = Ok start
    /\ valid start.
Proof.
  intros Hv.
  pose proof (toordinal_range today Hv) as Ht.
  assert (1 <= year today <= 9999) as Hy.
  { revert Hv. unfold valid, validb, MINYEAR, MAXYEAR.
    rewrite !andb_true_iff, !Z.leb_le. lia. }
  unfold isocalendar.
  set (y := year today) in *. set (t := toordinal today) in *.
  clearbody y t. clear Hv today.
  pose proof (days_before_year_succ y) as Hn.
  pose proof (days_before_year_succ (y - 1)) as Hp.
  replace (y - 1 + 1) with y in Hp by lia.
  assert (y = 1 -> days_before_year y = 0) as H1 by (intros ->; reflexivity).
  assert (y = 9999 -> days_before_year (y + 1) = 3652059) as H9
    by (intros ->; reflexivity).
  assert (2 <= y -> 0 <= days_before_year (y - 1)) as Hp0.
  { intros H. apply (days_before_year_bounds (y - 1)). lia. }
  assert (0 <= days_before_year y) as Hd0
    by (apply (days_before_year_bounds y); lia).
  assert (days_before_year (y + 1) <= 3652059) as Hmax
    by (apply (days_before_year_bounds (y + 1)); lia).
  rewrite (isoweek1monday_week1 y), (isoweek1monday_week1 (y - 1)),
    (isoweek1monday_week1 (y + 1)).
  unfold leap_days in *.
  remember (days_before_year y) as D eqn:ED.
  remember (days_before_year (y - 1)) as Dp eqn:EDp.
  remember (days_before_year (y + 1)) as Dn eqn:EDn.
  pose proof (week1_spec (D + 1)) as [Hw Hwm].
  pose proof (week1_spec (Dp + 1)) as [Hwp Hwpm].
  pose proof (week1_spec (Dn + 1)) as [Hwn Hwnm].
  pose proof (week1_next (D + 1) (if is_leap y then 1 else 0)) as Hnext.
  pose proof (week1_next (Dp + 1) (if is_leap (y - 1) then 1 else 0))
    as Hprev.
  replace (D + 1 + 365 + (if is_leap y then 1 else 0))
    with (Dn + 1) in Hnext by lia.
  replace (Dp + 1 + 365 + (if is_leap (y - 1) then 1 else 0))
    with (D + 1) in Hprev by lia.
  remember (week1 (D + 1)) as W eqn:EW.
  remember (week1 (Dp + 1)) as Wp eqn:EWp.
  remember (week1 (Dn + 1)) as Wn eqn:EWn.
  destruct (is_leap y) eqn:Ly; destruct (is_leap (y - 1)) eqn:Lp;
    specialize (Hnext ltac:(lia)); specialize (Hprev ltac:(lia)).
  all: destruct (Z.ltb_spec ((t - W) / 7) 0) as [Ha|Ha];
    [ apply (fromisocalendar_monday_ok_at (y - 1) _ Dp Wp);
      [ Z.div_mod_to_equations; lia | exact EDp | exact EWp
      | rewrite ?Lp; Z.div_mod_to_equations; lia
      | Z.div_mod_to_equations; lia ]
    | destruct (Z.leb_spec 52 ((t - W) / 7)) as [Hb|Hb]; cbn [andb];
      [ destruct (Z.leb_spec Wn t) as [Hc|Hc];
        [ apply (fromisocalendar_monday_ok_at (y + 1) _ Dn Wn);
          [ Z.div_mod_to_equations; lia | exact EDn | exact EWn
          | left; lia
          | Z.div_mod_to_equations; lia ]
        | apply (fromisocalendar_monday_ok_at y _ D W);
          [ lia | exact ED | exact EW
          | rewrite ?Ly; Z.div_mod_to_equations; lia
          | Z.div_mod_to_equations; lia ] ]
      | apply (fromisocalendar_monday_ok_at y _ D W);
        [ lia | exact ED | exact EW
        | left; Z.div_mod_to_equations; lia
        | Z.div_mod_to_equations; lia ] ] ].
Qed.

End CalFacts.

(** ** Period summaries *)

Lemma first_of_month_valid (today : Cal.date) :
  Cal.valid today ->
  Cal.valid (Cal.mkDate (Cal.year today) (Cal.month today) 1).
Proof.
  unfold Cal.valid, Cal.validb. cbn [Cal.year Cal.month Cal.day].
  rewrite !andb_true_iff, !Z.leb_le.
  intros [[[[[H1 H2] H3] H4] H5] H6].
  pose proof (IsoText.days_in_month_bounds (Cal.year today) (Cal.month today)).
  repeat split; lia.
Qed.

Lemma period_start_monthly (today : Cal.date) :
  Cal.valid today ->
  period_start today "monthly"
  = Ok (Cal.mkDate (Cal.year today) (Cal.month today) 1).
Proof.
  intros Hv. unfold period_start. cbn [String.eqb Ascii.eqb Bool.eqb].
  unfold Cal.new_date. rewrite (first_of_month_valid today Hv). reflexivity.
Qed.

Lemma leb_not_ltb (a b : string) : String.leb a b = negb (String.ltb b a).
Proof.
  unfold String.leb, String.ltb. rewrite (String.compare_antisym b a).
  destruct (String.compare a b); reflexivity.
Qed.

(** The rows the two queries of [period_summary] select are the rows
    whose date is not before the start, as texts. *)
Lemma expenses_since_from (start : string) (d : DB) :
  expenses_since start d = Spec.expenses_from start d.
Proof.
  unfold expenses_since, Spec.expenses_from. apply List.filter_ext.
  intros e. apply leb_not_ltb.
Qed.

Lemma incomes_since_from (start : string) (d : DB) :
  incomes_since start d = Spec.incomes_from start d.
Proof.
  unfold incomes_since, Spec.incomes_from. apply List.filter_ext.
  intros i. apply leb_not_ltb.
Qed.

(** On ISO texts of dates, "not before as texts" is "not before as
    dates". *)
Lemma isoformat_ltb (d start : Cal.date) :
  Cal.valid d -> Cal.valid start ->
  String.ltb (Cal.isoformat d) (Cal.isoformat start) = Spec.before d start.
Proof.
  intros Hd Hs. unfold String.ltb, Spec.before.
  rewrite (IsoText.isoformat_compare d start Hd Hs). reflexivity.
Qed.

Lemma filter_dated_from {A : Type} (date_of : A -> string) (start : Cal.date)
    (rows : list A) (dates : list Cal.date) :
  Cal.valid start ->
  Forall Cal.valid dates ->
  map date_of rows = map Cal.isoformat dates ->
  List.filter (fun r => negb (String.ltb (date_of r) (Cal.isoformat start)))
              rows
  = Spec.dated_from start rows dates.
Proof.
  intros Hs Hv. revert rows.
  induction Hv as [|d dates Hd Hv IH]; intros [|r rows] E;
    try discriminate; [reflexivity|].
  cbn [map] in E. inversion E as [[E1 E2]].
  unfold Spec.dated_from. cbn [List.filter combine snd fst].
  rewrite E1, (isoformat_ltb d start Hd Hs).
  specialize (IH rows E2). unfold Spec.dated_from in IH.
  destruct (Spec.before d start); cbn [negb map fst]; rewrite IH; reflexivity.
Qed.

(** A period summary whose start is known: the rows dated from the start
    on, each amount in the display currency, summed. *)
Lemma period_summary_from_start net py (today start : Cal.date)
    (period : string) (w : World) :
  period_start today period = Ok start ->
  let display_cur := default "BDT" (settings (db w) !! "display_currency") in
  let ce :=
    Spec.amounts_in net display_cur
      (Spec.expense_amounts (Spec.expenses_from (Cal.isoformat start) (db w)))
      w in
  let ci :=
    Spec.amounts_in net display_cur
      (Spec.income_amounts (Spec.incomes_from (Cal.isoformat start) (db w)))
      (snd ce) in
  period_summary net py today period w
  = (Ok (mkSummary display_cur period
           (Fl.round2 (Fl.py_sum py (fst ce)))
           (Fl.round2 (Fl.py_sum py (fst ci)))
           (Fl.round2 (Fl.py_sum py (fst ci) - Fl.py_sum py (fst ce))%float)),
     snd ci)
  /\ db (snd ci) = db w.
Proof.
  intros Hs display_cur ce ci. split.
  - unfold period_summary, get_display_currency.
    unfold bind at 1. rewrite Hs. munfold. fold display_cur.
    rewrite expenses_since_from, incomes_since_from.
    change (map (fun e => (exp_amount e, exp_currency e))
                (Spec.expenses_from (Cal.isoformat start) (db w)))
      with (Spec.expense_amounts
              (Spec.expenses_from (Cal.isoformat start) (db w))).
    change (map (fun i => (inc_amount i, inc_currency i))
                (Spec.incomes_from (Cal.isoformat start) (db w)))
      with (Spec.income_amounts
              (Spec.incomes_from (Cal.isoformat start) (db w))).
    rewrite sum_converted_amounts. fold ce.
    rewrite sum_converted_amounts. fold ci. reflexivity.
  - unfold ci. rewrite amounts_in_db. unfold ce. apply amounts_in_db.
Qed.

(** C6: the monthly summary, under either interpreter.  Its start is the
    first day of the month of [today].  The expenses summed are the rows
    of the table whose date is not before that day: an expense whose
    stored date is the ISO text of a date [d] is left out when [d] is
    strictly before the start and taken when [d] is on or after it; when
    every stored date is the ISO text of a date, the rows summed are the
    rows dated on or after the start, in table order.  The [expenses]
    field is the rounded sum of the amounts of those rows, each in the
    display currency (the amount times the rate the currency service
    answers). *)
Theorem monthly_summary_expenses :
  forall (net : nat -> string -> string -> option float) (py : Fl.cpython)
         (today : Cal.date) (w : World),
    Cal.valid today ->
    let start := Cal.mkDate (Cal.year today) (Cal.month today) 1 in
    let display_cur := default "BDT" (settings (db w) !! "display_currency") in
    let summed := Spec.expenses_from (Cal.isoformat start) (db w) in
    (forall (e : expense) (d : Cal.date),
        In e (expenses (db w)) -> Cal.valid d ->
        exp_date e = Cal.isoformat d ->
        (Cal.date_lt d start -> ~ In e summed)
        /\ (~ Cal.date_lt d start -> In e summed))
    /\ (forall e, In e summed -> In e (expenses (db w)))
    /\ (forall dates : list Cal.date,
           Forall Cal.valid dates ->
           map exp_date (expenses (db w)) = map Cal.isoformat dates ->
           summed = Spec.dated_from start (expenses (db w)) dates)
    /\ exists (r : summary_result) (w' : World),
         period_summary net py today "monthly" w = (Ok r, w')
         /\ s_expenses r
            = Fl.round2
                (Fl.py_sum py
                   (fst (Spec.amounts_in net display_cur
                           (Spec.expense_amounts summed) w))).
Proof.
  intros net py today w Hv start display_cur summed.
  assert (Cal.valid start) as Hvs by (apply first_of_month_valid; exact Hv).
  split; [|split; [|split]].
  - intros e d Hin Hd Hdate. unfold summed, Spec.expenses_from.
    rewrite filter_In, Hdate, <- leb_not_ltb.
    pose proof (IsoText.isoformat_leb start d Hvs Hd) as Hleb.
    split.
    + intros Hlt [_ Hle]. apply Hleb in Hle. contradiction.
    + intros Hnlt. split; [exact Hin|]. apply Hleb. exact Hnlt.
  - intros e He. unfold summed, Spec.expenses_from in He.
    apply filter_In in He. tauto.
  - intros dates Hdates E. unfold summed, Spec.expenses_from.
    apply filter_dated_from; assumption.
  - destruct (period_summary_from_start net py today start "monthly" w
                (period_start_monthly today Hv)) as [Hp _].
    eexists. eexists. split; [exact Hp|]. reflexivity.
Qed.

Lemma monthly_summary_expenses_witness :
  ~ In rent_feb
       (Spec.expenses_from (Cal.isoformat (Cal.mkDate 2024 3 1))
          (db books_world))
  /\ In rent_mar
        (Spec.expenses_from (Cal.isoformat (Cal.mkDate 2024 3 1))
           (db books_world))
  /\ Spec.expenses_from (Cal.isoformat (Cal.mkDate 2024 3 1))
       (db books_world)
     = [rent_mar; course_apr; books_mar]
  /\ exists (r : summary_result) (w' : World),
       period_summary offline Fl.Py312 (Cal.mkDate 2024 3 17) "monthly"
         books_world = (Ok r, w')
       /\ s_expenses r = 2700%float.
Proof.
  destruct (monthly_summary_expenses offline Fl.Py312 (Cal.mkDate 2024 3 17)
              books_world eq_refl) as (H & _ & Hl & r & w' & Hr & Hs).
  split; [|split; [|split]].
  - apply (proj1 (H rent_feb (Cal.mkDate 2024 2 29)
                    ltac:(left; reflexivity) eq_refl eq_refl)).
    reflexivity.
  - apply (proj2 (H rent_mar (Cal.mkDate 2024 3 1)
                    ltac:(right; left; reflexivity) eq_refl eq_refl)).
    discriminate.
  - transitivity
      (Spec.dated_from (Cal.mkDate 2024 3 1) (expenses (db books_world))
         [Cal.mkDate 2024 2 29; Cal.mkDate 2024 3 1; Cal.mkDate 2024 4 1;
          Cal.mkDate 2024 3 10]); [|reflexivity].
    apply (Hl [Cal.mkDate 2024 2 29; Cal.mkDate 2024 3 1;
               Cal.mkDate 2024 4 1; Cal.mkDate 2024 3 10]).
    + repeat constructor.
    + reflexivity.
  - exists r, w'. split; [exact Hr|]. rewrite Hs. vm_compute. reflexivity.
Defined.

Lemma period_start_weekly (today : Cal.date) :
  Cal.valid today ->
  exists start, period_start today "weekly" = Ok start /\ Cal.valid start.
Proof.
  intros Hv. unfold period_start. cbn [String.eqb Ascii.eqb Bool.eqb].
  exact (CalFacts.weekly_start_ok today Hv).
Qed.

Lemma period_start_other (today : Cal.date) (period : string) :
  period <> "daily" -> period <> "weekly" -> period <> "monthly" ->
  period_start today period
  = Raise (ValueError "period must be daily/weekly/monthly").
Proof.
  intros Hd Hw Hm. unfold period_start.
  apply String.eqb_neq in Hd, Hw, Hm. rewrite Hd, Hw, Hm. reflexivity.
Qed.

(** C9: [period_summary] raises [ValueError] for every period other than
    "daily", "weekly" and "monthly", and then the world it leaves is the
    world it was called in (store, cache and request counter); for each of
    the three it returns a summary (today being a date), and the store is
    as before. *)
Theorem period_summary_period_check :
  forall (net : nat -> string -> string -> option float) (py : Fl.cpython)
         (today : Cal.date) (period : string) (w : World),
    (period <> "daily" -> period <> "weekly" -> period <> "monthly" ->
     period_summary net py today period w
     = (Raise (ValueError "period must be daily/weekly/monthly"), w))
    /\ (period = "daily" \/ period = "weekly" \/ period = "monthly" ->
        Cal.valid today ->
        exists (r : summary_result) (w' : World),
          period_summary net py today period w = (Ok r, w')
          /\ s_period r = period
          /\ db w' = db w).
Proof.
  intros net py today period w. split.
  - intros Hd Hw Hm. unfold period_summary, get_display_currency.
    unfold bind at 1. rewrite (period_start_other today period Hd Hw Hm).
    reflexivity.
  - intros Hp Hv.
    assert (exists start, period_start today period = Ok start)
      as [start Hs].
    { destruct Hp as [-> | [-> | ->]].
      - exists today. reflexivity.
      - destruct (period_start_weekly today Hv) as (start & Hs & _).
        exists start. exact Hs.
      - eexists. apply period_start_monthly. exact Hv. }
    destruct (period_summary_from_start net py today start period w Hs)
      as [Hr Hd].
    eexists. eexists. split; [exact Hr|]. split; [reflexivity|exact Hd].
Qed.

Lemma period_summary_period_check_witness :
  period_summary offline Fl.Py311 (Cal.mkDate 2024 3 17) "yearly" sample_world
  = (Raise (ValueError "period must be daily/weekly/monthly"), sample_world)
  /\ exists (r : summary_result) (w' : World),
       period_summary offline Fl.Py311 (Cal.mkDate 2024 3 17) "weekly"
         sample_world
       = (Ok r, w')
       /\ s_period r = "weekly"
       /\ db w' = db sample_world.
Proof.
  split.
  - apply (proj1 (period_summary_period_check offline Fl.Py311
                    (Cal.mkDate 2024 3 17) "yearly" sample_world));
      discriminate.
  - apply (proj2 (period_summary_period_check offline Fl.Py311
                    (Cal.mkDate 2024 3 17) "weekly" sample_world)).
    + right. left. reflexivity.
    + reflexivity.
Defined.

(** ** The primary key of [accounts] *)

Lemma initial_db_keyed : accounts_keyed initial_db.
Proof. split; constructor. Qed.

Lemma set_balance_id (account_id : Z) (x : float) (a : account) :
  acc_id (set_balance account_id x a) = acc_id a.
Proof. unfold set_balance. destruct (acc_id a =? account_id); reflexivity. Qed.

Lemma map_set_balance_ids (account_id : Z) (x : float) (l : list account) :
  map acc_id (map (set_balance account_id x) l) = map acc_id l.
Proof.
  induction l as [|a l IH]; cbn; [reflexivity|].
  rewrite set_balance_id, IH. reflexivity.
Qed.

(** [add_account] and [update_balance] keep the key, whatever they return. *)
Lemma add_account_keyed now name currency balance acc_type w :
  accounts_keyed (db w) ->
  accounts_keyed (db (snd (add_account now name currency balance acc_type w))).
Proof.
  intros [Hnd Hle]. unfold accounts_keyed, add_account.
  destruct (negb (str_in currency SUPPORTED_CURRENCIES)); [split; assumption|].
  destruct (negb (str_in acc_type ACCOUNT_TYPES)); [split; assumption|].
  unfold insert_account. munfold.
  destruct (real_is_null balance); [split; assumption|].
  destruct (negb (str_in currency ["BDT"; "USD"])); [split; assumption|].
  destruct (negb (str_in acc_type ["fixed"; "liquid"])); [split; assumption|].
  destruct (existsb _ (accounts (db w))); [split; assumption|].
  unfold with_accounts. cbn [snd db accounts seq_accounts]. split.
  - rewrite List.map_app. cbn [map]. apply NoDup_app. split; [exact Hnd|].
    split; [|apply NoDup_singleton].
    intros x Hx Hx'. apply list_elem_of_singleton in Hx'. subst x.
    apply list_elem_of_fmap in Hx as (a & Ea & Ha).
    rewrite Forall_forall in Hle. specialize (Hle a Ha).
    cbn [acc_id] in *. lia.
  - apply Forall_app. split.
    + eapply Forall_impl; [exact Hle|]. cbn beta. intros a Ha. lia.
    + constructor; [cbn [acc_id]; lia|constructor].
Qed.

Lemma update_balance_keyed account_id new_balance w :
  accounts_keyed (db w) ->
  accounts_keyed (db (snd (update_balance account_id new_balance w))).
Proof.
  intros [Hnd Hle].
  unfold accounts_keyed, update_balance, update_accounts_balance, bind_int.
  munfold. destruct (int64 account_id); [|split; assumption].
  cbn [fst snd].
  destruct (real_is_null new_balance && existsb _ (accounts (db w)));
    [split; assumption|].
  unfold with_accounts. cbn [snd db accounts seq_accounts]. split.
  - rewrite map_set_balance_ids. exact Hnd.
  - rewrite Forall_forall in *. intros a Ha.
    apply list_elem_of_fmap in Ha as (b & -> & Hb).
    rewrite set_balance_id. apply Hle. exact Hb.
Qed.

(** ** The engine of [main_v1.py]: the same operations *)

Lemma v1_fetch_rate_same_currency net (c : string) (w : V1.World) :
  V1.fetch_rate net c c w = (Ok (V1.PyFloat 1), w).
Proof. unfold V1.fetch_rate. rewrite String.eqb_refl. reflexivity. Qed.

(** [main_v1.py] opens an account whatever the arguments: no currency or
    type is refused, and a name may repeat. *)
Lemma v1_add_account_never_rejects (now name currency : string)
    (balance : float) (atype : string) (w : V1.World) :
  exists w',
    V1.add_account now name currency balance atype w
    = (Ok (V1.seq_accounts (V1.db w) + 1), w')
    /\ V1.accounts (V1.db w')
       = V1.accounts (V1.db w)
         ++ [V1.mkAccount (V1.seq_accounts (V1.db w) + 1) name currency
               (V1.bind_real balance) atype now].
Proof.
  unfold V1.add_account, bind, V1.get_db, V1.set_db, ret.
  eexists. split; reflexivity.
Qed.

Lemma v1_fetch_rate_db net base target (w : V1.World) :
  V1.db (snd (V1.fetch_rate net base target w)) = V1.db w.
Proof.
  unfold V1.fetch_rate.
  destruct (String.eqb base target); [reflexivity|].
  destruct (V1.cache w !! (base, target)); [reflexivity|].
  destruct (net (V1.requests w) base target); reflexivity.
Qed.

(** The lookup reads the cache and the request counter, not the store. *)
Lemma v1_fetch_rate_frame net base target (d : V1.DB) (w : V1.World) :
  V1.fetch_rate net base target (V1.mkWorld d (V1.cache w) (V1.requests w))
  = (fst (V1.fetch_rate net base target w),
     V1.mkWorld d (V1.cache (snd (V1.fetch_rate net base target w)))
                (V1.requests (snd (V1.fetch_rate net base target w)))).
Proof.
  unfold V1.fetch_rate. cbn [V1.cache V1.requests V1.db].
  destruct (String.eqb base target); [reflexivity|].
  destruct (V1.cache w !! (base, target)); [reflexivity|].
  destruct (net (V1.requests w) base target); reflexivity.
Qed.

Lemma v1_priced_frame net (d : V1.DB) (w : V1.World) (amt : float)
    (currency cur : string) :
  v1_priced net (V1.mkWorld d (V1.cache w) (V1.requests w)) amt currency cur
  = v1_priced net w amt currency cur.
Proof.
  unfold v1_priced. destruct (String.eqb currency cur); [reflexivity|].
  rewrite v1_fetch_rate_frame. cbn [fst].
  destruct (V1.fetch_rate net currency cur w) as [[v|e] w1]; reflexivity.
Qed.

Lemma v1_asked_db net (w : V1.World) (currency cur : string) :
  V1.db (v1_asked net w currency cur) = V1.db w.
Proof.
  unfold v1_asked. destruct (String.eqb currency cur); [reflexivity|].
  apply v1_fetch_rate_db.
Qed.

(** The amount in the currency of an account: what [fetch_rate] and the
    product decide, in the world the question leaves. *)
Lemma v1_in_currency_of_eq net (acc : V1.account) (amt : float)
    (currency : string) (w : V1.World) :
  V1.in_currency_of net acc amt currency w
  = (v1_priced net w amt currency (V1.acc_currency acc),
     v1_asked net w currency (V1.acc_currency acc)).
Proof.
  unfold V1.in_currency_of, v1_priced, v1_asked.
  destruct (String.eqb currency (V1.acc_currency acc)); cbn [negb];
    [reflexivity|].
  unfold V1.convert, bind, V1.lift.
  destruct (V1.fetch_rate net currency (V1.acc_currency acc) w)
    as [[v|e] w1]; reflexivity.
Qed.

Lemma v1_priced_cases net (w : V1.World) (amt : float)
    (currency cur : string) (x : float) :
  v1_priced net w amt currency cur = Ok x ->
  (currency = cur -> x = amt)
  /\ (currency <> cur ->
      exists v w1,
        V1.fetch_rate net currency cur w = (Ok v, w1)
        /\ V1.times amt v = Ok x).
Proof.
  unfold v1_priced. intros H. split.
  - intros E. apply String.eqb_eq in E. rewrite E in H. congruence.
  - intros E. apply String.eqb_neq in E. rewrite E in H.
    destruct (V1.fetch_rate net currency cur w) as [[v|e] w1];
      [|discriminate].
    exists v, w1. split; [reflexivity|exact H].
Qed.

Lemma v1_accounts_by_id_ok (id : Z) (w : V1.World) :
  int64 id = true ->
  V1.accounts_by_id id w = (Ok (v1_rows id w), w).
Proof.
  intros H. unfold V1.accounts_by_id, bind at 1.
  rewrite bind_int_ok by exact H. reflexivity.
Qed.

Lemma v1_update_balance_ok (id : Z) (x : float) (w : V1.World) :
  int64 id = true ->
  V1.update_balance id x w
  = (Ok tt,
     V1.mkWorld (V1.with_accounts (V1.db w)
                   (map (V1.set_balance id x) (V1.accounts (V1.db w)))
                   (V1.seq_accounts (V1.db w)))
                (V1.cache w) (V1.requests w)).
Proof.
  intros H. unfold V1.update_balance, bind at 1.
  rewrite bind_int_ok by exact H. reflexivity.
Qed.

Lemma v1_set_balance_id (id : Z) (v : float) (a : V1.account) :
  V1.acc_id (V1.set_balance id v a) = V1.acc_id a.
Proof. unfold V1.set_balance. destruct (_ =? _); reflexivity. Qed.

Lemma v1_set_balance_hit (id : Z) (v : float) (a : V1.account) :
  V1.acc_id a = id ->
  V1.acc_balance (V1.set_balance id v a) = V1.bind_real v.
Proof.
  intros H. unfold V1.set_balance. apply Z.eqb_eq in H. rewrite H.
  reflexivity.
Qed.

Lemma v1_set_balance_miss (id : Z) (v : float) (a : V1.account) :
  V1.acc_id a <> id -> V1.set_balance id v a = a.
Proof.
  intros H. unfold V1.set_balance. apply Z.eqb_neq in H. rewrite H.
  reflexivity.
Qed.

Lemma v1_filter_set_balance (id id' : Z) (v : float)
    (accs : list V1.account) :
  List.filter (fun a => Z.eqb (V1.acc_id a) id)
              (map (V1.set_balance id' v) accs)
  = map (V1.set_balance id' v)
        (List.filter (fun a => Z.eqb (V1.acc_id a) id) accs).
Proof.
  induction accs as [|a accs IH]; [reflexivity|].
  cbn [map List.filter]. rewrite v1_set_balance_id.
  destruct (V1.acc_id a =? id); cbn [map]; rewrite IH; reflexivity.
Qed.

Lemma v1_rows_head_id (id : Z) (w : V1.World) (a : V1.account)
    (rest : list V1.account) :
  v1_rows id w = a :: rest -> V1.acc_id a = id.
Proof.
  intros H.
  assert (In a (v1_rows id w)) as Hin by (rewrite H; left; reflexivity).
  unfold v1_rows in Hin.
  apply filter_In in Hin as [_ Hin]. apply Z.eqb_eq. exact Hin.
Qed.

(** The rows of an id after a balance is set: those of the id set take
    the balance, the others are as they were. *)
Lemma v1_rows_set_balance (id id' : Z) (x : float) (d : V1.DB)
    (w w0 : V1.World) :
  V1.accounts d = map (V1.set_balance id' x) (V1.accounts (V1.db w0)) ->
  V1.db w = d ->
  v1_rows id w = map (V1.set_balance id' x) (v1_rows id w0).
Proof.
  intros Hd Hw. unfold v1_rows. rewrite Hw, Hd.
  apply v1_filter_set_balance.
Qed.

Lemma v1_set_balance_others (id id' : Z) (x : float)
    (accs : list V1.account) :
  id <> id' ->
  map (V1.set_balance id' x)
      (List.filter (fun a => Z.eqb (V1.acc_id a) id) accs)
  = List.filter (fun a => Z.eqb (V1.acc_id a) id) accs.
Proof.
  intros Hne. rewrite <- (map_id (List.filter _ accs)) at 2.
  apply map_ext_in. intros a Ha.
  apply filter_In in Ha as [_ Ha]. apply Z.eqb_eq in Ha.
  apply v1_set_balance_miss. congruence.
Qed.

(** What [add_expense] of [main_v1.py] does up to the account query: the
    row is inserted, whatever it holds. *)
Lemma v1_add_expense_inserted net (now name : string) (amt : float)
    (currency : string) (acc_id' : Z) (cat_id : option Z) (when : Cal.date)
    (w : V1.World) :
  ids_ok acc_id' cat_id ->
  let w0 :=
    V1.mkWorld
      (V1.with_expenses (V1.db w)
         (V1.expenses (V1.db w)
          ++ [V1.mkExpense (V1.seq_expenses (V1.db w) + 1) name
                (V1.bind_real amt) currency acc_id' cat_id 0
                (Cal.isoformat when) now])
         (V1.seq_expenses (V1.db w) + 1))
      (V1.cache w) (V1.requests w) in
  V1.add_expense net now name amt currency acc_id' cat_id false when w
  = match v1_rows acc_id' w with
    | [] => (Raise (IndexError "list index out of range"), w0)
    | acc :: _ =>
        match v1_priced net w amt currency (V1.acc_currency acc) with
        | Raise e =>
            (Raise e, v1_asked net w0 currency (V1.acc_currency acc))
        | Ok debit =>
            match V1.minus (V1.acc_balance acc) debit with
            | Raise e =>
                (Raise e, v1_asked net w0 currency (V1.acc_currency acc))
            | Ok new_bal =>
                V1.update_balance acc_id' new_bal
                  (v1_asked net w0 currency (V1.acc_currency acc))
            end
        end
    end.
Proof.
  intros [Ha Hk] w0. unfold V1.add_expense, bind at 1.
  rewrite bind_int_ok by exact Ha. unfold bind at 1.
  rewrite bind_opt_int_ok by exact Hk.
  unfold bind at 1, V1.get_db. unfold bind at 1, V1.set_db.
  cbn [negb]. fold w0. unfold bind at 1.
  rewrite v1_accounts_by_id_ok by exact Ha.
  change (v1_rows acc_id' w0) with (v1_rows acc_id' w).
  destruct (v1_rows acc_id' w) as [|acc rows]; [reflexivity|].
  unfold bind at 1. cbn [V1.first_row ret]. unfold bind at 1.
  rewrite v1_in_currency_of_eq. unfold w0 at 1. rewrite v1_priced_frame.
  destruct (v1_priced net w amt currency (V1.acc_currency acc)) as [debit|e];
    [|reflexivity].
  unfold bind at 1, V1.lift.
  destruct (V1.minus (V1.acc_balance acc) debit); reflexivity.
Qed.

(** [main_v1.py] debits the account of an expense the same way; a new
    balance that is NaN is stored as NULL there, no constraint refusing
    it. *)
Lemma v1_add_expense_debits_account net (now name : string) (amt : float)
    (currency : string) (acc_id' : Z) (cat_id : option Z) (when : Cal.date)
    (w : V1.World) (a : V1.account) (rest : list V1.account)
    (balance debit : float) :
  ids_ok acc_id' cat_id ->
  v1_rows acc_id' w = a :: rest ->
  V1.acc_balance a = Some balance ->
  v1_priced net w amt currency (V1.acc_currency a) = Ok debit ->
  exists w',
    V1.add_expense net now name amt currency acc_id' cat_id false when w
    = (Ok tt, w')
    /\ V1.accounts (V1.db w')
       = map (V1.set_balance acc_id' (balance - debit)%float)
             (V1.accounts (V1.db w))
    /\ v1_balance_of acc_id' w' = Some (V1.bind_real (balance - debit)%float).
Proof.
  intros Hids Hf Hb Hp.
  rewrite (v1_add_expense_inserted net now name amt currency acc_id' cat_id
             when w Hids).
  cbv zeta. rewrite Hf, Hp, Hb. cbn [V1.minus].
  rewrite v1_update_balance_ok by exact (proj1 Hids).
  eexists. split; [reflexivity|].
  cbn [V1.db V1.accounts V1.with_accounts]. rewrite v1_asked_db.
  cbn [V1.db V1.accounts V1.with_expenses].
  split; [reflexivity|].
  unfold v1_balance_of, v1_rows.
  cbn [V1.db V1.accounts V1.with_accounts]. rewrite ?v1_asked_db.
  cbn [V1.db V1.accounts V1.with_expenses].
  rewrite v1_filter_set_balance. fold (v1_rows acc_id' w). rewrite Hf.
  cbn [map]. f_equal. apply v1_set_balance_hit.
  exact (v1_rows_head_id _ _ _ _ Hf).
Qed.

(** ... and raises [IndexError] after the insertion when the account is
    missing, where [main.py] returns. *)
Lemma v1_add_expense_unknown_account net (now name : string) (amt : float)
    (currency : string) (acc_id' : Z) (cat_id : option Z) (when : Cal.date)
    (w : V1.World) :
  ids_ok acc_id' cat_id ->
  v1_rows acc_id' w = [] ->
  exists w',
    V1.add_expense net now name amt currency acc_id' cat_id false when w
    = (Raise (IndexError "list index out of range"), w')
    /\ V1.expenses (V1.db w')
       = V1.expenses (V1.db w)
         ++ [V1.mkExpense (V1.seq_expenses (V1.db w) + 1) name
               (V1.bind_real amt) currency acc_id' cat_id 0
               (Cal.isoformat when) now]
    /\ V1.accounts (V1.db w') = V1.accounts (V1.db w).
Proof.
  intros Hids Hf.
  rewrite (v1_add_expense_inserted net now name amt currency acc_id' cat_id
             when w Hids).
  cbv zeta. rewrite Hf. eexists. split; [reflexivity|]. split; reflexivity.
Qed.

(** ** The model on concrete inputs *)

(** [round(x, 2)] on halves that are floats (ties to even), on the float
    nearest to 2.675 (which lies below it) and on a small negative. *)
Example round2_ties :
  Fl.round2 (1 / 8)%float = (12 / 100)%float
  /\ Fl.round2 (3 / 8)%float = (38 / 100)%float
  /\ Fl.round2 (2675 / 1000)%float = (267 / 100)%float
  /\ Fl.round2 (-1 / 1000)%float = (-0)%float.
Proof. repeat split; vm_compute; reflexivity. Qed.

(** The builtin [sum] of the two interpreters on ten times the float of
    1/10 and on a sum with a cancellation: the compensated loop gives 1.0
    where the plain loop gives the float below 1.0, and 0.0. *)
Example sum_by_interpreter :
  Fl.py_sum Fl.Py311 (repeat (1 / 10)%float 10) = (1 - 0x1p-53)%float
  /\ Fl.py_sum Fl.Py312 (repeat (1 / 10)%float 10) = 1%float
  /\ Fl.py_sum Fl.Py311 [0x1p60%float; 1%float; (-0x1p60)%float] = 0%float
  /\ Fl.py_sum Fl.Py312 [0x1p60%float; 1%float; (-0x1p60)%float] = 1%float
  /\ Fl.py_sum Fl.Py312 [(-0)%float] = 0%float
  /\ Fl.py_sum Fl.Py312 [infinity; 1%float] = infinity.
Proof. repeat split; vm_compute; reflexivity. Qed.

(** What a REAL column gives back. *)
Example stored_values :
  Fl.stored (-0)%float = 0%float
  /\ Fl.stored (1 / 10)%float = (1 / 10)%float
  /\ Fl.stored (-2.5)%float = (-2.5)%float
  /\ Fl.stored neg_infinity = neg_infinity.
Proof. repeat split; vm_compute; reflexivity. Qed.

(** A fixed account of 100 and a liquid account of 50 in the display
    currency: the totals are 100, 50 and 150. *)
Example totals_two_accounts :
  let '(_, w1) := add_account "2024-01-01T00:00:00" "Deposit" "BDT" 100%float
                    "fixed" initial_world in
  let '(_, w2) := add_account "2024-01-02T00:00:00" "Wallet" "BDT" 50%float
                    "liquid" w1 in
  fst (totals offline w2) = Ok (mkTotals "BDT" 100%float 50%float 150%float).
Proof. vm_compute. reflexivity. Qed.

(** An expense of 1200 BDT against the USD account, the remote lookup
    down: the fallback rate 1/120 applies. *)
Example expense_in_other_currency :
  let '(_, w1) := add_expense offline "2024-03-01T08:00:00" "Books" 1200%float
                    "BDT" 2 None false (Cal.mkDate 2024 2 29) sample_world in
  map acc_balance (accounts (db w1))
  = [1000%float; (50 - 1200 * (1 / 120))%float]
  /\ requests w1 = 1%nat.
Proof. vm_compute. split; reflexivity. Qed.

(** The week of Tuesday 3 November 2026 starts on Monday 2 November; the
    week of Friday 1 January 2027 starts in 2026. *)
Example weekly_starts :
  period_start (Cal.mkDate 2026 11 3) "weekly" = Ok (Cal.mkDate 2026 11 2)
  /\ period_start (Cal.mkDate 2027 1 1) "weekly" = Ok (Cal.mkDate 2026 12 28).
Proof. split; vm_compute; reflexivity. Qed.

(** The monthly summary of the ledger on 17 March 2024: the February rent
    is left out. *)
Example monthly_summary_of_ledger :
  fst (period_summary offline Fl.Py311 (Cal.mkDate 2024 3 17) "monthly"
         ledger_world)
  = Ok (mkSummary "BDT" "monthly" 900%float 0%float (-900)%float).
Proof. vm_compute. reflexivity. Qed.

(** After one upcoming expense of 10 USD the projection is the total in
    BDT minus 1200. *)
Example upcoming_projection_of_ledger :
  let '(_, w1) := add_expense offline "2024-03-02T09:00:00" "Course" 10%float
                    "USD" 2 None true (Cal.mkDate 2024 4 1) ledger_world in
  fst (upcoming_totals offline Fl.Py311 w1)
  = Ok (mkUpcoming "BDT" 1200%float 0%float (1000 + 50 * 120 - 1200)%float).
Proof. vm_compute. reflexivity. Qed.

(** * Further properties of the code *)

(** ** Sorted listings *)

Section SortBy.

Context {A : Type} (before : A -> A -> bool).

Hypothesis before_total : forall x y, before x y = true \/ before y x = true.
Hypothesis before_trans :
  forall x y z, before x y = true -> before y z = true -> before x z = true.

Lemma insert_by_perm (a : A) (l : list A) :
  Permutation (insert_by before a l) (a :: l).
Proof.
  induction l as [|b l IH]; cbn; [reflexivity|].
  destruct (before b a); [|reflexivity].
  rewrite IH. apply perm_swap.
Qed.

Lemma insert_by_sorted (a : A) (l : list A) :
  StronglySorted (fun x y => before x y = true) l ->
  StronglySorted (fun x y => before x y = true) (insert_by before a l).
Proof.
  induction l as [|b l IH]; intros Hs; cbn.
  - constructor; constructor.
  - apply StronglySorted_inv in Hs as [Hl Hb].
    destruct (before b a) eqn:E.
    + constructor; [apply IH; exact Hl|].
      rewrite insert_by_perm. constructor; assumption.
    + assert (before a b = true) as Hab.
      { destruct (before_total a b) as [H|H]; [exact H|congruence]. }
      constructor; [constructor; assumption|].
      constructor; [exact Hab|].
      eapply Forall_impl; [exact Hb|]. intros c Hc.
      eapply before_trans; eassumption.
Qed.

Lemma sort_by_spec (l : list A) :
  Permutation (sort_by before l) l
  /\ StronglySorted (fun x y => before x y = true) (sort_by before l).
Proof.
  unfold sort_by.
  assert (forall acc,
            StronglySorted (fun x y => before x y = true) acc ->
            Permutation (fold_left (fun acc a => insert_by before a acc) l acc)
                        (acc ++ l)
            /\ StronglySorted (fun x y => before x y = true)
                 (fold_left (fun acc a => insert_by before a acc) l acc))
    as H.
  { induction l as [|a l IH]; intros acc Hs; cbn.
    - rewrite app_nil_r. split; [reflexivity|exact Hs].
    - destruct (IH (insert_by before a acc) (insert_by_sorted a acc Hs))
        as [Hp Hs'].
      split; [|exact Hs']. rewrite Hp, insert_by_perm.
      cbn. apply Permutation_middle. }
  destruct (H [] (SSorted_nil _)) as [Hp Hs]. split; assumption.
Qed.

End SortBy.

Lemma compare_gt_trans (a b c : string) :
  String.compare a b = Gt -> String.compare b c <> Lt ->
  String.compare a c = Gt.
Proof.
  intros Hab Hbc.
  destruct (String.compare a c) eqn:Hac; [| |reflexivity]; exfalso.
  - apply String.compare_eq_iff in Hac. subst c.
    rewrite String.compare_antisym, Hab in Hbc. cbn in Hbc. congruence.
  - apply (StrOrd.le_trans a c b).
    + congruence.
    + rewrite String.compare_antisym. destruct (String.compare b c); cbn;
        congruence.
    + exact Hab.
Qed.

Lemma desc_desc_total (a1 a2 b1 b2 : string) :
  desc_desc a1 a2 b1 b2 = true \/ desc_desc b1 b2 a1 a2 = true.
Proof.
  unfold desc_desc. rewrite (String.compare_antisym a1 b1).
  destruct (String.compare b1 a1); cbn; auto.
  destruct (String.leb_total a2 b2); auto.
Qed.

Lemma desc_desc_trans (a1 a2 b1 b2 c1 c2 : string) :
  desc_desc a1 a2 b1 b2 = true -> desc_desc b1 b2 c1 c2 = true ->
  desc_desc a1 a2 c1 c2 = true.
Proof.
  unfold desc_desc.
  destruct (String.compare a1 b1) eqn:Hab; [| discriminate |];
    destruct (String.compare b1 c1) eqn:Hbc; try discriminate; intros H1 H2.
  - apply String.compare_eq_iff in Hab, Hbc. subst.
    rewrite StrOrd.compare_refl. eapply StrOrd.leb_trans; eassumption.
  - apply String.compare_eq_iff in Hab. subst. rewrite Hbc. reflexivity.
  - rewrite (compare_gt_trans a1 b1 c1 Hab) by congruence. reflexivity.
  - rewrite (compare_gt_trans a1 b1 c1 Hab) by congruence. reflexivity.
Qed.

Lemma desc_desc_later_first (k1x k2x k1y k2y : string) :
  desc_desc k1x k2x k1y k2y = true <-> later_first k1x k2x k1y k2y.
Proof.
  unfold desc_desc, later_first, String.ltb.
  rewrite (String.compare_antisym k1y k1x).
  destruct (String.compare k1x k1y) eqn:E; cbn.
  - apply String.compare_eq_iff in E. subst. split; [auto|].
    intros [H|[_ H]]; [discriminate|exact H].
  - split; [discriminate|]. intros [H|[H _]]; [discriminate|].
    subst. rewrite StrOrd.compare_refl in E. discriminate.
  - split; auto.
Qed.

Lemma strongly_sorted_weaken {A : Type} (R R' : A -> A -> Prop)
    (l : list A) :
  (forall x y, R x y -> R' x y) ->
  StronglySorted R l -> StronglySorted R' l.
Proof.
  intros HR. induction 1 as [|a l Hs IH Ha]; constructor; [exact IH|].
  eapply Forall_impl; [exact Ha|]. intros y. apply HR.
Qed.

(** X1: [list_accounts] returns every account row exactly once (a
    permutation of the table), most recently created first, and leaves the
    world as it was. *)
Theorem list_accounts_latest_first :
  forall (w : World),
    exists l,
      list_accounts w = (Ok l, w)
      /\ Permutation l (accounts (db w))
      /\ StronglySorted not_older l.
Proof.
  intros w. exists (order_by_created_at_desc (accounts (db w))).
  split; [reflexivity|]. apply order_by_created_at_desc_spec.
Qed.

(** X2: [list_expenses] and [list_incomes] return every row of their table
    exactly once, ordered by date descending and, for equal dates, by
    creation time descending: of two rows, the later one in the result
    never has the later date, nor the same date and a later creation
    time.  The world is left as it was. *)
Theorem list_expenses_incomes_sorted :
  forall (w : World),
    (exists l,
        list_expenses w = (Ok l, w)
        /\ Permutation l (expenses (db w))
        /\ StronglySorted
             (fun x y => later_first (exp_date x) (exp_created_at x)
                                     (exp_date y) (exp_created_at y)) l)
    /\ (exists l,
           list_incomes w = (Ok l, w)
           /\ Permutation l (incomes (db w))
           /\ StronglySorted
                (fun x y => later_first (inc_expected_date x) (inc_created_at x)
                                        (inc_expected_date y)
                                        (inc_created_at y)) l).
Proof.
  intros w. split.
  - exists (sort_by expense_before (expenses (db w))).
    split; [reflexivity|].
    destruct (sort_by_spec expense_before
                (fun x y => desc_desc_total _ _ _ _)
                (fun x y z => desc_desc_trans _ _ _ _ _ _)
                (expenses (db w))) as [Hp Hs].
    split; [exact Hp|].
    eapply strongly_sorted_weaken; [|exact Hs].
    intros x y H. apply desc_desc_later_first. exact H.
  - exists (sort_by income_before (incomes (db w))).
    split; [reflexivity|].
    destruct (sort_by_spec income_before
                (fun x y => desc_desc_total _ _ _ _)
                (fun x y z => desc_desc_trans _ _ _ _ _ _)
                (incomes (db w))) as [Hp Hs].
    split; [exact Hp|].
    eapply strongly_sorted_weaken; [|exact Hs].
    intros x y H. apply desc_desc_later_first. exact H.
Qed.

(** ** The currency service: settings and cache *)

(** X3: [set_display_currency] followed by [get_display_currency] reads
    back the currency that was set, and the tables and the cache are as
    before; a currency outside BDT and USD raises [ValueError] and the
    world is left as it was. *)
Theorem display_currency_round_trip :
  forall (cur : string) (w : World),
    (In cur SUPPORTED_CURRENCIES ->
     exists w',
       set_display_currency cur w = (Ok tt, w')
       /\ get_display_currency w' = (Ok cur, w')
       /\ accounts (db w') = accounts (db w)
       /\ expenses (db w') = expenses (db w)
       /\ incomes (db w') = incomes (db w)
       /\ cache w' = cache w)
    /\ (~ In cur SUPPORTED_CURRENCIES ->
        set_display_currency cur w
        = (Raise (ValueError "Unsupported display currency"), w)).
Proof.
  intros cur w. unfold set_display_currency. split.
  - intros Hc. rewrite <- str_in_In in Hc. rewrite Hc. cbn [negb].
    munfold. eexists. split; [reflexivity|].
    unfold get_display_currency. cbn [db settings].
    rewrite lookup_insert_eq. cbn. auto.
  - intros Hc. rewrite <- str_in_In in Hc.
    apply not_true_is_false in Hc. rewrite Hc. reflexivity.
Qed.

Lemma display_currency_round_trip_witness :
  exists w',
    set_display_currency "USD" sample_world = (Ok tt, w')
    /\ get_display_currency w' = (Ok "USD", w')
    /\ set_display_currency "EUR" sample_world
       = (Raise (ValueError "Unsupported display currency"), sample_world).
Proof.
  destruct (display_currency_round_trip "USD" sample_world) as [H _].
  destruct H as (w' & H1 & H2 & _).
  - right. left. reflexivity.
  - exists w'. split; [exact H1|]. split; [exact H2|].
    apply (proj2 (display_currency_round_trip "EUR" sample_world)).
    intros [H|[H|[]]]; discriminate.
Defined.

(** X4: a rate that was fetched is not fetched again.  When the pair is
    not cached and the lookup succeeds with [r], [fetch_rate] returns [r]
    after one request, and a second [fetch_rate] returns the same [r]
    without a request, whatever the remote lookup would answer by then. *)
Theorem fetched_rate_is_reused :
  forall (net : nat -> string -> string -> option float) (a b : string)
         (r : float) (w : World),
    a <> b ->
    cache w !! (a, b) = None ->
    net (requests w) a b = Some r ->
    exists w1,
      fetch_rate net a b w = (Ok r, w1)
      /\ requests w1 = S (requests w)
      /\ db w1 = db w
      /\ fetch_rate net a b w1 = (Ok r, w1).
Proof.
  intros net a b r w Hab Hc Hn. apply String.eqb_neq in Hab.
  unfold fetch_rate at 1. rewrite Hab, Hc, Hn.
  eexists. split; [reflexivity|]. cbn [requests db].
  split; [reflexivity|]. split; [reflexivity|].
  unfold fetch_rate. rewrite Hab. cbn [cache].
  rewrite lookup_insert_eq. reflexivity.
Qed.

Lemma fetched_rate_is_reused_witness :
  exists w1,
    fetch_rate (fun n _ _ => if Nat.eqb n 0 then Some 118%float else None)
      "USD" "BDT" sample_world = (Ok 118%float, w1)
    /\ fetch_rate (fun n _ _ => if Nat.eqb n 0 then Some 118%float else None)
         "USD" "BDT" w1 = (Ok 118%float, w1).
Proof.
  destruct (fetched_rate_is_reused
              (fun n _ _ => if Nat.eqb n 0 then Some 118%float else None)
              "USD" "BDT" 118%float sample_world) as (w1 & H1 & _ & _ & H2).
  - discriminate.
  - reflexivity.
  - reflexivity.
  - exists w1. split; assumption.
Defined.

(** X5: a fallback answer is not cached.  When the pair is not cached and
    the lookup fails, [fetch_rate] answers from the fallback table (1.0
    for a pair the table lacks) and the cache is as before; the next call
    asks the remote lookup again and, if that succeeds with [r], returns
    and caches [r]. *)
Theorem fallback_is_not_cached :
  forall (net : nat -> string -> string -> option float) (a b : string)
         (r : float) (w : World),
    a <> b ->
    cache w !! (a, b) = None ->
    net (requests w) a b = None ->
    net (S (requests w)) a b = Some r ->
    exists w1 w2,
      fetch_rate net a b w
      = (Ok (default 1%float (fallback_rate !! (a, b))), w1)
      /\ cache w1 = cache w
      /\ fetch_rate net a b w1 = (Ok r, w2)
      /\ cache w2 !! (a, b) = Some r.
Proof.
  intros net a b r w Hab Hc Hn1 Hn2.
  rewrite (fetch_rate_fallback net a b w Hab Hc Hn1).
  eexists. eexists. split; [reflexivity|]. cbn [cache].
  split; [reflexivity|].
  apply String.eqb_neq in Hab.
  unfold fetch_rate. rewrite Hab. cbn [cache requests db]. rewrite Hc, Hn2.
  split; [reflexivity|]. cbn [cache]. apply lookup_insert_eq.
Qed.

Lemma fallback_is_not_cached_witness :
  exists w1 w2,
    fetch_rate (fun n _ _ => if Nat.eqb n 1 then Some 118%float else None)
      "USD" "BDT" sample_world = (Ok 120%float, w1)
    /\ fetch_rate (fun n _ _ => if Nat.eqb n 1 then Some 118%float else None)
         "USD" "BDT" w1 = (Ok 118%float, w2).
Proof.
  destruct (fallback_is_not_cached
              (fun n _ _ => if Nat.eqb n 1 then Some 118%float else None)
              "USD" "BDT" 118%float sample_world)
    as (w1 & w2 & H1 & _ & H2 & _).
  - discriminate.
  - reflexivity.
  - reflexivity.
  - reflexivity.
  - exists w1, w2. split; [exact H1|exact H2].
Defined.

(** ** The constraints of the schema are kept *)

Lemma keeps_bind {A B : Type} (P : DB -> Prop) (m : M A) (k : A -> M B) :
  keeps P m -> (forall a, keeps P (k a)) -> keeps P (bind m k).
Proof.
  intros Hm Hk w Hw. unfold bind. specialize (Hm w Hw).
  destruct (m w) as [[a|e] w1]; cbn [snd] in *; [|exact Hm].
  apply Hk. exact Hm.
Qed.

Lemma keeps_ret {A : Type} (P : DB -> Prop) (a : A) : keeps P (ret a).
Proof. intros w Hw. exact Hw. Qed.

Lemma keeps_raise {A : Type} (P : DB -> Prop) (e : exn) :
  keeps P (@raise World A e).
Proof. intros w Hw. exact Hw. Qed.

Lemma keeps_get_db (P : DB -> Prop) : keeps P get_db.
Proof. intros w Hw. exact Hw. Qed.

Lemma keeps_read {A : Type} (P : DB -> Prop) (m : M A) :
  (forall w, db (snd (m w)) = db w) -> keeps P m.
Proof. intros H w Hw. rewrite H. exact Hw. Qed.

Lemma convert_db net amount base target w :
  db (snd (convert net amount base target w)) = db w.
Proof.
  destruct (convert_total net amount base target w) as (w' & -> & Hd).
  exact Hd.
Qed.

Lemma to_account_currency_db net amount currency acc_cur w :
  db (snd (to_account_currency net amount currency acc_cur w)) = db w.
Proof. apply to_account_currency_spec. Qed.

Lemma select_account_by_id_db (account_id : Z) (w : World) :
  db (snd (select_account_by_id account_id w)) = db w.
Proof.
  unfold select_account_by_id, bind_int. munfold.
  destruct (int64 account_id); reflexivity.
Qed.

Lemma set_balance_name (account_id : Z) (x : float) (l : list account) :
  map acc_name (map (set_balance account_id x) l) = map acc_name l.
Proof.
  induction l as [|a l IH]; cbn; [reflexivity|]. rewrite IH. f_equal.
  unfold set_balance. destruct (acc_id a =? account_id); reflexivity.
Qed.

Lemma set_balance_ok (account_id : Z) (x : float) (a : account) :
  Fl.is_nan x = false -> account_ok a ->
  account_ok (set_balance account_id x a).
Proof.
  intros Hx (Hc & Ht & Hb). unfold set_balance.
  destruct (acc_id a =? account_id); [|repeat split; assumption].
  repeat split; try assumption.
  cbn [acc_balance]. rewrite stored_nan. exact Hx.
Qed.

Lemma update_balance_schema (account_id : Z) (new_balance : float) :
  keeps schema_ok (update_balance account_id new_balance).
Proof.
  intros w (Hk & Hn & Ha & Hrest).
  pose proof (update_balance_keyed account_id new_balance w Hk) as Hk'.
  revert Hk'. unfold update_balance, update_accounts_balance, bind_int.
  munfold.
  destruct (int64 account_id);
    [|intros _; exact (conj Hk (conj Hn (conj Ha Hrest)))].
  unfold real_is_null.
  destruct (Fl.is_nan new_balance) eqn:Hnan; cbn [andb].
  - destruct (existsb _ (accounts (db w))) eqn:Hex.
    + intros _. exact (conj Hk (conj Hn (conj Ha Hrest))).
    + intros Hk'. cbn [snd db] in *. split; [exact Hk'|].
      unfold with_accounts. cbn [accounts expenses incomes settings
                                 seq_expenses seq_incomes].
      split; [rewrite set_balance_name; exact Hn|].
      split; [|exact Hrest].
      assert (map (set_balance account_id new_balance) (accounts (db w))
              = accounts (db w)) as ->; [|exact Ha].
      rewrite <- (map_id (accounts (db w))) at 2.
      apply map_ext_in. intros a Hin. unfold set_balance.
      destruct (acc_id a =? account_id) eqn:E; [|reflexivity].
      exfalso. assert (existsb (fun b => acc_id b =? account_id)
                         (accounts (db w)) = true) as Ht.
      { apply existsb_exists. exists a. auto. }
      congruence.
  - intros Hk'. cbn [snd db] in *. split; [exact Hk'|].
    unfold with_accounts. cbn [accounts expenses incomes settings
                               seq_expenses seq_incomes].
    split; [rewrite set_balance_name; exact Hn|].
    split; [|exact Hrest].
    apply Forall_forall. intros b Hb.
    apply list_elem_of_fmap in Hb as (a & -> & Hin).
    apply set_balance_ok; [exact Hnan|].
    rewrite Forall_forall in Ha. apply Ha. exact Hin.
Qed.

Lemma keyed_append {A : Type} (key : A -> Z) (l : list A) (r : A) (s : Z) :
  NoDup (map key l) -> Forall (fun x => key x <= s) l -> key r = s + 1 ->
  NoDup (map key (l ++ [r])) /\ Forall (fun x => key x <= s + 1) (l ++ [r]).
Proof.
  intros Hnd Hle Hr. split.
  - rewrite List.map_app. cbn [map]. apply NoDup_app. split; [exact Hnd|].
    split; [|apply NoDup_singleton].
    intros x Hx Hx'. apply list_elem_of_singleton in Hx'. subst x.
    apply list_elem_of_fmap in Hx as (a & Ea & Ha).
    rewrite Forall_forall in Hle. specialize (Hle a Ha). cbn beta in Hle. lia.
  - apply Forall_app. split.
    + eapply Forall_impl; [exact Hle|]. cbn beta. intros a Ha. lia.
    + constructor; [lia|constructor].
Qed.

Lemma add_account_schema now name currency balance atype :
  keeps schema_ok (add_account now name currency balance atype).
Proof.
  intros w H.
  pose proof (add_account_keyed now name currency balance atype w
                (proj1 H)) as Hk'.
  revert Hk'. unfold add_account.
  destruct (str_in currency SUPPORTED_CURRENCIES) eqn:Hc; cbn [negb];
    [|intros _; exact H].
  destruct (str_in atype ACCOUNT_TYPES) eqn:Ht; cbn [negb];
    [|intros _; exact H].
  unfold insert_account. munfold. unfold real_is_null.
  destruct (Fl.is_nan balance) eqn:Hn; [intros _; exact H|].
  unfold SUPPORTED_CURRENCIES in Hc. unfold ACCOUNT_TYPES in Ht.
  rewrite Hc, Ht. cbn [negb].
  destruct (existsb _ (accounts (db w))) eqn:Hx; [intros _; exact H|].
  intros Hk'. destruct H as (_ & Hnames & Ha & Hrest).
  cbn [snd db] in *. split; [exact Hk'|].
  unfold with_accounts. cbn [accounts expenses incomes settings
                             seq_expenses seq_incomes].
  split; [|split; [|exact Hrest]].
  - rewrite List.map_app. cbn [map acc_name]. apply NoDup_app.
    split; [exact Hnames|]. split; [|apply NoDup_singleton].
    intros x Hin Hx'. apply list_elem_of_singleton in Hx'. subst x.
    apply list_elem_of_fmap in Hin as (a & Ea & Hin).
    assert (existsb (fun a => String.eqb (acc_name a) name) (accounts (db w))
            = true) as Hy; [|congruence].
    apply existsb_exists. exists a. split; [apply list_elem_of_In; exact Hin|].
    apply String.eqb_eq. symmetry. exact Ea.
  - apply Forall_app. split; [exact Ha|]. constructor; [|constructor].
    repeat split; cbn [acc_currency acc_type acc_balance];
      [apply str_in_In; exact Hc|apply str_in_In; exact Ht|].
    rewrite stored_nan. exact Hn.
Qed.

Lemma insert_expense_schema name amount currency account_id category_id
    (is_upcoming : bool) date created_at :
  keeps schema_ok
    (insert_expense name amount currency account_id category_id
       (if is_upcoming then 1 else 0) date created_at).
Proof.
  intros w H.
  destruct (int64 account_id) eqn:Hi;
    [|rewrite insert_expense_overflow;
      [exact H|intros [E _]; congruence]].
  destruct (opt_int64 category_id) eqn:Ho;
    [|rewrite insert_expense_overflow;
      [exact H|intros [_ E]; congruence]].
  unfold insert_expense, bind at 1. rewrite bind_int_ok by exact Hi.
  unfold bind at 1. rewrite bind_opt_int_ok by exact Ho.
  munfold. unfold real_is_null.
  destruct (Fl.is_nan amount) eqn:Hn; [exact H|].
  destruct (str_in currency ["BDT"; "USD"]) eqn:Hc; cbn [negb]; [|exact H].
  destruct H as (Hk & Hnames & Ha & He1 & He2 & He3 & Hrest).
  cbn [snd db]. unfold schema_ok, accounts_keyed, with_expenses.
  cbn [accounts expenses incomes settings seq_accounts seq_expenses
       seq_incomes].
  destruct (keyed_append exp_id (expenses (db w))
              (mkExpense (seq_expenses (db w) + 1) name (Fl.stored amount)
                 currency account_id category_id
                 (if is_upcoming then 1 else 0) date created_at)
              (seq_expenses (db w)) He1 He2 eq_refl) as [K1 K2].
  split; [exact Hk|]. split; [exact Hnames|]. split; [exact Ha|].
  split; [exact K1|]. split; [exact K2|]. split; [|exact Hrest].
  apply Forall_app. split; [exact He3|]. constructor; [|constructor].
  repeat split; cbn [exp_currency exp_amount exp_is_upcoming];
    [apply str_in_In; exact Hc|rewrite stored_nan; exact Hn
    |destruct is_upcoming; auto].
Qed.

Lemma insert_income_schema source description amount currency
    (is_upcoming : bool) expected_date created_at :
  keeps schema_ok
    (insert_income source description amount currency
       (if is_upcoming then 1 else 0) expected_date created_at).
Proof.
  intros w H. unfold insert_income. munfold. unfold real_is_null.
  destruct (Fl.is_nan amount) eqn:Hn; [exact H|].
  destruct (str_in currency ["BDT"; "USD"]) eqn:Hc; cbn [negb]; [|exact H].
  destruct H as (Hk & Hnames & Ha & He1 & He2 & He3 & Hi1 & Hi2 & Hi3 & Hs).
  cbn [snd db]. unfold schema_ok, accounts_keyed, with_incomes.
  cbn [accounts expenses incomes settings seq_accounts seq_expenses
       seq_incomes].
  destruct (keyed_append inc_id (incomes (db w))
              (mkIncome (seq_incomes (db w) + 1) source description
                 (Fl.stored amount) currency (if is_upcoming then 1 else 0)
                 expected_date created_at)
              (seq_incomes (db w)) Hi1 Hi2 eq_refl) as [K1 K2].
  split; [exact Hk|]. split; [exact Hnames|]. split; [exact Ha|].
  split; [exact He1|]. split; [exact He2|]. split; [exact He3|].
  split; [exact K1|]. split; [exact K2|]. split; [|exact Hs].
  apply Forall_app. split; [exact Hi3|]. constructor; [|constructor].
  repeat split; cbn [inc_currency inc_amount inc_is_upcoming];
    [apply str_in_In; exact Hc|rewrite stored_nan; exact Hn
    |destruct is_upcoming; auto].
Qed.

Lemma add_expense_schema net now name amount currency account_id category_id
    is_upcoming when :
  keeps schema_ok
    (add_expense net now name amount currency account_id category_id
       is_upcoming when).
Proof.
  unfold add_expense. apply keeps_bind; [apply insert_expense_schema|].
  intros _. destruct is_upcoming; cbn [negb]; [apply keeps_ret|].
  apply keeps_bind; [apply keeps_read; apply select_account_by_id_db|].
  intros [|a acc]; [apply keeps_ret|].
  apply keeps_bind; [apply keeps_read; apply to_account_currency_db|].
  intros debit. apply update_balance_schema.
Qed.

Lemma add_income_schema net now source description amount currency
    is_upcoming expected_date :
  keeps schema_ok
    (add_income net now source description amount currency is_upcoming
       expected_date).
Proof.
  unfold add_income. apply keeps_bind; [apply insert_income_schema|].
  intros _. destruct is_upcoming; cbn [negb]; [apply keeps_ret|].
  apply keeps_bind; [apply keeps_read; reflexivity|].
  intros accs. destruct (income_target currency accs); [|apply keeps_ret].
  apply keeps_bind; [apply keeps_read; apply to_account_currency_db|].
  intros credit. apply update_balance_schema.
Qed.

Lemma set_display_currency_schema cur :
  keeps schema_ok (set_display_currency cur).
Proof.
  intros w H. unfold set_display_currency.
  destruct (str_in cur SUPPORTED_CURRENCIES) eqn:Hc; cbn [negb]; [|exact H].
  munfold. destruct H as (Hk & Hnames & Ha & He1 & He2 & He3 & Hi1 & Hi2
                          & Hi3 & Hs).
  unfold schema_ok, accounts_keyed.
  cbn [accounts expenses incomes settings seq_accounts seq_expenses
       seq_incomes].
  repeat (split; [assumption|]).
  intros c Hl. rewrite lookup_insert_eq in Hl. inversion Hl; subst.
  apply str_in_In. exact Hc.
Qed.

(** X7: the store of a new file satisfies the constraints the schema
    declares, and every writing operation of the engine keeps them,
    whatever its arguments and whether it returns or raises: after [add_account], [add_expense], [add_income],
    [update_balance] and [set_display_currency], account ids and names
    are still pairwise distinct, currencies and types are in their
    enumerations, no stored amount or balance is NaN, and the display
    currency is a supported one. *)
Theorem schema_is_kept :
  schema_ok initial_db
  /\ forall (net : nat -> string -> string -> option float) (w : World),
    schema_ok (db w) ->
    (forall now name currency balance acc_type,
        schema_ok (db (snd (add_account now name currency balance acc_type
                              w))))
    /\ (forall now name amount currency account_id category_id is_upcoming
               when,
           schema_ok (db (snd (add_expense net now name amount currency
                                 account_id category_id is_upcoming when w))))
    /\ (forall now source description amount currency is_upcoming
               expected_date,
           schema_ok (db (snd (add_income net now source description amount
                                 currency is_upcoming expected_date w))))
    /\ (forall account_id new_balance,
           schema_ok (db (snd (update_balance account_id new_balance w))))
    /\ (forall cur, schema_ok (db (snd (set_display_currency cur w)))).
Proof.
  split.
  { unfold schema_ok, accounts_keyed, initial_db.
    cbn [accounts expenses incomes settings seq_accounts seq_expenses
         seq_incomes map].
    split; [split; constructor|].
    repeat (split; [constructor|]).
    intros c Hl. rewrite lookup_insert_eq in Hl. inversion Hl.
    left. reflexivity. }
  intros net w H. split; [|split; [|split; [|split]]].
  - intros. apply add_account_schema. exact H.
  - intros. apply add_expense_schema. exact H.
  - intros. apply add_income_schema. exact H.
  - intros. apply update_balance_schema. exact H.
  - intros. apply set_display_currency_schema. exact H.
Qed.

Lemma schema_is_kept_witness :
  schema_ok
    (db (snd (add_expense offline "2024-03-01T08:00:00" "Books" 1200%float
                "BDT" 2 None false (Cal.mkDate 2024 2 29) sample_world))).
Proof.
  apply (proj2 schema_is_kept offline sample_world).
  unfold schema_ok, accounts_keyed, sample_world, sample_db.
  cbn [db accounts expenses incomes settings seq_accounts seq_expenses
       seq_incomes].
  split.
  { split; [apply (bool_decide_unpack _); vm_compute; exact I|].
    repeat constructor; vm_compute; discriminate. }
  split; [apply (bool_decide_unpack _); vm_compute; exact I|].
  split.
  { constructor; [unfold account_ok; cbn; auto 6|].
    constructor; [unfold account_ok; cbn; auto 6|constructor]. }
  repeat (split; [constructor|]).
  intros c Hl. rewrite lookup_insert_eq in Hl. inversion Hl.
  left. reflexivity.
Defined.

(** ** Opening an account and listing it *)

Lemma add_account_ok now name currency balance atype w :
  In currency SUPPORTED_CURRENCIES -> In atype ACCOUNT_TYPES ->
  Fl.is_nan balance = false -> ~ name_taken name (db w) ->
  add_account now name currency balance atype w
  = (Ok (seq_accounts (db w) + 1),
     mkWorld (with_accounts (db w)
                (accounts (db w)
                 ++ [mkAccount (seq_accounts (db w) + 1) name currency
                       (Fl.stored balance) atype now])
                (seq_accounts (db w) + 1))
             (cache w) (requests w)).
Proof.
  intros Hc Ht Hn Hx. unfold add_account.
  rewrite <- str_in_In in Hc, Ht. rewrite Hc, Ht. cbn [negb].
  unfold insert_account. munfold. unfold real_is_null.
  unfold SUPPORTED_CURRENCIES in Hc. unfold ACCOUNT_TYPES in Ht.
  rewrite Hn, Hc, Ht. cbn [negb].
  rewrite <- name_taken_test in Hx. apply not_true_is_false in Hx.
  rewrite Hx. reflexivity.
Qed.

(** X8: an account that [add_account] accepts is listed.  After the call,
    [list_accounts] returns the accounts that were there and the new row,
    once each; the new row carries the submitted name, currency and type,
    the opening balance as the REAL column gives it back (the submitted
    number, a negative zero as 0.0), and the next value of the counter as
    its id, which is above every id in use; on an empty table the listing
    is that one row. *)
Theorem add_account_then_list :
  forall (now name currency : string) (balance : float) (atype : string)
         (w : World),
    In currency SUPPORTED_CURRENCIES -> In atype ACCOUNT_TYPES ->
    Fl.is_nan balance = false -> ~ name_taken name (db w) ->
    exists id w' l,
      add_account now name currency balance atype w = (Ok id, w')
      /\ id = seq_accounts (db w) + 1
      /\ list_accounts w' = (Ok l, w')
      /\ Permutation l
           (mkAccount id name currency (Fl.stored balance) atype now
            :: accounts (db w))
      /\ (accounts (db w) = [] ->
          l = [mkAccount id name currency (Fl.stored balance) atype now])
      /\ (accounts_keyed (db w) ->
          forall a, In a (accounts (db w)) -> acc_id a < id).
Proof.
  intros now name currency balance atype w Hc Ht Hn Hx.
  rewrite (add_account_ok now name currency balance atype w Hc Ht Hn Hx).
  eexists. eexists. eexists. split; [reflexivity|]. split; [reflexivity|].
  unfold list_accounts. munfold. split; [reflexivity|].
  unfold with_accounts. cbn [accounts].
  split; [|split].
  - destruct (order_by_created_at_desc_spec
                (accounts (db w)
                 ++ [mkAccount (seq_accounts (db w) + 1) name currency
                       (Fl.stored balance) atype now])) as [Hp _].
    rewrite Hp. symmetry. apply Permutation_cons_append.
  - intros ->. reflexivity.
  - intros [_ Hle] a Hin. rewrite Forall_forall in Hle.
    specialize (Hle a (proj2 (list_elem_of_In _ _) Hin)). cbn beta in Hle.
    lia.
Qed.

Lemma add_account_then_list_witness :
  (exists w' l,
      add_account "2024-03-01T08:00:00" "Wallet" "USD" (-0)%float "liquid"
        sample_world = (Ok 3, w')
      /\ list_accounts w' = (Ok l, w')
      /\ Permutation l
           [mkAccount 3 "Wallet" "USD" 0%float "liquid" "2024-03-01T08:00:00";
            cash; savings]
      /\ forall a, In a [cash; savings] -> acc_id a < 3)
  /\ (exists w' l,
         add_account "2024-03-01T08:00:00" "Wallet" "USD" 5%float "liquid"
           initial_world = (Ok 1, w')
         /\ list_accounts w' = (Ok l, w')
         /\ l = [mkAccount 1 "Wallet" "USD" 5%float "liquid"
                   "2024-03-01T08:00:00"]).
Proof.
  split.
  - destruct (add_account_then_list "2024-03-01T08:00:00" "Wallet" "USD"
                (-0)%float "liquid" sample_world)
      as (id & w' & l & H1 & Hid & H2 & H3 & _ & H4).
    + right. left. reflexivity.
    + right. left. reflexivity.
    + reflexivity.
    + intros (a & [<-|[<-|[]]] & E); vm_compute in E; discriminate.
    + change (seq_accounts (db sample_world) + 1) with 3 in Hid. subst id.
      exists w', l. split; [exact H1|]. split; [exact H2|].
      split; [exact H3|]. apply H4. split.
      * apply (bool_decide_unpack _). vm_compute. exact I.
      * repeat constructor; vm_compute; discriminate.
  - destruct (add_account_then_list "2024-03-01T08:00:00" "Wallet" "USD"
                5%float "liquid" initial_world)
      as (id & w' & l & H1 & Hid & H2 & _ & H3 & _).
    + right. left. reflexivity.
    + right. left. reflexivity.
    + reflexivity.
    + intros (a & [] & _).
    + change (seq_accounts (db initial_world) + 1) with 1 in Hid. subst id.
      exists w', l. split; [exact H1|]. split; [exact H2|].
      apply H3. reflexivity.
Defined.

(** ** Rows the store refuses, and writes that stop half way *)

(** X9: a row the table refuses is not half written.  [add_expense], with
    ids that fit the INTEGER columns, and [add_income], with a currency
    outside BDT and USD or with an amount that is NaN, raise
    [IntegrityError] and leave the world as it was: no row, no balance
    change, no request, upcoming or not.  An id of [add_expense] outside
    the 64-bit range raises [OverflowError] before that, and the world is
    as it was too. *)
Theorem refused_row_writes_nothing :
  forall (net : nat -> string -> string -> option float)
         (now name source description : string) (amount : float)
         (currency : string) (account_id : Z) (category_id : option Z)
         (is_upcoming : bool) (when : Cal.date) (w : World),
    ~ row_ok amount currency ->
    (ids_ok account_id category_id ->
     exists c,
       add_expense net now name amount currency account_id category_id
         is_upcoming when w = (Raise (IntegrityError c), w))
    /\ (~ ids_ok account_id category_id ->
        add_expense net now name amount currency account_id category_id
          is_upcoming when w
        = (Raise (OverflowError
                    "Python int too large to convert to SQLite INTEGER"),
           w))
    /\ (exists c,
           add_income net now source description amount currency is_upcoming
             when w = (Raise (IntegrityError c), w)).
Proof.
  intros net now name source description amount currency account_id
         category_id is_upcoming when w Hrow.
  assert (Fl.is_nan amount = true
          \/ (Fl.is_nan amount = false
              /\ str_in currency ["BDT"; "USD"] = false)) as Hcase.
  { unfold row_ok, SUPPORTED_CURRENCIES in Hrow.
    destruct (Fl.is_nan amount); [left; reflexivity|right].
    split; [reflexivity|].
    destruct (str_in currency ["BDT"; "USD"]); [|reflexivity].
    exfalso. apply Hrow. split; reflexivity. }
  split; [|split].
  - intros [Hi Ho]. unfold add_expense, bind at 1.
    unfold insert_expense, bind at 1. rewrite bind_int_ok by exact Hi.
    unfold bind at 1. rewrite bind_opt_int_ok by exact Ho.
    munfold. unfold real_is_null.
    destruct Hcase as [Hn|[Hn Hc]]; rewrite Hn; [|rewrite Hc; cbn [negb]];
      eexists; destruct w; reflexivity.
  - intros Hids. apply add_expense_overflow. exact Hids.
  - unfold add_income, bind, insert_income. munfold. unfold real_is_null.
    destruct Hcase as [Hn|[Hn Hc]]; rewrite Hn; [|rewrite Hc; cbn [negb]];
      eexists; destruct w; reflexivity.
Qed.

Lemma refused_row_writes_nothing_witness :
  (exists c,
      add_expense offline "2024-03-01T08:00:00" "Books" 12%float "EUR" 1
        (Some 4) false (Cal.mkDate 2024 2 29) sample_world
      = (Raise (IntegrityError c), sample_world))
  /\ add_expense offline "2024-03-01T08:00:00" "Books" 12%float "EUR"
       (2 ^ 63) None false (Cal.mkDate 2024 2 29) sample_world
     = (Raise (OverflowError
                 "Python int too large to convert to SQLite INTEGER"),
        sample_world)
  /\ (exists c,
         add_income offline "2024-03-01T08:00:00" "Acme" "bonus" nan "USD"
           true (Cal.mkDate 2024 2 29) sample_world
         = (Raise (IntegrityError c), sample_world)).
Proof.
  split; [|split].
  - apply (proj1 (refused_row_writes_nothing offline "2024-03-01T08:00:00"
                    "Books" "Acme" "bonus" 12%float "EUR" 1 (Some 4) false
                    (Cal.mkDate 2024 2 29) sample_world
                    ltac:(intros [_ H]; vm_compute in H; discriminate))).
    split; reflexivity.
  - apply (proj1 (proj2 (refused_row_writes_nothing offline
                           "2024-03-01T08:00:00" "Books" "Acme" "bonus"
                           12%float "EUR" (2 ^ 63) None false
                           (Cal.mkDate 2024 2 29) sample_world
                           ltac:(intros [_ H]; vm_compute in H;
                                 discriminate)))).
    intros [H _]. vm_compute in H. discriminate.
  - apply (proj2 (proj2 (refused_row_writes_nothing offline
                           "2024-03-01T08:00:00" "Books" "Acme" "bonus"
                           nan "USD" 1 None true
                           (Cal.mkDate 2024 2 29) sample_world
                           ltac:(intros [H _]; vm_compute in H;
                                 discriminate)))).
Defined.

(** X10: the expense and its debit are two statements, not one.  When the
    new balance of the owning account is NaN (infinity minus infinity, a
    NaN rate), the store refuses the balance: with a row the table accepts
    and ids that fit the INTEGER columns, [add_expense] raises
    [IntegrityError] after the expense row was inserted (the amount as the
    REAL column gives it back), and the accounts are unchanged. *)
Theorem add_expense_balance_refused :
  forall (net : nat -> string -> string -> option float)
         (now name : string) (amount : float) (currency : string)
         (category_id : option Z) (when : Cal.date) (w : World)
         (a : account),
    row_ok amount currency ->
    ids_ok (acc_id a) category_id ->
    NoDup (map acc_id (accounts (db w))) ->
    In a (accounts (db w)) ->
    Fl.is_nan (acc_balance a
               - converted net w amount currency (acc_currency a))%float
    = true ->
    exists w',
      add_expense net now name amount currency (acc_id a) category_id false
        when w
      = (Raise (IntegrityError (NotNull "accounts" "balance")), w')
      /\ expenses (db w')
         = expenses (db w)
           ++ [mkExpense (seq_expenses (db w) + 1) name (Fl.stored amount)
                 currency (acc_id a) category_id 0 (Cal.isoformat when) now]
      /\ seq_expenses (db w') = seq_expenses (db w) + 1
      /\ accounts (db w') = accounts (db w)
      /\ incomes (db w') = incomes (db w).
Proof.
  intros net now name amount currency category_id when w a Hrow Hids Hnd Hin
         Hnan.
  unfold add_expense, bind at 1.
  rewrite (insert_expense_ok _ _ _ _ _ _ _ _ _ Hrow Hids).
  cbn [negb]. unfold bind at 1.
  rewrite select_account_by_id_ok by exact (proj1 Hids).
  cbn [db accounts with_expenses].
  rewrite select_account_by_id_unique by assumption.
  set (w0 := mkWorld _ (cache w) (requests w)).
  destruct (to_account_currency_spec net amount currency (acc_currency a) w0)
    as [Hv Hd].
  unfold bind at 1.
  destruct (to_account_currency net amount currency (acc_currency a) w0)
    as [[v|e] w1] eqn:Hto; cbn [fst snd] in Hv, Hd; [|discriminate].
  assert (v = converted net w amount currency (acc_currency a)) as ->.
  { inversion Hv. unfold converted, w0. rewrite rate_of_db. reflexivity. }
  rewrite (update_balance_nan a _ w1);
    [|exact (proj1 Hids)|rewrite Hd; exact Hin|exact Hnan].
  exists w1. split; [reflexivity|]. rewrite Hd. unfold w0.
  cbn [db accounts expenses incomes seq_expenses with_expenses].
  repeat split; reflexivity.
Qed.

Lemma add_expense_balance_refused_witness :
  exists w',
    add_expense offline "2024-03-01T08:00:00" "Yacht" infinity "BDT" 1
      (Some 2) false (Cal.mkDate 2024 2 29) vault_world
    = (Raise (IntegrityError (NotNull "accounts" "balance")), w')
    /\ expenses (db w')
       = [mkExpense 1 "Yacht" infinity "BDT" 1 (Some 2) 0 "2024-02-29"
            "2024-03-01T08:00:00"]
    /\ accounts (db w') = [vault].
Proof.
  destruct (add_expense_balance_refused offline "2024-03-01T08:00:00" "Yacht"
              infinity "BDT" (Some 2) (Cal.mkDate 2024 2 29) vault_world
              vault)
    as (w' & H1 & H2 & _ & H3 & _).
  - split; reflexivity.
  - split; reflexivity.
  - apply (bool_decide_unpack _). vm_compute. exact I.
  - left. reflexivity.
  - vm_compute. reflexivity.
  - exists w'. split; [exact H1|]. split; [rewrite H2; reflexivity|].
    rewrite H3. reflexivity.
Defined.

(** ** Amounts that need no conversion *)


(** X11: converting an amount into its own currency returns the amount
    itself, bit for bit (the product with the rate 1.0 is exact for every
    float, infinities and NaN included), makes no request and leaves the
    world as it was. *)
Theorem convert_same_currency :
  forall (net : nat -> string -> string -> option float) (amount : float)
         (c : string) (w : World),
    convert net amount c c w = (Ok amount, w).
Proof.
  intros net amount c w. unfold convert, bind, fetch_rate.
  rewrite String.eqb_refl. unfold ret, Fl.one.
  rewrite float_mul_one. reflexivity.
Qed.

(** X6: a pair the fallback table lacks is converted at par when the
    lookup is down: [fetch_rate] of [main.py] returns 1.0 for it, where
    [main_v1.py] returns 1/120.0 for every pair other than USD to BDT. *)
Theorem unknown_pair_fallback :
  forall (net : nat -> string -> string -> option float)
         (vnet : nat -> string -> string -> option V1.pyval) (a b : string)
         (w : World) (v : V1.World),
    a <> b ->
    ~ (a = "USD" /\ b = "BDT") ->
    ~ (a = "BDT" /\ b = "USD") ->
    cache w !! (a, b) = None ->
    net (requests w) a b = None ->
    V1.cache v !! (a, b) = None ->
    vnet (V1.requests v) a b = None ->
    fst (fetch_rate net a b w) = Ok 1%float
    /\ (forall amount : float, fst (convert net amount a b w) = Ok amount)
    /\ fst (V1.fetch_rate vnet a b v) = Ok (V1.PyFloat (1 / 120)).
Proof.
  intros net vnet a b w v Hab H1 H2 Hc Hn Hvc Hvn.
  assert (fallback_rate !! (a, b) = None) as Hf.
  { destruct (fallback_rate !! (a, b)) as [x|] eqn:E; [|reflexivity].
    destruct (fallback_rate_pairs a b x E) as [(-> & -> & _)|(-> & -> & _)];
      [exfalso; apply H1|exfalso; apply H2]; auto. }
  assert (fetch_rate net a b w
          = (Ok 1%float, mkWorld (db w) (cache w) (S (requests w)))) as Hr.
  { rewrite (fetch_rate_fallback net a b w Hab Hc Hn), Hf. reflexivity. }
  split; [rewrite Hr; reflexivity|].
  split.
  - intros amount. unfold convert, bind. rewrite Hr. cbn [fst ret].
    rewrite float_mul_one. reflexivity.
  - unfold V1.fetch_rate. apply String.eqb_neq in Hab. rewrite Hab, Hvc, Hvn.
    cbn [fst]. f_equal.
    destruct (String.eqb_spec a "USD") as [->|Ea]; [|reflexivity].
    destruct (String.eqb_spec b "BDT") as [->|Eb]; [|reflexivity].
    exfalso. apply H1. auto.
Qed.

Lemma unknown_pair_fallback_witness :
  fst (fetch_rate offline "EUR" "USD" sample_world) = Ok 1%float
  /\ (forall amount : float,
        fst (convert offline amount "EUR" "USD" sample_world) = Ok amount)
  /\ fst (V1.fetch_rate v1_offline "EUR" "USD" v1_world)
     = Ok (V1.PyFloat (1 / 120)).
Proof.
  apply (unknown_pair_fallback offline v1_offline "EUR" "USD" sample_world
           v1_world).
  - discriminate.
  - intros [H _]. discriminate.
  - intros [H _]. discriminate.
  - reflexivity.
  - reflexivity.
  - reflexivity.
  - reflexivity.
Defined.








(** ** Ordinals and the start of the week *)

Module CalMore.

Import Cal CalFacts.

Lemma days_before_year_decomposed (q400 q100 q4 q1 : Z) :
  0 <= q100 < 4 -> 0 <= q4 <= 24 -> 0 <= q1 < 4 ->
  days_before_year (q400 * 400 + 1 + q100 * 100 + q4 * 4 + q1)
  = q400 * 146097 + q100 * 36524 + q4 * 1461 + q1 * 365.
Proof.
  intros H100 H4 H1. unfold days_before_year.
  replace (q400 * 400 + 1 + q100 * 100 + q4 * 4 + q1 - 1)
    with (q400 * 400 + q100 * 100 + q4 * 4 + q1) by lia.
  set (t := q400 * 400 + q100 * 100 + q4 * 4 + q1).
  assert (t / 4 = q400 * 100 + q100 * 25 + q4) as ->.
  { symmetry. apply (Z.div_unique t 4 _ q1); unfold t; lia. }
  assert (t / 100 = q400 * 4 + q100) as ->.
  { symmetry. apply (Z.div_unique t 100 _ (q4 * 4 + q1)); unfold t; lia. }
  assert (t / 400 = q400) as ->.
  { symmetry. apply (Z.div_unique t 400 _ (q100 * 100 + q4 * 4 + q1));
      unfold t; lia. }
  unfold t. lia.
Qed.

Lemma month_and_day_ordinal (leap : bool) (n : Z) :
  0 <= n < 365 ->
  let '(m, d) := month_and_day leap n in
  nth (Z.to_nat m) DAYS_BEFORE_MONTH 0
  + (if (2 <? m) && leap then 1 else 0) + d = n + 1.
Proof.
  intros Hn.
  assert (forallb (fun k => month_and_day_inverts leap (Z.of_nat k))
                  (seq 0 365) = true) as Hall
    by (destruct leap; vm_compute; reflexivity).
  rewrite forallb_forall in Hall.
  specialize (Hall (Z.to_nat n)). rewrite Z2Nat.id in Hall by lia.
  unfold month_and_day_inverts in Hall.
  destruct (month_and_day leap n) as [m d].
  apply Z.eqb_eq. apply Hall. apply in_seq. lia.
Qed.

(** The ordinal of the date of an ordinal is that ordinal. *)
Lemma ymd2ord_ord2ymd (n : Z) :
  1 <= n <= MAXORDINAL ->
  let '(y, m, d) := ord2ymd n in ymd2ord y m d = n.
Proof.
  unfold MAXORDINAL. intros Hn. unfold ord2ymd, DI400Y, DI100Y, DI4Y.
  set (n0 := n - 1).
  set (q400 := n0 / 146097). set (r400 := n0 mod 146097).
  set (q100 := r400 / 36524). set (r100 := r400 mod 36524).
  set (q4 := r100 / 1461). set (r4 := r100 mod 1461).
  set (q1 := r4 / 365). set (r := r4 mod 365).
  assert (n0 = 146097 * q400 + r400 /\ 0 <= r400 < 146097) as [E400 B400].
  { split; [apply Z.div_mod; lia|apply Z.mod_pos_bound; lia]. }
  assert (r400 = 36524 * q100 + r100 /\ 0 <= r100 < 36524) as [E100 B100].
  { split; [apply Z.div_mod; lia|apply Z.mod_pos_bound; lia]. }
  assert (r100 = 1461 * q4 + r4 /\ 0 <= r4 < 1461) as [E4 B4].
  { split; [apply Z.div_mod; lia|apply Z.mod_pos_bound; lia]. }
  assert (r4 = 365 * q1 + r /\ 0 <= r < 365) as [E1 B1].
  { split; [apply Z.div_mod; lia|apply Z.mod_pos_bound; lia]. }
  assert (n0 = n - 1) as En0 by reflexivity.
  clearbody n0 q400 r400 q100 r100 q4 r4 q1 r.
  assert (0 <= q400 <= 24 /\ 0 <= q100 <= 4 /\ 0 <= q4 <= 24 /\ 0 <= q1 <= 4)
    as (Q400 & Q100 & Q4 & Q1) by lia.
  destruct (Z.eqb_spec q1 4) as [A1|A1]; cbn [orb].
  { assert (q100 <= 3) as Q100' by lia.
    replace (q400 * 400 + 1 + q100 * 100 + q4 * 4 + q1 - 1)
      with (q400 * 400 + 1 + q100 * 100 + q4 * 4 + 3) by lia.
    unfold ymd2ord, days_before_month.
    rewrite is_leap_decomposed by lia.
    rewrite days_before_year_decomposed by lia.
    change (3 =? 3) with true. cbn [andb].
    assert (negb (q4 =? 24) || (q100 =? 3) = true) as ->.
    { destruct (Z.eqb_spec q4 24) as [->|]; [|reflexivity].
      cbn [negb orb]. apply Z.eqb_eq. lia. }
    change (nth (Z.to_nat 12) DAYS_BEFORE_MONTH 0) with 334.
    change (2 <? 12) with true. cbn [andb]. lia. }
  destruct (Z.eqb_spec q100 4) as [A100|A100].
  { assert (q4 = 0 /\ q1 = 0 /\ r = 0) as (-> & -> & ->) by lia.
    subst q100.
    replace (q400 * 400 + 1 + 4 * 100 + 0 * 4 + 0 - 1)
      with (q400 * 400 + 1 + 3 * 100 + 24 * 4 + 3) by lia.
    unfold ymd2ord, days_before_month.
    rewrite is_leap_decomposed by lia.
    rewrite days_before_year_decomposed by lia.
    change (nth (Z.to_nat 12) DAYS_BEFORE_MONTH 0) with 334.
    change (2 <? 12) with true.
    change ((3 =? 3) && (negb (24 =? 24) || (3 =? 3))) with true.
    cbn [andb]. lia. }
  rewrite <- (is_leap_decomposed q400 q100 q4 q1) by lia.
  pose proof (days_before_year_decomposed q400 q100 q4 q1
                ltac:(lia) ltac:(lia) ltac:(lia)) as Hdby.
  set (y := q400 * 400 + 1 + q100 * 100 + q4 * 4 + q1) in *.
  clearbody y.
  pose proof (month_and_day_ordinal (is_leap y) r B1) as Hmd.
  destruct (month_and_day (is_leap y) r) as [m d].
  unfold ymd2ord, days_before_month. lia.
Qed.

Lemma fromisocalendar_monday_ordinal (y w D W : Z) :
  1 <= y <= 9999 ->
  D = days_before_year y ->
  W = week1 (D + 1) ->
  0 < w < 53
  \/ (w = 53 /\ ((D + 1) mod 7 = 4
                  \/ ((D + 1) mod 7 = 3 /\ is_leap y = true))) ->
  1 <= W + (w - 1) * 7 <= 3652059 ->
  exists start,
    fromisocalendar y w 1 = Ok start /\ valid start
    /\ toordinal start = W + (w - 1) * 7.
Proof.
  intros Hy -> -> Hw Hord. unfold fromisocalendar, MINYEAR, MAXYEAR.
  replace ((1 <=? y) && (y <=? 9999)) with true
    by (symmetry; rewrite andb_true_iff, !Z.leb_le; lia).
  cbn [negb]. rewrite ymd2ord_jan1.
  replace (((0 <? w) && (w <? 53))
           || ((w =? 53)
               && (((days_before_year y + 1) mod 7 =? 4)
                   || (((days_before_year y + 1) mod 7 =? 3) && is_leap y))))
    with true.
  2:{ symmetry. rewrite orb_true_iff, !andb_true_iff, orb_true_iff,
        andb_true_iff, !Z.ltb_lt, !Z.eqb_eq.
      destruct Hw as [Hw|Hw]; [left; lia|right; exact Hw]. }
  cbn [negb]. change ((0 <? 1) && (1 <? 8)) with true. cbn [negb].
  replace ((w - 1) * 7 + (1 - 1)) with ((w - 1) * 7) by lia.
  rewrite isoweek1monday_week1.
  pose proof (ord2ymd_valid _ Hord) as Hv.
  pose proof (ymd2ord_ord2ymd _ Hord) as Ho.
  destruct (ord2ymd (week1 (days_before_year y + 1) + (w - 1) * 7))
    as [[y' m'] d'].
  unfold new_date. rewrite Hv. eexists. split; [reflexivity|].
  split; [exact Hv|exact Ho].
Qed.

(** The weekly start is [today] moved back by its weekday. *)
Lemma weekly_start_ordinal (today : date) :
  valid today ->
  exists start,
    (let '(iso_year, iso_week, _) := isocalendar today in
     fromisocalendar iso_year iso_week 1) = Ok start
    /\ valid start
    /\ toordinal start = toordinal today - (toordinal today + 6) mod 7.
Proof.
  intros Hv.
  pose proof (toordinal_range today Hv) as Ht.
  assert (1 <= year today <= 9999) as Hy.
  { revert Hv. unfold valid, validb, MINYEAR, MAXYEAR.
    rewrite !andb_true_iff, !Z.leb_le. lia. }
  unfold isocalendar.
  set (y := year today) in *. set (t := toordinal today) in *.
  clearbody y t. clear Hv today.
  pose proof (days_before_year_succ y) as Hn.
  pose proof (days_before_year_succ (y - 1)) as Hp.
  replace (y - 1 + 1) with y in Hp by lia.
  assert (y = 1 -> days_before_year y = 0) as H1 by (intros ->; reflexivity).
  assert (y = 9999 -> days_before_year (y + 1) = 3652059) as H9
    by (intros ->; reflexivity).
  assert (2 <= y -> 0 <= days_before_year (y - 1)) as Hp0.
  { intros H. apply (days_before_year_bounds (y - 1)). lia. }
  assert (0 <= days_before_year y) as Hd0
    by (apply (days_before_year_bounds y); lia).
  assert (days_before_year (y + 1) <= 3652059) as Hmax
    by (apply (days_before_year_bounds (y + 1)); lia).
  rewrite (isoweek1monday_week1 y), (isoweek1monday_week1 (y - 1)),
    (isoweek1monday_week1 (y + 1)).
  unfold leap_days in *.
  remember (days_before_year y) as D eqn:ED.
  remember (days_before_year (y - 1)) as Dp eqn:EDp.
  remember (days_before_year (y + 1)) as Dn eqn:EDn.
  pose proof (week1_spec (D + 1)) as [Hw Hwm].
  pose proof (week1_spec (Dp + 1)) as [Hwp Hwpm].
  pose proof (week1_spec (Dn + 1)) as [Hwn Hwnm].
  pose proof (week1_next (D + 1) (if is_leap y then 1 else 0)) as Hnext.
  pose proof (week1_next (Dp + 1) (if is_leap (y - 1) then 1 else 0))
    as Hprev.
  replace (D + 1 + 365 + (if is_leap y then 1 else 0))
    with (Dn + 1) in Hnext by lia.
  replace (Dp + 1 + 365 + (if is_leap (y - 1) then 1 else 0))
    with (D + 1) in Hprev by lia.
  remember (week1 (D + 1)) as W eqn:EW.
  remember (week1 (Dp + 1)) as Wp eqn:EWp.
  remember (week1 (Dn + 1)) as Wn eqn:EWn.
  assert (forall (iy iw Di Wi : Z),
            1 <= iy <= 9999 -> Di = days_before_year iy ->
            Wi = week1 (Di + 1) ->
            0 < iw < 53
            \/ (iw = 53 /\ ((Di + 1) mod 7 = 4
                             \/ ((Di + 1) mod 7 = 3 /\ is_leap iy = true))) ->
            1 <= Wi + (iw - 1) * 7 <= 3652059 ->
            Wi + (iw - 1) * 7 = t - (t + 6) mod 7 ->
            exists start,
              fromisocalendar iy iw 1 = Ok start /\ valid start
              /\ toordinal start = t - (t + 6) mod 7) as Hfrom.
  { intros iy iw Di Wi Hiy HDi HWi Hwk Hord Heq.
    destruct (fromisocalendar_monday_ordinal iy iw Di Wi Hiy HDi HWi Hwk Hord)
      as (start & Hs & Hv & Ho).
    exists start. split; [exact Hs|]. split; [exact Hv|]. lia. }
  destruct (is_leap y) eqn:Ly; destruct (is_leap (y - 1)) eqn:Lp;
    specialize (Hnext ltac:(lia)); specialize (Hprev ltac:(lia)).
  all: destruct (Z.ltb_spec ((t - W) / 7) 0) as [Ha|Ha];
    [ apply (Hfrom (y - 1) _ Dp Wp);
      [ Z.div_mod_to_equations; lia | exact EDp | exact EWp
      | rewrite ?Lp; Z.div_mod_to_equations; lia
      | Z.div_mod_to_equations; lia
      | Z.div_mod_to_equations; lia ]
    | destruct (Z.leb_spec 52 ((t - W) / 7)) as [Hb|Hb]; cbn [andb];
      [ destruct (Z.leb_spec Wn t) as [Hc|Hc];
        [ apply (Hfrom (y + 1) _ Dn Wn);
          [ Z.div_mod_to_equations; lia | exact EDn | exact EWn
          | left; lia
          | Z.div_mod_to_equations; lia
          | Z.div_mod_to_equations; lia ]
        | apply (Hfrom y _ D W);
          [ lia | exact ED | exact EW
          | rewrite ?Ly; Z.div_mod_to_equations; lia
          | Z.div_mod_to_equations; lia
          | Z.div_mod_to_equations; lia ] ]
      | apply (Hfrom y _ D W);
        [ lia | exact ED | exact EW
        | left; Z.div_mod_to_equations; lia
        | Z.div_mod_to_equations; lia
        | Z.div_mod_to_equations; lia ] ] ].
Qed.

End CalMore.

(** X14: the weekly period starts on the Monday of the week of today:
    [period_start today "weekly"] returns a date, it is [today] moved
    back by [today.weekday()] days (Monday is 0), hence a Monday, never
    after [today] and at most six days before it. *)
Theorem weekly_start_is_monday :
  forall (today : Cal.date),
    Cal.valid today ->
    exists start,
      period_start today "weekly" = Ok start
      /\ Cal.valid start
      /\ Cal.toordinal start = Cal.toordinal today - weekday today
      /\ weekday start = 0
      /\ Cal.toordinal today - 6 <= Cal.toordinal start <= Cal.toordinal today.
Proof.
  intros today Hv.
  destruct (CalMore.weekly_start_ordinal today Hv) as (start & Hs & Hvs & Ho).
  exists start. unfold period_start. cbn [String.eqb Ascii.eqb Bool.eqb].
  split; [exact Hs|]. split; [exact Hvs|]. unfold weekday.
  split; [exact Ho|]. rewrite Ho. split; Z.div_mod_to_equations; lia.
Qed.

Lemma weekly_start_is_monday_witness :
  exists start,
    period_start (Cal.mkDate 2027 1 1) "weekly" = Ok start
    /\ weekday start = 0
    /\ Cal.toordinal start = Cal.toordinal (Cal.mkDate 2027 1 1) - 4.
Proof.
  destruct (weekly_start_is_monday (Cal.mkDate 2027 1 1) eq_refl)
    as (start & H1 & _ & H2 & H3 & _).
  exists start. split; [exact H1|]. split; [exact H3|].
  rewrite H2. reflexivity.
Defined.



(** ** Categories and the opening of the store *)

Lemma sort_by_perm {A : Type} (before : A -> A -> bool) (l : list A) :
  Permutation (sort_by before l) l.
Proof.
  unfold sort_by.
  assert (forall acc,
            Permutation (fold_left (fun acc a => insert_by before a acc) l acc)
                        (acc ++ l)) as H.
  { induction l as [|a l IH]; intros acc; cbn.
    - rewrite app_nil_r. reflexivity.
    - rewrite IH, insert_by_perm. cbn. apply Permutation_middle. }
  apply (H []).
Qed.

Lemma sort_by_perm_in {A : Type} (before : A -> A -> bool) (l : list A)
    (c : A) :
  In c (sort_by before l) <-> In c l.
Proof.
  split; apply Permutation_in;
    [apply sort_by_perm|symmetry; apply sort_by_perm].
Qed.

Lemma has_category_app (name kind : string) (l : DB) (cs added : list category)
    (q q' : Z) :
  has_category name kind (mkStore l (cs ++ added) q)
  = has_category name kind (mkStore l cs q')
    || existsb (fun c => String.eqb (cat_name c) name
                         && String.eqb (cat_kind c) kind) added.
Proof. unfold has_category. cbn [categories]. apply existsb_app. Qed.

Lemma default_kinds :
  Forall (fun d => str_in (snd (fst d)) ["expense"; "income"] = true)
         default_categories.
Proof. repeat constructor. Qed.

Lemma default_flags (name kind : string) (is_default : Z) :
  In (name, kind, is_default) default_categories -> is_default = 1.
Proof.
  intros H. cbn in H.
  repeat (destruct H as [H|H]; [congruence|]). contradiction.
Qed.

Lemma seed_categories_spec (defaults : list (string * string * Z)) :
  Forall (fun d => str_in (snd (fst d)) ["expense"; "income"] = true)
         defaults ->
  forall s : Store,
    exists added,
      seed_categories defaults s
      = (Ok tt,
         mkStore (ledger s) (categories s ++ added)
                 (seq_categories s + Z.of_nat (length added)))
      /\ Forall (fun c =>
                   In (cat_name c, cat_kind c, cat_is_default c) defaults
                   /\ has_category (cat_name c) (cat_kind c) s = false
                   /\ seq_categories s < cat_id c)
                added
      /\ (forall name kind is_default,
             In (name, kind, is_default) defaults ->
             has_category name kind
               (mkStore (ledger s) (categories s ++ added)
                        (seq_categories s + Z.of_nat (length added)))
             = true).
Proof.
  induction 1 as [|[[name kind] is_default] defaults Hk Hrest IH]; intros s.
  - exists []. cbn [seed_categories length Z.of_nat].
    rewrite app_nil_r, Z.add_0_r. destruct s; cbn.
    split; [reflexivity|]. split; [constructor|]. intros ? ? ? [].
  - cbn [seed_categories]. cbn [fst snd] in Hk.
    destruct (has_category name kind s) eqn:Hhas.
    + destruct (IH s) as (added & Hrun & Hadded & Hpresent).
      exists added. split; [exact Hrun|]. split.
      * eapply Forall_impl; [exact Hadded|].
        intros c (Hin & Hno & Hid). split; [right; exact Hin|]. auto.
      * intros n k d [E|Hin]; [|eapply Hpresent; exact Hin].
        inversion E; subst n k d.
        rewrite (has_category_app name kind (ledger s) (categories s) added
                   _ (seq_categories s)).
        destruct s; cbn in *. rewrite Hhas. reflexivity.
    + unfold insert_category. rewrite Hk. cbn [negb].
      set (c := mkCategory (seq_categories s + 1) name kind is_default).
      destruct (IH (mkStore (ledger s) (categories s ++ [c])
                            (seq_categories s + 1)))
        as (added & Hrun & Hadded & Hpresent).
      cbn [ledger categories seq_categories] in Hrun, Hpresent.
      exists (c :: added).
      replace (categories s ++ c :: added)
        with ((categories s ++ [c]) ++ added)
        by (rewrite <- app_assoc; reflexivity).
      replace (seq_categories s + Z.of_nat (length (c :: added)))
        with (seq_categories s + 1 + Z.of_nat (length added))
        by (cbn [length]; lia).
      split; [exact Hrun|]. split.
      * constructor.
        -- cbn [cat_name cat_kind cat_is_default cat_id c].
           split; [left; reflexivity|]. split; [exact Hhas|lia].
        -- eapply Forall_impl; [exact Hadded|].
           intros x (Hin & Hno & Hid). split; [right; exact Hin|].
           cbn [seq_categories] in Hid. split; [|lia].
           rewrite (has_category_app _ _ (ledger s) (categories s) [c]
                      _ (seq_categories s)) in Hno.
           apply orb_false_iff in Hno as [Hno _].
           destruct s; exact Hno.
      * intros n k d [E|Hin]; [|eapply Hpresent; exact Hin].
        inversion E; subst n k d.
        rewrite (has_category_app name kind (ledger s)
                   (categories s ++ [c]) added _ (seq_categories s)).
        rewrite (has_category_app name kind (ledger s) (categories s) [c]
                   _ (seq_categories s)).
        cbn [existsb c cat_name cat_kind].
        rewrite !String.eqb_refl. cbn. rewrite orb_true_r. reflexivity.
Qed.

Lemma seed_categories_present (defaults : list (string * string * Z))
    (s : Store) :
  (forall name kind is_default,
      In (name, kind, is_default) defaults ->
      has_category name kind s = true) ->
  seed_categories defaults s = (Ok tt, s).
Proof.
  induction defaults as [|[[name kind] is_default] defaults IH]; intros H.
  - reflexivity.
  - cbn [seed_categories]. rewrite (H name kind is_default) by (left; reflexivity).
    apply IH. intros n k d Hin. apply (H n k d). right. exact Hin.
Qed.

Lemma seed_defaults_spec :
  forall (s : Store),
    exists added s1,
      seed_defaults s = (Ok tt, s1)
      /\ categories s1 = categories s ++ added
      /\ Forall (fun c =>
                   In (cat_name c, cat_kind c, 1) default_categories
                   /\ cat_is_default c = 1
                   /\ has_category (cat_name c) (cat_kind c) s = false
                   /\ seq_categories s < cat_id c)
                added
      /\ (forall name kind is_default,
             In (name, kind, is_default) default_categories ->
             has_category name kind s1 = true)
      /\ accounts (ledger s1) = accounts (ledger s)
      /\ expenses (ledger s1) = expenses (ledger s)
      /\ incomes (ledger s1) = incomes (ledger s)
      /\ settings (ledger s1) !! "display_currency"
         = Some (default "BDT" (settings (ledger s) !! "display_currency"))
      /\ (forall key, key <> "display_currency" ->
                      settings (ledger s1) !! key = settings (ledger s) !! key).
Proof.
  intros s.
  destruct (seed_categories_spec default_categories default_kinds s)
    as (added & Hrun & Hadded & Hpresent).
  assert (Forall (fun c =>
                    In (cat_name c, cat_kind c, 1) default_categories
                    /\ cat_is_default c = 1
                    /\ has_category (cat_name c) (cat_kind c) s = false
                    /\ seq_categories s < cat_id c) added) as Hadded'.
  { eapply Forall_impl; [exact Hadded|].
    intros c (Hin & Hno & Hid).
    pose proof (default_flags _ _ _ Hin) as E.
    rewrite E in Hin. auto. }
  exists added. unfold seed_defaults. rewrite Hrun. cbn [ledger].
  destruct (settings (ledger s) !! "display_currency") as [cur|] eqn:Hcur.
  - eexists. split; [reflexivity|]. cbn [categories ledger].
    split; [reflexivity|]. split; [exact Hadded'|].
    split; [exact Hpresent|]. rewrite Hcur. cbn [default]. auto 10.
  - eexists. split; [reflexivity|].
    cbn [categories ledger accounts expenses incomes settings].
    split; [reflexivity|]. split; [exact Hadded'|].
    split.
    { intros n k d Hin. specialize (Hpresent n k d Hin).
      unfold has_category in *. exact Hpresent. }
    split; [reflexivity|]. split; [reflexivity|]. split; [reflexivity|].
    split; [apply lookup_insert_eq|].
    intros key Hkey. apply lookup_insert_ne. congruence.
Qed.

(** X16: opening the store never fails and only adds what is missing.
    [seed_defaults] returns; the category rows found are kept, in place,
    and the rows added behind them are default categories (flag 1) whose
    name and kind no row had, with new ids; afterwards each of the ten
    defaults is present; accounts, expenses and incomes are untouched; a
    display currency that was set is kept, and BDT is set when there was
    none. *)
Theorem seed_defaults_adds_missing :
  forall (s : Store),
    exists added s1,
      seed_defaults s = (Ok tt, s1)
      /\ categories s1 = categories s ++ added
      /\ Forall (fun c =>
                   In (cat_name c, cat_kind c, 1) default_categories
                   /\ cat_is_default c = 1
                   /\ has_category (cat_name c) (cat_kind c) s = false
                   /\ seq_categories s < cat_id c)
                added
      /\ (forall name kind is_default,
             In (name, kind, is_default) default_categories ->
             has_category name kind s1 = true)
      /\ accounts (ledger s1) = accounts (ledger s)
      /\ expenses (ledger s1) = expenses (ledger s)
      /\ incomes (ledger s1) = incomes (ledger s)
      /\ settings (ledger s1) !! "display_currency"
         = Some (default "BDT" (settings (ledger s) !! "display_currency"))
      /\ (forall key, key <> "display_currency" ->
                      settings (ledger s1) !! key = settings (ledger s) !! key).
Proof.
  intros s. exact (seed_defaults_spec s).
Qed.

(** X17: opening twice is opening once.  Whatever [file] holds, running
    [init_schema] on the store that [init_schema] left returns and
    changes nothing: no default category is inserted a second time and
    the display currency is not reset. *)
Theorem init_schema_reopen :
  forall (file : option Store),
    init_schema (Some (snd (init_schema file)))
    = (Ok tt, snd (init_schema file)).
Proof.
  intros file. unfold init_schema. cbn [default].
  destruct (seed_defaults_spec (default empty_store file))
    as (added & s1 & Hrun & _ & _ & Hpresent & _ & _ & _ & Hcur & _).
  rewrite Hrun. cbn [snd]. unfold seed_defaults.
  change (id s1) with s1.
  rewrite (seed_categories_present default_categories s1 Hpresent).
  rewrite Hcur. reflexivity.
Qed.

(** X18: [add_category] refuses a kind other than expense and income with
    [ValueError] and writes nothing; for those two kinds it always
    succeeds (the CHECK of the table is never reached with a bad kind;
    a name that is empty or already used is accepted) and appends one
    row with a new id and the flag 0; that row is then listed under its
    kind, and the listing of the other kind has the rows it had. *)
Theorem add_category_outcomes :
  forall (name kind : string) (s : Store),
    (kind <> "expense" /\ kind <> "income" ->
     add_category name kind s
     = (Raise (ValueError "kind must be 'expense' or 'income'"), s))
    /\ (kind = "expense" \/ kind = "income" ->
        exists s1,
          add_category name kind s = (Ok tt, s1)
          /\ ledger s1 = ledger s
          /\ categories s1
             = categories s
               ++ [mkCategory (seq_categories s + 1) name kind 0]
          /\ (forall (k : string) (c : category),
                 In c (list_categories k s1)
                 <-> In c (list_categories k s)
                     \/ (k = kind
                         /\ c = mkCategory (seq_categories s + 1) name kind 0))).
Proof.
  intros name kind s. split.
  - intros [H1 H2]. unfold add_category, str_in. cbn [existsb].
    apply String.eqb_neq in H1, H2. rewrite H1, H2. reflexivity.
  - intros Hk.
    assert (str_in kind ["expense"; "income"] = true) as Hin.
    { destruct Hk as [-> | ->]; reflexivity. }
    unfold add_category, insert_category. rewrite Hin. cbn [negb].
    eexists. split; [reflexivity|]. cbn [ledger categories].
    split; [reflexivity|]. split; [reflexivity|].
    intros k c. unfold list_categories. cbn [categories].
    rewrite !sort_by_perm_in, List.filter_app, in_app_iff.
    cbn [List.filter cat_kind]. split.
    + intros [H|H]; [left; exact H|]. right.
      destruct (String.eqb_spec kind k) as [E|E]; [|destruct H].
      destruct H as [H|[]]. split; congruence.
    + intros [H|[-> ->]]; [left; exact H|]. right.
      rewrite String.eqb_refl. left. reflexivity.
Qed.

Lemma add_category_outcomes_witness :
  add_category "Pets" "gift" empty_store
  = (Raise (ValueError "kind must be 'expense' or 'income'"), empty_store)
  /\ exists s1,
       add_category "Pets" "expense" empty_store = (Ok tt, s1)
       /\ categories s1 = [mkCategory 1 "Pets" "expense" 0].
Proof.
  destruct (add_category_outcomes "Pets" "gift" empty_store) as [H1 _].
  destruct (add_category_outcomes "Pets" "expense" empty_store) as [_ H2].
  split.
  - apply H1. split; discriminate.
  - destruct (H2 ltac:(left; reflexivity)) as (s1 & Hrun & _ & Hc & _).
    exists s1. split; [exact Hrun|exact Hc].
Defined.

Lemma category_before_total (x y : category) :
  category_before x y = true \/ category_before y x = true.
Proof.
  unfold category_before.
  rewrite (Z.compare_antisym (cat_is_default x) (cat_is_default y)).
  destruct (cat_is_default x ?= cat_is_default y); cbn; auto.
  apply String.leb_total.
Qed.

Lemma category_before_trans (x y z : category) :
  category_before x y = true -> category_before y z = true ->
  category_before x z = true.
Proof.
  unfold category_before.
  destruct (Z.compare_spec (cat_is_default x) (cat_is_default y)) as [E|E|E];
    [|discriminate|];
    destruct (Z.compare_spec (cat_is_default y) (cat_is_default z))
      as [F|F|F]; try discriminate; intros H1 H2.
  - rewrite E, F, Z.compare_refl. eapply StrOrd.leb_trans; eassumption.
  - rewrite E. apply Z.compare_gt_iff in F. rewrite F. reflexivity.
  - rewrite <- F. apply Z.compare_gt_iff in E. rewrite E. reflexivity.
  - assert (cat_is_default z < cat_is_default x) as G by lia.
    apply Z.compare_gt_iff in G. rewrite G. reflexivity.
Qed.

(** X19: [list_categories] returns the category rows of the given kind,
    each exactly once, default categories (higher flag) first and, among
    rows with the same flag, in ascending order of name. *)
Theorem list_categories_defaults_first :
  forall (kind : string) (s : Store),
    Permutation (list_categories kind s)
                (List.filter (fun c => String.eqb (cat_kind c) kind)
                             (categories s))
    /\ (forall c, In c (list_categories kind s)
                  <-> In c (categories s) /\ cat_kind c = kind)
    /\ StronglySorted
         (fun x y =>
            cat_is_default y < cat_is_default x
            \/ (cat_is_default x = cat_is_default y
                /\ String.leb (cat_name x) (cat_name y) = true))
         (list_categories kind s).
Proof.
  intros kind s. unfold list_categories.
  destruct (sort_by_spec category_before category_before_total
              category_before_trans
              (List.filter (fun c => String.eqb (cat_kind c) kind)
                           (categories s))) as [Hp Hs].
  split; [exact Hp|]. split.
  - intros c. rewrite sort_by_perm_in, filter_In.
    split; intros [H1 H2]; (split; [exact H1|]).
    + apply String.eqb_eq. exact H2.
    + apply String.eqb_eq. exact H2.
  - eapply strongly_sorted_weaken; [|exact Hs].
    intros x y. unfold category_before.
    destruct (Z.compare_spec (cat_is_default x) (cat_is_default y))
      as [E|E|E]; intros H.
    + right. split; [exact E|exact H].
    + discriminate.
    + left. exact E.
Qed.

(** ** The cards of the home page *)

Lemma place_cards_cells {A : Type} (p : Z) (cards : list A) :
  1 <= p ->
  forall row col,
    0 <= col < p ->
    place_cards p cards row col
    = imap (fun i c => (c, ((row * p + col + Z.of_nat i) / p,
                            (row * p + col + Z.of_nat i) mod p))) cards.
Proof.
  intros Hp. induction cards as [|c cards IH]; intros row col Hcol.
  - reflexivity.
  - cbn [place_cards]. rewrite imap_cons. f_equal.
    + f_equal. replace (row * p + col + Z.of_nat 0) with (col + row * p) by lia.
      rewrite Z.div_add, Z.mod_add by lia.
      rewrite Z.div_small, Z.mod_small by lia. reflexivity.
    + destruct (Z.leb_spec p (col + 1)) as [H|H].
      * rewrite IH by lia. apply imap_ext. intros i x _. cbn.
        replace ((row + 1) * p + 0 + Z.of_nat i)
          with (row * p + col + Z.of_nat (S i)) by lia.
        reflexivity.
      * rewrite IH by lia. apply imap_ext. intros i x _. cbn.
        replace (row * p + (col + 1) + Z.of_nat i)
          with (row * p + col + Z.of_nat (S i)) by lia.
        reflexivity.
Qed.

Lemma per_row_pos (width : Z) : 1 <= per_row width.
Proof. unfold per_row. repeat destruct (_ <? _); lia. Qed.

(** X20: where the home page puts its cards.  Whatever the window width
    and the list of cards, the loop puts card number [i] (from 0) in row
    [i div per_row] and column [i mod per_row]; so every column is below
    [per_row] and no two cards share a cell. *)
Theorem cards_fill_rows :
  forall (A : Type) (width : Z) (cards : list A),
    card_cells width cards
    = imap (fun i c => (c, (Z.of_nat i / per_row width,
                            Z.of_nat i mod per_row width))) cards
    /\ Forall (fun cell => 0 <= snd (snd cell) < per_row width)
              (card_cells width cards)
    /\ NoDup (map snd (card_cells width cards)).
Proof.
  intros A width cards. pose proof (per_row_pos width) as Hp.
  assert (card_cells width cards
          = imap (fun i c => (c, (Z.of_nat i / per_row width,
                                  Z.of_nat i mod per_row width))) cards) as E.
  { unfold card_cells. rewrite place_cards_cells by lia.
    apply imap_ext. intros i x _. cbn.
    replace (0 * per_row width + 0 + Z.of_nat i) with (Z.of_nat i) by lia.
    reflexivity. }
  split; [exact E|]. rewrite E. split.
  - apply Forall_forall. intros cell Hin.
    apply list_elem_of_lookup in Hin as [i Hi].
    rewrite list_lookup_imap in Hi.
    destruct (cards !! i) as [c|]; [|discriminate].
    cbn in Hi. inversion Hi; subst cell. cbn [snd].
    apply Z.mod_pos_bound. lia.
  - apply NoDup_alt. intros i j cell Hi Hj.
    rewrite list_lookup_fmap, list_lookup_imap in Hi, Hj.
    destruct (cards !! i) as [ci|]; [|discriminate].
    destruct (cards !! j) as [cj|]; [|discriminate].
    cbn in Hi, Hj. inversion Hi as [Ei]. rewrite <- Ei in Hj.
    inversion Hj as [[Hd Hm]].
    pose proof (Z.div_mod (Z.of_nat i) (per_row width)).
    pose proof (Z.div_mod (Z.of_nat j) (per_row width)).
    assert (Z.of_nat i = Z.of_nat j) by (rewrite H, H0, Hd, Hm by lia; reflexivity).
    lia.
Qed.

(** ** [main_v1.py]: incomes and transfers *)

(** A rate that is not a number is cached as it came, and the product
    raises: every later conversion of the pair raises too. *)
Example v1_convert_rate_not_a_number :
  let null := fun (_ : nat) (_ _ : string) => Some V1.PyNone in
  exists w',
    V1.convert null 100 "USD" "BDT" v1_world
    = (Raise (TypeError
                "unsupported operand type(s) for *: 'float' and 'NoneType'"),
       w')
    /\ V1.cache w' !! ("USD", "BDT") = Some V1.PyNone
    /\ V1.convert v1_offline 100 "USD" "BDT" w'
       = (Raise (TypeError
                   "unsupported operand type(s) for *: 'float' and 'NoneType'"),
          w').
Proof.
  eexists. split; [reflexivity|]. split; reflexivity.
Qed.

(** What [transfer] does once both rows are read. *)
Lemma v1_transfer_steps net (now : string) (from_id to_id : Z) (amt : float)
    (currency : string) (w : V1.World) (f t : V1.account)
    (frest trest : list V1.account) :
  int64 from_id = true -> int64 to_id = true ->
  v1_rows from_id w = f :: frest ->
  v1_rows to_id w = t :: trest ->
  let w1 := v1_asked net w currency (V1.acc_currency f) in
  let w2 := v1_asked net w1 currency (V1.acc_currency t) in
  V1.transfer net now from_id to_id amt currency w
  = match v1_priced net w amt currency (V1.acc_currency f) with
    | Raise e => (Raise e, w1)
    | Ok debit =>
        match v1_priced net w1 amt currency (V1.acc_currency t) with
        | Raise e => (Raise e, w2)
        | Ok credit =>
            match V1.minus (V1.acc_balance f) debit with
            | Raise e => (Raise e, w2)
            | Ok fbal =>
                let d3 :=
                  V1.with_accounts (V1.db w)
                    (map (V1.set_balance from_id fbal)
                         (V1.accounts (V1.db w)))
                    (V1.seq_accounts (V1.db w)) in
                match V1.plus (V1.acc_balance t) credit with
                | Raise e =>
                    (Raise e, V1.mkWorld d3 (V1.cache w2) (V1.requests w2))
                | Ok tbal =>
                    let d4 :=
                      V1.with_accounts d3
                        (map (V1.set_balance to_id tbal) (V1.accounts d3))
                        (V1.seq_accounts d3) in
                    (Ok tt,
                     V1.mkWorld
                       (V1.with_transfers d4
                          (V1.transfers d4
                           ++ [V1.mkTransfer (V1.seq_transfers d4 + 1)
                                 from_id to_id (V1.bind_real amt) currency
                                 now])
                          (V1.seq_transfers d4 + 1))
                       (V1.cache w2) (V1.requests w2))
                end
            end
        end
    end.
Proof.
  intros Hf Ht Hrf Hrt w1 w2. unfold V1.transfer.
  unfold bind at 1. rewrite v1_accounts_by_id_ok by exact Hf. rewrite Hrf.
  unfold bind at 1. cbn [V1.first_row ret].
  unfold bind at 1. rewrite v1_accounts_by_id_ok by exact Ht. rewrite Hrt.
  unfold bind at 1. cbn [V1.first_row ret].
  unfold bind at 1. rewrite v1_in_currency_of_eq. fold w1.
  destruct (v1_priced net w amt currency (V1.acc_currency f)) as [debit|e];
    [|reflexivity].
  unfold bind at 1. rewrite v1_in_currency_of_eq. fold w2.
  destruct (v1_priced net w1 amt currency (V1.acc_currency t))
    as [credit|e]; [|reflexivity].
  unfold bind at 1, V1.lift.
  destruct (V1.minus (V1.acc_balance f) debit) as [fbal|e]; [|reflexivity].
  unfold bind at 1. rewrite v1_update_balance_ok by exact Hf.
  assert (V1.db w2 = V1.db w) as Hdb.
  { unfold w2, w1. rewrite !v1_asked_db. reflexivity. }
  rewrite Hdb. unfold bind at 1.
  destruct (V1.plus (V1.acc_balance t) credit) as [tbal|e]; [|reflexivity].
  unfold bind at 1. rewrite v1_update_balance_ok by exact Ht.
  reflexivity.
Qed.

Lemma v1_balance_of_rows (id : Z) (w : V1.World) (a : V1.account)
    (rest : list V1.account) :
  v1_rows id w = a :: rest -> v1_balance_of id w = Some (V1.acc_balance a).
Proof. intros H. unfold v1_balance_of. rewrite H. reflexivity. Qed.

(** X21: a transfer between two different accounts, both found (the ids
    fitting the INTEGER column) and both holding a number, with both
    conversions giving a number: the call returns; the source then holds
    its balance minus the debit and the target its balance plus the
    credit, as the REAL column stores them.  The debit is the amount
    itself when the currency of the transfer is that of the source, and
    otherwise the amount times what [fetch_rate] answers for the pair; the
    credit likewise for the target, asked after the debit.  Every other
    account is as before and one row is added to [transfers].  Nothing
    compares the amount with the balance of the source. *)
Theorem v1_transfer_moves_amount :
  forall (net : nat -> string -> string -> option V1.pyval) (now : string)
         (from_id to_id : Z) (amt : float) (currency : string)
         (w : V1.World) (f t : V1.account)
         (frest trest : list V1.account) (fb tb debit credit : float),
    int64 from_id = true -> int64 to_id = true ->
    from_id <> to_id ->
    v1_rows from_id w = f :: frest ->
    v1_rows to_id w = t :: trest ->
    V1.acc_balance f = Some fb ->
    V1.acc_balance t = Some tb ->
    v1_priced net w amt currency (V1.acc_currency f) = Ok debit ->
    v1_priced net (v1_asked net w currency (V1.acc_currency f)) amt currency
      (V1.acc_currency t) = Ok credit ->
    (exists w',
        V1.transfer net now from_id to_id amt currency w = (Ok tt, w')
        /\ v1_balance_of from_id w' = Some (V1.bind_real (fb - debit)%float)
        /\ v1_balance_of to_id w' = Some (V1.bind_real (tb + credit)%float)
        /\ V1.accounts (V1.db w')
           = map (V1.set_balance to_id (tb + credit)%float)
                 (map (V1.set_balance from_id (fb - debit)%float)
                      (V1.accounts (V1.db w)))
        /\ (forall id, id <> from_id -> id <> to_id ->
                       v1_rows id w' = v1_rows id w)
        /\ V1.transfers (V1.db w')
           = V1.transfers (V1.db w)
             ++ [V1.mkTransfer (V1.seq_transfers (V1.db w) + 1) from_id to_id
                   (V1.bind_real amt) currency now])
    /\ (currency = V1.acc_currency f -> debit = amt)
    /\ (currency <> V1.acc_currency f ->
        exists v w1,
          V1.fetch_rate net currency (V1.acc_currency f) w = (Ok v, w1)
          /\ V1.times amt v = Ok debit)
    /\ (currency = V1.acc_currency t -> credit = amt)
    /\ (currency <> V1.acc_currency t ->
        exists v w1,
          V1.fetch_rate net currency (V1.acc_currency t)
            (v1_asked net w currency (V1.acc_currency f)) = (Ok v, w1)
          /\ V1.times amt v = Ok credit).
Proof.
  intros net now from_id to_id amt currency w f t frest trest fb tb debit
         credit Hf Ht Hne Hrf Hrt Hfb Htb Hd Hc.
  split;
    [|split; [apply (v1_priced_cases _ _ _ _ _ _ Hd)|
      split; [apply (v1_priced_cases _ _ _ _ _ _ Hd)|
      split; [apply (v1_priced_cases _ _ _ _ _ _ Hc)|
              apply (v1_priced_cases _ _ _ _ _ _ Hc)]]]].
  rewrite (v1_transfer_steps net now from_id to_id amt currency w f t frest
             trest Hf Ht Hrf Hrt).
  cbv zeta. rewrite Hd, Hc, Hfb, Htb. cbn [V1.minus V1.plus].
  eexists. split; [reflexivity|].
  pose proof (v1_rows_head_id _ _ _ _ Hrf) as Hidf.
  pose proof (v1_rows_head_id _ _ _ _ Hrt) as Hidt.
  split; [|split; [|split; [reflexivity|split; [|reflexivity]]]].
  - unfold v1_balance_of, v1_rows.
    cbn [V1.db V1.accounts V1.with_accounts V1.with_transfers].
    rewrite !v1_filter_set_balance. fold (v1_rows from_id w). rewrite Hrf.
    cbn [map]. f_equal.
    rewrite v1_set_balance_miss
      by (rewrite v1_set_balance_id; congruence).
    apply v1_set_balance_hit. exact Hidf.
  - unfold v1_balance_of, v1_rows.
    cbn [V1.db V1.accounts V1.with_accounts V1.with_transfers].
    rewrite !v1_filter_set_balance. fold (v1_rows to_id w). rewrite Hrt.
    cbn [map]. f_equal.
    rewrite (v1_set_balance_miss from_id _ t) by congruence.
    apply v1_set_balance_hit. exact Hidt.
  - intros id H1 H2. unfold v1_rows.
    cbn [V1.db V1.accounts V1.with_accounts V1.with_transfers].
    rewrite !v1_filter_set_balance.
    rewrite (v1_set_balance_others id from_id) by exact H1.
    apply v1_set_balance_others. exact H2.
Qed.

Lemma v1_transfer_moves_amount_witness :
  exists w',
    V1.transfer v1_offline "2024-03-01T08:00:00" 1 4 100 "USD" v1_world
    = (Ok tt, w')
    /\ v1_balance_of 1 w' = Some (Some (-11500)%float)
    /\ v1_balance_of 4 w' = Some (Some 120%float)
    /\ v1_rows 2 w' = [v1_bank]
    /\ V1.transfers (V1.db w')
       = [V1.mkTransfer 1 1 4 (Some 100%float) "USD" "2024-03-01T08:00:00"].
Proof.
  destruct (v1_transfer_moves_amount v1_offline "2024-03-01T08:00:00" 1 4
              100 "USD" v1_world v1_wallet v1_dollars [] [] 500 20 12000 100)
    as ((w' & H1 & H2 & H3 & _ & H4 & H5) & _).
  - reflexivity.
  - reflexivity.
  - discriminate.
  - reflexivity.
  - reflexivity.
  - reflexivity.
  - reflexivity.
  - vm_compute. reflexivity.
  - vm_compute. reflexivity.
  - exists w'. split; [exact H1|].
    split; [rewrite H2; vm_compute; reflexivity|].
    split; [rewrite H3; vm_compute; reflexivity|].
    split; [rewrite H4 by discriminate; reflexivity|].
    rewrite H5. reflexivity.
Defined.

(** X22: a transfer from an account to itself.  Both rows are read before
    either balance is written, so the second write, computed from the
    balance read at the start, replaces the first: the account ends with
    its balance plus the credit (plus the amount, in its own currency),
    not with the balance it had, and the transfer is recorded. *)
Theorem v1_transfer_to_self :
  forall (net : nat -> string -> string -> option V1.pyval) (now : string)
         (id : Z) (amt : float) (currency : string) (w : V1.World)
         (a : V1.account) (rest : list V1.account)
         (balance debit credit : float),
    int64 id = true ->
    v1_rows id w = a :: rest ->
    V1.acc_balance a = Some balance ->
    v1_priced net w amt currency (V1.acc_currency a) = Ok debit ->
    v1_priced net (v1_asked net w currency (V1.acc_currency a)) amt currency
      (V1.acc_currency a) = Ok credit ->
    (exists w',
        V1.transfer net now id id amt currency w = (Ok tt, w')
        /\ v1_balance_of id w' = Some (V1.bind_real (balance + credit)%float)
        /\ (forall id', id' <> id -> v1_rows id' w' = v1_rows id' w)
        /\ V1.transfers (V1.db w')
           = V1.transfers (V1.db w)
             ++ [V1.mkTransfer (V1.seq_transfers (V1.db w) + 1) id id
                   (V1.bind_real amt) currency now])
    /\ (currency = V1.acc_currency a -> credit = amt)
    /\ (currency <> V1.acc_currency a ->
        exists v w1,
          V1.fetch_rate net currency (V1.acc_currency a)
            (v1_asked net w currency (V1.acc_currency a)) = (Ok v, w1)
          /\ V1.times amt v = Ok credit).
Proof.
  intros net now id amt currency w a rest balance debit credit Hi Hr Hb Hd
         Hc.
  split;
    [|split; [apply (v1_priced_cases _ _ _ _ _ _ Hc)|
              apply (v1_priced_cases _ _ _ _ _ _ Hc)]].
  rewrite (v1_transfer_steps net now id id amt currency w a a rest rest Hi Hi
             Hr Hr).
  cbv zeta. rewrite Hd, Hc, Hb. cbn [V1.minus V1.plus].
  eexists. split; [reflexivity|].
  pose proof (v1_rows_head_id _ _ _ _ Hr) as Hid.
  split; [|split; [|reflexivity]].
  - unfold v1_balance_of, v1_rows.
    cbn [V1.db V1.accounts V1.with_accounts V1.with_transfers].
    rewrite !v1_filter_set_balance. fold (v1_rows id w). rewrite Hr.
    cbn [map]. f_equal.
    apply v1_set_balance_hit. rewrite v1_set_balance_id. exact Hid.
  - intros id' H1. unfold v1_rows.
    cbn [V1.db V1.accounts V1.with_accounts V1.with_transfers].
    rewrite !v1_filter_set_balance.
    rewrite (v1_set_balance_others id' id) by exact H1.
    apply v1_set_balance_others. exact H1.
Qed.

Lemma v1_transfer_to_self_witness :
  exists w',
    V1.transfer v1_quotes "2024-03-01T08:00:00" 2 2 100 "USD" v1_world
    = (Ok tt, w')
    /\ v1_balance_of 2 w' = Some (Some 1050%float)
    /\ v1_rows 1 w' = [v1_wallet]
    /\ V1.transfers (V1.db w')
       = [V1.mkTransfer 1 2 2 (Some 100%float) "USD" "2024-03-01T08:00:00"].
Proof.
  destruct (v1_transfer_to_self v1_quotes "2024-03-01T08:00:00" 2 100 "USD"
              v1_world v1_bank [] 1000 50 50)
    as ((w' & H1 & H2 & H3 & H4) & _).
  - reflexivity.
  - reflexivity.
  - reflexivity.
  - vm_compute. reflexivity.
  - vm_compute. reflexivity.
  - exists w'. split; [exact H1|].
    split; [rewrite H2; vm_compute; reflexivity|].
    split; [rewrite H3 by discriminate; reflexivity|].
    rewrite H4. reflexivity.
Defined.

(** X23: a transfer that names an account that does not exist, on either
    side, the ids fitting the INTEGER column, raises [IndexError] before
    anything is written: accounts, transfers, cache and request counter
    are as before.  An id outside the 64-bit range, met before a missing
    row, raises [OverflowError] instead, and nothing is written either. *)
Theorem v1_transfer_unknown_account :
  forall (net : nat -> string -> string -> option V1.pyval) (now : string)
         (from_id to_id : Z) (amt : float) (currency : string)
         (w : V1.World),
    (int64 from_id = true ->
     v1_rows from_id w = []
     \/ (int64 to_id = true /\ v1_rows to_id w = []) ->
     V1.transfer net now from_id to_id amt currency w
     = (Raise (IndexError "list index out of range"), w))
    /\ (int64 from_id = false
        \/ (v1_rows from_id w <> [] /\ int64 to_id = false) ->
        V1.transfer net now from_id to_id amt currency w
        = (Raise (OverflowError
                    "Python int too large to convert to SQLite INTEGER"),
           w)).
Proof.
  intros net now from_id to_id amt currency w. split.
  - intros Hf H. unfold V1.transfer.
    unfold bind at 1. rewrite v1_accounts_by_id_ok by exact Hf.
    destruct (v1_rows from_id w) as [|f frest] eqn:Hrf; [reflexivity|].
    destruct H as [H|[Ht Hrt]]; [discriminate|].
    unfold bind at 1. cbn [V1.first_row ret].
    unfold bind at 1. rewrite v1_accounts_by_id_ok by exact Ht.
    rewrite Hrt. reflexivity.
  - intros [Hf|[Hrf Ht]]; unfold V1.transfer.
    + unfold bind at 1, V1.accounts_by_id. unfold bind at 1.
      rewrite bind_int_overflow by exact Hf. reflexivity.
    + destruct (int64 from_id) eqn:Hf.
      * unfold bind at 1. rewrite v1_accounts_by_id_ok by exact Hf.
        destruct (v1_rows from_id w) as [|f frest]; [congruence|].
        unfold bind at 1. cbn [V1.first_row ret].
        unfold bind at 1, V1.accounts_by_id. unfold bind at 1.
        rewrite bind_int_overflow by exact Ht. reflexivity.
      * unfold bind at 1, V1.accounts_by_id. unfold bind at 1.
        rewrite bind_int_overflow by exact Hf. reflexivity.
Qed.

Lemma v1_transfer_unknown_account_witness :
  V1.transfer v1_offline "2024-03-01T08:00:00" 1 9 100 "BDT" v1_world
  = (Raise (IndexError "list index out of range"), v1_world)
  /\ V1.transfer v1_offline "2024-03-01T08:00:00" 9 1 100 "BDT" v1_world
     = (Raise (IndexError "list index out of range"), v1_world)
  /\ V1.transfer v1_offline "2024-03-01T08:00:00" 1 (2 ^ 63) 100 "BDT"
       v1_world
     = (Raise (OverflowError
                 "Python int too large to convert to SQLite INTEGER"),
        v1_world).
Proof.
  split; [|split].
  - apply (proj1 (v1_transfer_unknown_account v1_offline
                    "2024-03-01T08:00:00" 1 9 100 "BDT" v1_world)).
    + reflexivity.
    + right. split; reflexivity.
  - apply (proj1 (v1_transfer_unknown_account v1_offline
                    "2024-03-01T08:00:00" 9 1 100 "BDT" v1_world)).
    + reflexivity.
    + left. reflexivity.
  - apply (proj2 (v1_transfer_unknown_account v1_offline
                    "2024-03-01T08:00:00" 1 (2 ^ 63) 100 "BDT" v1_world)).
    right. split; [discriminate|reflexivity].
Defined.

(** X24: a transfer to an account whose balance is NULL stops half way.
    The source, a different account holding a number, is debited first;
    adding to the NULL balance then raises [TypeError]; the debit stays
    written, the target still holds NULL and no transfer is recorded. *)
Theorem v1_transfer_null_target :
  forall (net : nat -> string -> string -> option V1.pyval) (now : string)
         (from_id to_id : Z) (amt : float) (currency : string)
         (w : V1.World) (f t : V1.account)
         (frest trest : list V1.account) (fb debit credit : float),
    int64 from_id = true -> int64 to_id = true ->
    from_id <> to_id ->
    v1_rows from_id w = f :: frest ->
    v1_rows to_id w = t :: trest ->
    V1.acc_balance f = Some fb ->
    V1.acc_balance t = None ->
    v1_priced net w amt currency (V1.acc_currency f) = Ok debit ->
    v1_priced net (v1_asked net w currency (V1.acc_currency f)) amt currency
      (V1.acc_currency t) = Ok credit ->
    (exists w',
        V1.transfer net now from_id to_id amt currency w
        = (Raise (TypeError
                    "unsupported operand type(s) for +: 'NoneType' and 'float'"),
           w')
        /\ v1_balance_of from_id w' = Some (V1.bind_real (fb - debit)%float)
        /\ v1_balance_of to_id w' = Some None
        /\ V1.accounts (V1.db w')
           = map (V1.set_balance from_id (fb - debit)%float)
                 (V1.accounts (V1.db w))
        /\ V1.transfers (V1.db w') = V1.transfers (V1.db w)
        /\ V1.seq_transfers (V1.db w') = V1.seq_transfers (V1.db w))
    /\ (currency = V1.acc_currency f -> debit = amt)
    /\ (currency <> V1.acc_currency f ->
        exists v w1,
          V1.fetch_rate net currency (V1.acc_currency f) w = (Ok v, w1)
          /\ V1.times amt v = Ok debit).
Proof.
  intros net now from_id to_id amt currency w f t frest trest fb debit credit
         Hf Ht Hne Hrf Hrt Hfb Htb Hd Hc.
  split;
    [|split; [apply (v1_priced_cases _ _ _ _ _ _ Hd)|
              apply (v1_priced_cases _ _ _ _ _ _ Hd)]].
  rewrite (v1_transfer_steps net now from_id to_id amt currency w f t frest
             trest Hf Ht Hrf Hrt).
  cbv zeta. rewrite Hd, Hc, Hfb, Htb. cbn [V1.minus V1.plus].
  eexists. split; [reflexivity|].
  pose proof (v1_rows_head_id _ _ _ _ Hrf) as Hidf.
  pose proof (v1_rows_head_id _ _ _ _ Hrt) as Hidt.
  split; [|split; [|split; [reflexivity|split; reflexivity]]].
  - unfold v1_balance_of, v1_rows.
    cbn [V1.db V1.accounts V1.with_accounts].
    rewrite !v1_filter_set_balance. fold (v1_rows from_id w). rewrite Hrf.
    cbn [map]. f_equal. apply v1_set_balance_hit. exact Hidf.
  - unfold v1_balance_of, v1_rows.
    cbn [V1.db V1.accounts V1.with_accounts].
    rewrite !v1_filter_set_balance. fold (v1_rows to_id w). rewrite Hrt.
    cbn [map]. f_equal.
    rewrite (v1_set_balance_miss from_id _ t) by congruence.
    exact Htb.
Qed.

Lemma v1_transfer_null_target_witness :
  exists w',
    V1.transfer v1_quotes "2024-03-01T08:00:00" 1 3 100 "USD" v1_world
    = (Raise (TypeError
                "unsupported operand type(s) for +: 'NoneType' and 'float'"),
       w')
    /\ v1_balance_of 1 w' = Some (Some 450%float)
    /\ v1_balance_of 3 w' = Some None
    /\ V1.transfers (V1.db w') = [].
Proof.
  destruct (v1_transfer_null_target v1_quotes "2024-03-01T08:00:00" 1 3 100
              "USD" v1_world v1_wallet v1_void [] [] 500 50 50)
    as ((w' & H1 & H2 & H3 & _ & H4 & _) & _).
  - reflexivity.
  - reflexivity.
  - discriminate.
  - reflexivity.
  - reflexivity.
  - reflexivity.
  - reflexivity.
  - vm_compute. reflexivity.
  - vm_compute. reflexivity.
  - exists w'. split; [exact H1|].
    split; [rewrite H2; vm_compute; reflexivity|].
    split; [exact H3|]. rewrite H4. reflexivity.
Defined.

(** What [add_income] of [main_v1.py] does up to the account query: the
    row is inserted, whatever it holds. *)
Lemma v1_add_income_inserted net (now src desc : string) (amt : float)
    (currency : string) (acc_id' : Z) (when : Cal.date) (w : V1.World) :
  int64 acc_id' = true ->
  let w0 :=
    V1.mkWorld
      (V1.with_incomes (V1.db w)
         (V1.incomes (V1.db w)
          ++ [V1.mkIncome (V1.seq_incomes (V1.db w) + 1) src desc
                (V1.bind_real amt) currency acc_id' 0 (Cal.isoformat when)
                now])
         (V1.seq_incomes (V1.db w) + 1))
      (V1.cache w) (V1.requests w) in
  V1.add_income net now src desc amt currency acc_id' false when w
  = match v1_rows acc_id' w with
    | [] => (Raise (IndexError "list index out of range"), w0)
    | acc :: _ =>
        match v1_priced net w amt currency (V1.acc_currency acc) with
        | Raise e =>
            (Raise e, v1_asked net w0 currency (V1.acc_currency acc))
        | Ok credit =>
            match V1.plus (V1.acc_balance acc) credit with
            | Raise e =>
                (Raise e, v1_asked net w0 currency (V1.acc_currency acc))
            | Ok new_bal =>
                V1.update_balance acc_id' new_bal
                  (v1_asked net w0 currency (V1.acc_currency acc))
            end
        end
    end.
Proof.
  intros Ha w0. unfold V1.add_income, bind at 1.
  rewrite bind_int_ok by exact Ha.
  unfold bind at 1, V1.get_db. unfold bind at 1, V1.set_db.
  cbn [negb]. fold w0. unfold bind at 1.
  rewrite v1_accounts_by_id_ok by exact Ha.
  change (v1_rows acc_id' w0) with (v1_rows acc_id' w).
  destruct (v1_rows acc_id' w) as [|acc rows]; [reflexivity|].
  unfold bind at 1. cbn [V1.first_row ret]. unfold bind at 1.
  rewrite v1_in_currency_of_eq. unfold w0 at 1. rewrite v1_priced_frame.
  destruct (v1_priced net w amt currency (V1.acc_currency acc))
    as [credit|e]; [|reflexivity].
  unfold bind at 1, V1.lift.
  destruct (V1.plus (V1.acc_balance acc) credit); reflexivity.
Qed.

(** X25: [add_income] of [main_v1.py] credits the account the call names
    (it does not look for a liquid account as [main.py] does), the id
    fitting the INTEGER column.  With that account found and holding a
    number, and the conversion giving a number, the income row is
    appended and the account holds its balance plus the credit, as the
    REAL column stores it: the amount itself in the currency of the
    account, and the amount times what [fetch_rate] answers otherwise.
    With no such account the call raises [IndexError] after the income row
    has been written, and the accounts are as before. *)
Theorem v1_add_income_credits_named_account :
  forall (net : nat -> string -> string -> option V1.pyval)
         (now src desc : string) (amt : float) (currency : string)
         (acc_id' : Z) (when : Cal.date) (w : V1.World),
    int64 acc_id' = true ->
    let row :=
      V1.mkIncome (V1.seq_incomes (V1.db w) + 1) src desc (V1.bind_real amt)
                  currency acc_id' 0 (Cal.isoformat when) now in
    (forall (a : V1.account) (rest : list V1.account)
            (balance credit : float),
        v1_rows acc_id' w = a :: rest ->
        V1.acc_balance a = Some balance ->
        v1_priced net w amt currency (V1.acc_currency a) = Ok credit ->
        (exists w',
            V1.add_income net now src desc amt currency acc_id' false when w
            = (Ok tt, w')
            /\ v1_balance_of acc_id' w'
               = Some (V1.bind_real (balance + credit)%float)
            /\ V1.accounts (V1.db w')
               = map (V1.set_balance acc_id' (balance + credit)%float)
                     (V1.accounts (V1.db w))
            /\ V1.incomes (V1.db w') = V1.incomes (V1.db w) ++ [row])
        /\ (currency = V1.acc_currency a -> credit = amt)
        /\ (currency <> V1.acc_currency a ->
            exists v w1,
              V1.fetch_rate net currency (V1.acc_currency a) w = (Ok v, w1)
              /\ V1.times amt v = Ok credit))
    /\ (v1_rows acc_id' w = [] ->
        exists w',
          V1.add_income net now src desc amt currency acc_id' false when w
          = (Raise (IndexError "list index out of range"), w')
          /\ V1.accounts (V1.db w') = V1.accounts (V1.db w)
          /\ V1.cache w' = V1.cache w
          /\ V1.requests w' = V1.requests w
          /\ V1.incomes (V1.db w') = V1.incomes (V1.db w) ++ [row]).
Proof.
  intros net now src desc amt currency acc_id' when w Hi row. split.
  - intros a rest balance credit Hr Hb Hc.
    split;
      [|split; [apply (v1_priced_cases _ _ _ _ _ _ Hc)|
                apply (v1_priced_cases _ _ _ _ _ _ Hc)]].
    rewrite (v1_add_income_inserted net now src desc amt currency acc_id'
               when w Hi).
    cbv zeta. rewrite Hr, Hc, Hb. cbn [V1.plus].
    rewrite v1_update_balance_ok by exact Hi.
    eexists. split; [reflexivity|].
    cbn [V1.db V1.accounts V1.incomes V1.with_accounts].
    rewrite !v1_asked_db.
    cbn [V1.db V1.accounts V1.incomes V1.with_incomes].
    split; [|split; reflexivity].
    unfold v1_balance_of, v1_rows.
    cbn [V1.db V1.accounts V1.with_accounts]. rewrite ?v1_asked_db.
    cbn [V1.db V1.accounts V1.with_incomes].
    rewrite v1_filter_set_balance. fold (v1_rows acc_id' w). rewrite Hr.
    cbn [map]. f_equal. apply v1_set_balance_hit.
    exact (v1_rows_head_id _ _ _ _ Hr).
  - intros Hr.
    rewrite (v1_add_income_inserted net now src desc amt currency acc_id'
               when w Hi).
    cbv zeta. rewrite Hr. eexists. split; [reflexivity|].
    repeat split; reflexivity.
Qed.

Lemma v1_add_income_credits_named_account_witness :
  (exists w',
      V1.add_income v1_quotes "2024-03-01T08:00:00" "Acme" "bonus" 10 "BDT" 4
        false (Cal.mkDate 2024 2 29) v1_world = (Ok tt, w')
      /\ v1_balance_of 4 w' = Some (Some 25%float)
      /\ V1.incomes (V1.db w')
         = [V1.mkIncome 1 "Acme" "bonus" (Some 10%float) "BDT" 4 0
              "2024-02-29" "2024-03-01T08:00:00"])
  /\ (exists w',
         V1.add_income v1_quotes "2024-03-01T08:00:00" "Acme" "bonus" 10
           "BDT" 9 false (Cal.mkDate 2024 2 29) v1_world
         = (Raise (IndexError "list index out of range"), w')
         /\ V1.accounts (V1.db w') = V1.accounts (V1.db v1_world)
         /\ V1.incomes (V1.db w')
            = [V1.mkIncome 1 "Acme" "bonus" (Some 10%float) "BDT" 9 0
                 "2024-02-29" "2024-03-01T08:00:00"]).
Proof.
  split.
  - destruct (proj1 (v1_add_income_credits_named_account v1_quotes
                       "2024-03-01T08:00:00" "Acme" "bonus" 10 "BDT" 4
                       (Cal.mkDate 2024 2 29) v1_world eq_refl)
                v1_dollars [] 20%float 5%float eq_refl eq_refl
                ltac:(vm_compute; reflexivity))
      as ((w' & H1 & H2 & _ & H3) & _).
    exists w'. split; [exact H1|].
    split; [rewrite H2; vm_compute; reflexivity|].
    rewrite H3. reflexivity.
  - destruct (proj2 (v1_add_income_credits_named_account v1_quotes
                       "2024-03-01T08:00:00" "Acme" "bonus" 10 "BDT" 9
                       (Cal.mkDate 2024 2 29) v1_world eq_refl) eq_refl)
      as (w' & H1 & H2 & _ & _ & H3).
    exists w'. split; [exact H1|]. split; [exact H2|].
    rewrite H3. reflexivity.
Defined.
